(** * GA4 sessions fetcher: HTTP handlers over the analytics vendor SDK

    A shallow embedding of the handlers of [main_old.py], [main_oauth.py],
    [main.py], [sessions.py] and [accounts.py], and the properties of their
    parameter handling, authorisation gate, response envelopes and vendor
    interaction.

    Conventions.  A Python [str] is a [string] whose characters are the code
    points 0..255.  A Python value that can reach a handler from a JSON body
    is a [pyval]; JSON numbers are integers here (floats are outside the
    model).  The vendor SDK and the traceback formatter are the fields of
    a [Runtime] the handlers are run in; what a run reads of the request
    and sends to the vendor is recorded in a trace.  The vendor's message
    constructor takes strings for its dates and raises TypeError on any
    other value; constructing a client sends nothing. *)

From Stdlib Require Import String Ascii List ZArith Lia Bool.
From Stdlib Require Import DecimalString DecimalPos DecimalZ.
Import ListNotations.

Local Open Scope list_scope.
Local Open Scope string_scope.
Set Warnings "-register-all".

(* ================================================================== *)
(** * Python strings *)
(* ================================================================== *)

Module Py.

(** The double-quote character, and a string wrapped in double quotes. *)
Definition dquote : ascii := "034"%char.
Definition squote : ascii := "039"%char.
Definition backslash : ascii := "092"%char.

Definition quoted (s : string) : string :=
  String dquote (s ++ String dquote EmptyString).

Definition code (c : ascii) : N := N_of_ascii c.

(** [str.isspace] on one character ([Py_UNICODE_ISSPACE]), for code points
    below 256: TAB..CR, FS..US, space, NEL and NBSP. *)
Definition is_space (c : ascii) : bool :=
  let n := code c in
  ((9 <=? n) && (n <=? 13) || (28 <=? n) && (n <=? 31) || (n =? 32)
   || (n =? 133) || (n =? 160))%N.

(** What [int()] skips around a literal: the non-ASCII spaces are first
    turned into blanks, then the C-locale [Py_ISSPACE] is used, which does
    not know FS..US. *)
Definition is_int_space (c : ascii) : bool :=
  let n := code c in
  ((9 <=? n) && (n <=? 13) || (n =? 32) || (n =? 133) || (n =? 160))%N.

Definition is_digit (c : ascii) : bool :=
  let n := code c in ((48 <=? n) && (n <=? 57))%N.

Definition digit_value (c : ascii) : Z := (Z.of_N (code c) - 48)%Z.

(** [s.startswith(p)] *)
Definition startswith (s p : string) : bool := String.prefix p s.

(** Strip characters satisfying [sp] from the left. *)
Fixpoint lstrip_by (sp : ascii -> bool) (s : string) : string :=
  match s with
  | EmptyString => EmptyString
  | String c s' => if sp c then lstrip_by sp s' else s
  end.

(** Strip from the right: a character is dropped when it satisfies [sp] and
    everything after it was dropped too. *)
Fixpoint rstrip_by (sp : ascii -> bool) (s : string) : string :=
  match s with
  | EmptyString => EmptyString
  | String c s' =>
      match rstrip_by sp s' with
      | EmptyString => if sp c then EmptyString else String c EmptyString
      | r => String c r
      end
  end.

(** [s.strip()] *)
Definition strip (s : string) : string := rstrip_by is_space (lstrip_by is_space s).

(** [s.split(sep)] and [s.split(sep, maxsplit)] for a one-character
    separator; [maxsplit = None] stands for no limit. *)
Fixpoint split (sep : ascii) (maxsplit : option nat) (s : string) : list string :=
  match s with
  | EmptyString => [EmptyString]
  | String c s' =>
      if Ascii.eqb c sep then
        match maxsplit with
        | Some O =>
            (* no split left: the rest is one field *)
            match split sep (Some O) s' with
            | f :: fs => String c f :: fs
            | [] => [String c EmptyString]
            end
        | Some (S k) => EmptyString :: split sep (Some k) s'
        | None => EmptyString :: split sep None s'
        end
      else
        match split sep maxsplit s' with
        | f :: fs => String c f :: fs
        | [] => [String c EmptyString]
        end
  end.

(** [l[i]] for a non-negative index; [None] is Python's IndexError. *)
Definition index {A} (l : list A) (i : nat) : option A := nth_error l i.

(** [l[-1]]; [None] is Python's IndexError. *)
Fixpoint index_last {A} (l : list A) : option A :=
  match l with
  | [] => None
  | [x] => Some x
  | _ :: l' => index_last l'
  end.

(** [sep.join(l)] *)
Fixpoint join (sep : string) (l : list string) : string :=
  match l with
  | [] => EmptyString
  | [x] => x
  | x :: l' => x ++ sep ++ join sep l'
  end.

(** Decimal text of an integer: [str(n)] and [repr(n)]. *)
Definition str_of_Z (z : Z) : string := NilZero.string_of_int (Z.to_int z).

Definition hex_digit (n : N) : ascii :=
  if (n <? 10)%N then ascii_of_N (48 + n) else ascii_of_N (87 + n).

(** Two lower-case hexadecimal digits of a character code. *)
Definition hex2 (c : ascii) : string :=
  String (hex_digit (code c / 16)) (String (hex_digit (code c mod 16)) EmptyString).

(** ** [repr] of a string *)

Fixpoint contains (c : ascii) (s : string) : bool :=
  match s with
  | EmptyString => false
  | String c' s' => Ascii.eqb c c' || contains c s'
  end.

(** The quote [repr] wraps a string in: a double quote only when the string
    holds a single quote and no double quote. *)
Definition repr_quote (s : string) : ascii :=
  if contains squote s && negb (contains dquote s) then dquote else squote.

(** [str.isprintable] on one character, for code points below 256. *)
Definition is_printable (c : ascii) : bool :=
  let n := code c in
  ((32 <=? n) && (n <=? 126) || (161 <=? n) && negb (n =? 173))%N.

Definition repr_char (q c : ascii) : string :=
  if Ascii.eqb c q || Ascii.eqb c backslash then String backslash (String c EmptyString)
  else if (code c =? 9)%N then String backslash "t"
  else if (code c =? 10)%N then String backslash "n"
  else if (code c =? 13)%N then String backslash "r"
  else if is_printable c then String c EmptyString
  else String backslash (String "x" (hex2 c)).

Fixpoint repr_chars (q : ascii) (s : string) : string :=
  match s with
  | EmptyString => EmptyString
  | String c s' => repr_char q c ++ repr_chars q s'
  end.

Definition repr_str (s : string) : string :=
  let q := repr_quote s in
  String q (repr_chars q s ++ String q EmptyString).

(** ** Exceptions *)

(** An exception object: its class name and [str(e)].  Every exception of
    the model is an instance of [Exception]. *)
Record exn : Type := Exn { exn_class : string; exn_msg : string }.

Definition ValueError (msg : string) : exn := Exn "ValueError" msg.
Definition AttributeError (msg : string) : exn := Exn "AttributeError" msg.
Definition IndexError (msg : string) : exn := Exn "IndexError" msg.

Definition isinstance (e : exn) (cls : string) : bool := String.eqb (exn_class e) cls.

(** [str(e)] *)
Definition str_of_exn (e : exn) : string := exn_msg e.

Inductive result (A : Type) : Type :=
| Ok (a : A)
| Raise (e : exn).
Arguments Ok {A} a.
Arguments Raise {A} e.

(** ** [int(s)] on a string *)

(** The interpreter's default limit on the digits of a converted integer
    ([sys.int_info.default_max_str_digits]); it is only consulted above
    [int_digits_threshold] digits. *)
Definition int_max_str_digits : nat := 4300.
Definition int_digits_threshold : nat := 640.

(** Scan the run of digits and underscores at the head of [s].  [prev_us]
    tells whether the previous character was an underscore; the result is
    the value, the number of digits and the unread rest, or [None] for a
    doubled or trailing underscore. *)
Fixpoint scan_digits (prev_us : bool) (acc : Z) (digits : nat) (s : string)
  : option (Z * nat * string) :=
  match s with
  | EmptyString => if prev_us then None else Some (acc, digits, EmptyString)
  | String c s' =>
      if Ascii.eqb c "_" then
        if prev_us then None else scan_digits true acc digits s'
      else if is_digit c then
        scan_digits false (10 * acc + digit_value c)%Z (S digits) s'
      else if prev_us then None else Some (acc, digits, s)
  end.

Definition invalid_literal (s : string) : exn :=
  ValueError ("invalid literal for int() with base 10: "
              ++ substring 0 200 (repr_str s)).

Definition str_of_nat (n : nat) : string := str_of_Z (Z.of_nat n).

Definition exceeds_limit (digits : nat) : exn :=
  ValueError ("Exceeds the limit (" ++ str_of_nat int_max_str_digits
              ++ " digits) for integer string conversion: value has "
              ++ str_of_nat digits
              ++ " digits; use sys.set_int_max_str_digits() to increase the limit").

(** The end of [int] on a scanned literal: the digit limit, checked as soon
    as the digits are counted, then at least one digit and nothing but
    blanks behind it. *)
Definition int_finish (s : string) (neg : bool)
           (scanned : option (Z * nat * string)) : result Z :=
  match scanned with
  | None => Raise (invalid_literal s)
  | Some (v, digits, rest) =>
      if Nat.ltb int_digits_threshold digits
         && Nat.ltb 0 int_max_str_digits
         && Nat.ltb int_max_str_digits digits
      then Raise (exceeds_limit digits)
      else if Nat.eqb digits 0 then Raise (invalid_literal s)
      else
        match lstrip_by is_int_space rest with
        | EmptyString => Ok (if neg then (- v)%Z else v)
        | String _ _ => Raise (invalid_literal s)
        end
  end.

(** The digits of a literal, after its sign: [s] is the whole argument of
    [int], kept for the error message.  No leading underscore. *)
Definition int_unsigned (s : string) (neg : bool) (s2 : string) : result Z :=
  match s2 with
  | String "_" _ => Raise (invalid_literal s)
  | _ => int_finish s neg (scan_digits false 0%Z 0 s2)
  end.

(** [int(s)]: blanks around an optionally signed run of decimal digits, in
    which single underscores may separate digits. *)
Definition int (s : string) : result Z :=
  let s1 := lstrip_by is_int_space s in
  match s1 with
  | String "-" r => int_unsigned s true r
  | String "+" r => int_unsigned s false r
  | _ => int_unsigned s false s1
  end.

(** ** Python values *)

(** The values a JSON body decodes to, and the ones the handlers put into
    their JSON envelopes.  A [dict] keeps its insertion order. *)
Inductive pyval : Type :=
| PNone
| PBool (b : bool)
| PInt (z : Z)
| PStr (s : string)
| PList (l : list pyval)
| PDict (d : list (string * pyval)).

(** Truth value of an object: what [not x], [if x] and [x or y] test. *)
Definition truthy (v : pyval) : bool :=
  match v with
  | PNone => false
  | PBool b => b
  | PInt z => negb (z =? 0)%Z
  | PStr s => negb (String.eqb s EmptyString)
  | PList l => match l with [] => false | _ => true end
  | PDict d => match d with [] => false | _ => true end
  end.

(** [x or y], with [y] already evaluated. *)
Definition or_ (x y : pyval) : pyval := if truthy x then x else y.

Definition type_name (v : pyval) : string :=
  match v with
  | PNone => "NoneType"
  | PBool _ => "bool"
  | PInt _ => "int"
  | PStr _ => "str"
  | PList _ => "list"
  | PDict _ => "dict"
  end.

(** [d.get(k)] on the items of a dict. *)
Fixpoint dict_get (d : list (string * pyval)) (k : string) : pyval :=
  match d with
  | [] => PNone
  | (k', v) :: d' => if String.eqb k' k then v else dict_get d' k
  end.

(** [v.get(k)]: only a dict has the method. *)
Definition get (v : pyval) (k : string) : result pyval :=
  match v with
  | PDict d => Ok (dict_get d k)
  | _ => Raise (AttributeError
                  (String squote (type_name v)
                   ++ "' object has no attribute 'get'"))
  end.

(** [repr(v)] *)
Fixpoint repr (v : pyval) : string :=
  match v with
  | PNone => "None"
  | PBool b => if b then "True" else "False"
  | PInt z => str_of_Z z
  | PStr s => repr_str s
  | PList l => "[" ++ join ", " (map repr l) ++ "]"
  | PDict d =>
      "{" ++ join ", " (map (fun kv => repr_str (fst kv) ++ ": " ++ repr (snd kv)) d)
      ++ "}"
  end.

(** [str(v)], which is also what an f-string field [{v}] expands to. *)
Definition str (v : pyval) : string :=
  match v with
  | PStr s => s
  | _ => repr v
  end.

(** ** [json.dumps] with its default options *)

Definition json_escape_char (c : ascii) : string :=
  let n := code c in
  if Ascii.eqb c dquote then String backslash (String dquote EmptyString)
  else if Ascii.eqb c backslash then String backslash (String backslash EmptyString)
  else if (n =? 8)%N then String backslash "b"
  else if (n =? 12)%N then String backslash "f"
  else if (n =? 10)%N then String backslash "n"
  else if (n =? 13)%N then String backslash "r"
  else if (n =? 9)%N then String backslash "t"
  else if ((32 <=? n) && (n <=? 126))%N then String c EmptyString
  else String backslash ("u00" ++ hex2 c).

Fixpoint json_escape (s : string) : string :=
  match s with
  | EmptyString => EmptyString
  | String c s' => json_escape_char c ++ json_escape s'
  end.

Definition json_str (s : string) : string := quoted (json_escape s).

Fixpoint json_dumps (v : pyval) : string :=
  match v with
  | PNone => "null"
  | PBool b => if b then "true" else "false"
  | PInt z => str_of_Z z
  | PStr s => json_str s
  | PList l => "[" ++ join ", " (map json_dumps l) ++ "]"
  | PDict d =>
      "{" ++ join ", " (map (fun kv => json_str (fst kv) ++ ": " ++ json_dumps (snd kv)) d)
      ++ "}"
  end.

(** [json.dumps(v, indent=n)]: one item per line, [n] blanks per level,
    a bare comma between items. *)
Fixpoint spaces (n : nat) : string :=
  match n with
  | O => EmptyString
  | S n' => String " " (spaces n')
  end.

Definition newline_indent (n level : nat) : string :=
  String "010" (spaces (n * level)).

Fixpoint json_dumps_indent (n level : nat) (v : pyval) {struct v} : string :=
  match v with
  | PList [] => "[]"
  | PList l =>
      "[" ++ newline_indent n (S level)
      ++ join ("," ++ newline_indent n (S level))
              (map (json_dumps_indent n (S level)) l)
      ++ newline_indent n level ++ "]"
  | PDict [] => "{}"
  | PDict d =>
      "{" ++ newline_indent n (S level)
      ++ join ("," ++ newline_indent n (S level))
              (map (fun kv => json_str (fst kv) ++ ": "
                              ++ json_dumps_indent n (S level) (snd kv)) d)
      ++ newline_indent n level ++ "}"
  | _ => json_dumps v
  end.

End Py.

Import Py.

(* ================================================================== *)
(** * Requests, responses, the vendor SDK and the effect trace *)
(* ================================================================== *)

(** [google.oauth2.credentials.Credentials]: the access token and the scopes
    hint. *)
Record Credentials : Type := mkCredentials {
  token : string;
  scopes : list string
}.

(** Vendor Admin API: an account summary and its property summaries. *)
Record PropertySummary : Type := mkPropertySummary {
  ps_property : string;
  ps_display_name : string
}.

Record AccountSummary : Type := mkAccountSummary {
  as_account : string;
  as_display_name : string;
  as_property_summaries : list PropertySummary
}.

(** Vendor Data API: the report request the handlers build and the part of
    the response they read. *)
Record Metric : Type := mkMetric { name : string }.
Record DateRange : Type := mkDateRange { start_date : pyval; end_date : pyval }.

Record RunReportRequest : Type := mkRunReportRequest {
  property : string;
  metrics : list Metric;
  date_ranges : list DateRange
}.

Record MetricValue : Type := mkMetricValue { value : string }.
Record Row : Type := mkRow { metric_values : list MetricValue }.
Record RunReportResponse : Type := mkRunReportResponse { rows : list Row }.

(** The HTTP request as the handlers see it: [request.method],
    [request.headers], [request.args] (the query string, a multi-dict) and
    the outcome of [request.get_json(silent=True)], which is [None] when
    the body holds no JSON. *)
Record Request : Type := mkRequest {
  method : string;
  headers : list (string * string);
  args : list (string * string);
  json : result pyval
}.

(** What a handler returns: the tuple (body, status, headers). *)
Record Response : Type := mkResponse {
  body : string;
  status : Z;
  resp_headers : list (string * string)
}.

(** What a run leaves behind, in order: the reads of the Authorization
    header and of the JSON body, the vendor calls (client construction
    included) and the printed text. *)
Inductive event : Type :=
| EvHeaderGet (header : string)
| EvGetJson
| EvListAccountSummaries (creds : option Credentials)
| EvRunReport (creds : option Credentials) (req : RunReportRequest)
| EvPrint (text : string).

Definition is_sdk_call (ev : event) : bool :=
  match ev with
  | EvListAccountSummaries _ | EvRunReport _ _ => true
  | _ => false
  end.

(** The world outside the repository: the two vendor calls the handlers
    make ([None] credentials stand for the ambient service identity), the
    text [traceback.format_exc()] gives for an exception being handled, and
    the wording of the IndexError of the vendor's repeated fields. *)
Record Runtime : Type := mkRuntime {
  list_account_summaries : option Credentials -> result (list AccountSummary);
  run_report : option Credentials -> RunReportRequest -> result RunReportResponse;
  format_exc : exn -> string;
  repeated_index_error : string
}.

(** ** The monad of handler code: a trace and a value or an exception *)

Definition M (A : Type) : Type := list event * result A.

Definition ret {A} (a : A) : M A := ([], Ok a).
Definition raise {A} (e : exn) : M A := ([], Raise e).
Definition emit (ev : event) : M unit := ([ev], Ok tt).
Definition lift {A} (r : result A) : M A := ([], r).

Definition bind {A B} (m : M A) (k : A -> M B) : M B :=
  match m with
  | (t, Ok a) => let '(t', r) := k a in ((t ++ t')%list, r)
  | (t, Raise e) => (t, Raise e)
  end.

Declare Scope py_scope.
Delimit Scope py_scope with py.
Notation "x <- m ;; k" := (bind m (fun x => k))
  (at level 61, m at next level, right associativity) : py_scope.
Notation "' pat <- m ;; k" := (bind m (fun x => match x with pat => k end))
  (at level 61, pat pattern, m at next level, right associativity) : py_scope.
Notation "m ;;; k" := (bind m (fun _ => k))
  (at level 61, right associativity) : py_scope.
Local Open Scope py_scope.

(** [try: x = m  except cls as e: <handler e>] followed by [k x]; an
    exception of another class goes on. *)
Definition try_except {A B} (m : M A) (cls : string) (handler : exn -> M B)
           (k : A -> M B) : M B :=
  match m with
  | (t, Ok a) => let '(t', r) := k a in ((t ++ t')%list, r)
  | (t, Raise e) =>
      if isinstance e cls then let '(t', r) := handler e in ((t ++ t')%list, r)
      else (t, Raise e)
  end.

(** [try: m  except Exception as e: <handler e>] *)
Definition try_except_Exception {A} (m : M A) (handler : exn -> M A) : M A :=
  match m with
  | (t, Ok a) => (t, Ok a)
  | (t, Raise e) => let '(t', r) := handler e in ((t ++ t')%list, r)
  end.

(** [for x in l: s = body s x] *)
Fixpoint for_ {A S} (l : list A) (s : S) (body : S -> A -> M S) : M S :=
  match l with
  | [] => ret s
  | x :: l' => s' <- body s x ;; for_ l' s' body
  end.

Definition trace {A} (m : M A) : list event := fst m.
Definition outcome {A} (m : M A) : result A := snd m.

(** ** Reading the request *)

Definition upper_char (c : ascii) : ascii :=
  let n := code c in
  if ((97 <=? n) && (n <=? 122))%N then ascii_of_N (n - 32) else c.

Fixpoint upper (s : string) : string :=
  match s with
  | EmptyString => EmptyString
  | String c s' => String (upper_char c) (upper s')
  end.

Fixpoint assoc_by {V} (eqb : string -> string -> bool)
         (l : list (string * V)) (k : string) : option V :=
  match l with
  | [] => None
  | (k', v) :: l' => if eqb k' k then Some v else assoc_by eqb l' k
  end.

(** The value [request.headers.get(name, default)] gives: header names
    compare without case. *)
Definition header_value (request : Request) (h default : string) : string :=
  match assoc_by (fun a b => String.eqb (upper a) (upper b)) (headers request) h with
  | Some v => v
  | None => default
  end.

(** [request.headers.get(name, default)] *)
Definition headers_get (request : Request) (h default : string) : M string :=
  emit (EvHeaderGet h) ;;; ret (header_value request h default).

(** [request.args.get(k) if request.args else None]: the first value of
    the key in the query string. *)
Definition args_get (request : Request) (k : string) : pyval :=
  match args request with
  | [] => PNone
  | _ => match assoc_by String.eqb (args request) k with
         | Some v => PStr v
         | None => PNone
         end
  end.

(** [request.get_json(silent=True)] *)
Definition get_json (request : Request) : M pyval :=
  emit EvGetJson ;;; lift (json request).

(** [x or <m>]: [m] runs only when [x] is falsy. *)
Definition or_else (x : pyval) (m : M pyval) : M pyval :=
  if truthy x then ret x else m.

(** [l[i]] on a Python list. *)
Definition list_index {A} (l : list A) (i : nat) : M A :=
  match index l i with
  | Some a => ret a
  | None => raise (IndexError "list index out of range")
  end.

(** [l[-1]] on a Python list. *)
Definition list_index_last {A} (l : list A) : M A :=
  match index_last l with
  | Some a => ret a
  | None => raise (IndexError "list index out of range")
  end.

(** ** Calling the vendor *)

(** A call stands for the construction of the client and the call proper;
    the pager of [list_account_summaries] is read to its end, an exception
    of a later page being an exception of the call. *)

(** [BetaAnalyticsDataClient(credentials=creds)], and
    [BetaAnalyticsDataClient()] for the ambient identity: the client holds
    the credentials.  Constructing it sends nothing; what the construction
    can raise (no ambient identity found) is taken as raised by the call of
    the client, the one use the code makes of it. *)
Definition new_data_client (creds : option Credentials) : option Credentials :=
  creds.

Definition call_list_account_summaries (rt : Runtime) (creds : option Credentials)
  : M (list AccountSummary) :=
  emit (EvListAccountSummaries creds) ;;; lift (list_account_summaries rt creds).

Definition call_run_report (rt : Runtime) (creds : option Credentials)
           (req : RunReportRequest) : M RunReportResponse :=
  emit (EvRunReport creds req) ;;; lift (run_report rt creds req).

(** [field[i]] on a repeated field of a vendor message. *)
Definition repeated_index {A} (rt : Runtime) (l : list A) (i : nat) : M A :=
  match index l i with
  | Some a => ret a
  | None => raise (IndexError (repeated_index_error rt))
  end.

(** [not l] on a list or a repeated field. *)
Definition is_empty {A} (l : list A) : bool :=
  match l with [] => true | _ => false end.

Definition content_type_json : list (string * string) :=
  [("Content-Type", "application/json")].

(* ================================================================== *)
(** * The accounts loop (main_old.py 36-53, main_oauth.py 57-74,
      main.py 65-82, accounts.py 8-25: the same text four times) *)
(* ================================================================== *)

(** The dict appended for one property summary. *)
Definition property_entry (prop_summary : PropertySummary) : M pyval :=
  prop_id <- list_index_last (split "/" None (ps_property prop_summary)) ;;
  ret (PDict [("property", PStr (ps_property prop_summary));
              ("propertyId", PStr prop_id);
              ("displayName", PStr (ps_display_name prop_summary))]).

(** The body of the outer loop: the account entry, its ["properties"] list
    filled by the inner loop. *)
Definition account_entry (summary : AccountSummary) : M pyval :=
  properties <-
    for_ (as_property_summaries summary) []
         (fun properties prop_summary =>
            entry <- property_entry prop_summary ;;
            ret (properties ++ [entry])%list) ;;
  ret (PDict [("account", PStr (as_account summary));
              ("displayName", PStr (as_display_name summary));
              ("properties", PList properties)]).

(** [accounts_data] after the loop over the summaries. *)
Definition accounts_loop (summaries : list AccountSummary) : M (list pyval) :=
  for_ summaries []
       (fun accounts_data summary =>
          entry <- account_entry summary ;;
          ret (accounts_data ++ [entry])%list).

(** The JSON envelope of a sessions result. *)
Definition sessions_result (property_id start_date end_date : pyval)
           (total_sessions : Z) : pyval :=
  PDict [("propertyId", property_id);
         ("dateRange", PDict [("start_date", start_date); ("end_date", end_date)]);
         ("metrics", PDict [("sessions", PInt total_sessions)])].

Definition missing_property_id : pyval :=
  PDict [("error", PStr "Missing required parameter: property_id")].

(** The message [RunReportRequest(property=f"properties/{property_id}",
    metrics=[{"name": "sessions"}],
    date_ranges=[{"start_date": start_date, "end_date": end_date}])]
    builds, when it builds one. *)
Definition sessions_request (property_id start_date end_date : pyval)
  : RunReportRequest :=
  mkRunReportRequest ("properties/" ++ str property_id)
                     [mkMetric "sessions"]
                     [mkDateRange start_date end_date].

(** A value is a [str]. *)
Definition is_str (v : pyval) : bool :=
  match v with
  | PStr _ => true
  | _ => false
  end.

(** The TypeError of a string field of a vendor message that is given
    another value (the wording is the protobuf runtime's). *)
Definition string_field_error : exn :=
  Exn "TypeError" "bad argument type for built-in operation".

(** The call of the constructor: [start_date] and [end_date] are string
    fields of the vendor's DateRange, which take a [str] and refuse any
    other value; the property is a string already, the f-string made it
    one. *)
Definition new_sessions_request (property_id start_date end_date : pyval)
  : result RunReportRequest :=
  if is_str start_date && is_str end_date then
    Ok (sessions_request property_id start_date end_date)
  else Raise string_field_error.

(* ================================================================== *)
(** * main_old.py: service identity, no authorisation gate *)
(* ================================================================== *)

Module MainOld.
Section WithRuntime.
Variable rt : Runtime.

Definition ga4_list_accounts (request : Request) : M Response :=
  summaries <- call_list_account_summaries rt None ;;
  accounts_data <- accounts_loop summaries ;;
  ret (mkResponse (json_dumps (PDict [("accounts", PList accounts_data)]))
                  200 content_type_json).

Definition ga4_property_sessions (request : Request) : M Response :=
  let property_id := args_get request "property_id" in
  let start_date := args_get request "start_date" in
  let end_date := args_get request "end_date" in
  '(property_id, start_date, end_date) <-
    (if negb (truthy property_id) then
       data <- try_except_Exception
                 (j <- get_json request ;; ret (or_ j (PDict [])))
                 (fun _ => ret (PDict [])) ;;
       property_id <- or_else property_id (lift (get data "property_id")) ;;
       start_date <- or_else start_date (lift (get data "start_date")) ;;
       end_date <- or_else end_date (lift (get data "end_date")) ;;
       ret (property_id, start_date, end_date)
     else ret (property_id, start_date, end_date)) ;;
  if negb (truthy property_id) then
    ret (mkResponse (json_dumps missing_property_id) 400 content_type_json)
  else
    let start_date := if negb (truthy start_date) then PStr "30daysAgo" else start_date in
    let end_date := if negb (truthy end_date) then PStr "today" else end_date in
    let client := new_data_client None in
    request_body <- lift (new_sessions_request property_id start_date end_date) ;;
    response <- call_run_report rt client request_body ;;
    total_sessions <-
      (if is_empty (rows response) then ret 0%Z
       else
         row <- repeated_index rt (rows response) 0 ;;
         metric_value <- repeated_index rt (metric_values row) 0 ;;
         lift (int (value metric_value))) ;;
    ret (mkResponse
           (json_dumps (sessions_result property_id start_date end_date total_sessions))
           200 content_type_json).

End WithRuntime.
End MainOld.

(* ================================================================== *)
(** * main_oauth.py: bearer token, plain headers *)
(* ================================================================== *)

Module MainOauth.
Section WithRuntime.
Variable rt : Runtime.

Definition _get_user_credentials_from_request (request : Request)
  : M (Credentials * string) :=
  auth_header <- headers_get request "Authorization" "" ;;
  if negb (startswith auth_header "Bearer ") then
    raise (ValueError ("Missing or invalid Authorization header. "
                       ++ "Expected: 'Authorization: Bearer <ACCESS_TOKEN>'"))
  else
    rest <- list_index (split " " (Some 1) auth_header) 1 ;;
    let token := strip rest in
    if String.eqb token "" then
      raise (ValueError "Empty bearer token in Authorization header.")
    else
      ret (mkCredentials token [], token).

Definition ga4_list_accounts (request : Request) : M Response :=
  try_except (_get_user_credentials_from_request request) "ValueError"
    (fun e =>
       ret (mkResponse (json_dumps (PDict [("error", PStr (str_of_exn e))]))
                       401 content_type_json))
    (fun '(user_creds, _) =>
       summaries <- call_list_account_summaries rt (Some user_creds) ;;
       accounts_data <- accounts_loop summaries ;;
       ret (mkResponse (json_dumps (PDict [("accounts", PList accounts_data)]))
                       200 content_type_json)).

Definition ga4_property_sessions (request : Request) : M Response :=
  try_except (_get_user_credentials_from_request request) "ValueError"
    (fun e =>
       ret (mkResponse (json_dumps (PDict [("error", PStr (str_of_exn e))]))
                       401 content_type_json))
    (fun '(user_creds, _) =>
       let property_id := args_get request "property_id" in
       let start_date := args_get request "start_date" in
       let end_date := args_get request "end_date" in
       '(property_id, start_date, end_date) <-
         (if negb (truthy property_id) then
            data <- try_except_Exception
                      (j <- get_json request ;; ret (or_ j (PDict [])))
                      (fun _ => ret (PDict [])) ;;
            property_id <- or_else property_id (lift (get data "property_id")) ;;
            start_date <- or_else start_date (lift (get data "start_date")) ;;
            end_date <- or_else end_date (lift (get data "end_date")) ;;
            ret (property_id, start_date, end_date)
          else ret (property_id, start_date, end_date)) ;;
       if negb (truthy property_id) then
         ret (mkResponse (json_dumps missing_property_id) 400 content_type_json)
       else
         let start_date :=
           if negb (truthy start_date) then PStr "30daysAgo" else start_date in
         let end_date := if negb (truthy end_date) then PStr "today" else end_date in
         let data_client := new_data_client (Some user_creds) in
         request_body <- lift (new_sessions_request property_id start_date end_date) ;;
         response <- call_run_report rt data_client request_body ;;
         total_sessions <-
           (if is_empty (rows response) then ret 0%Z
            else
              row <- repeated_index rt (rows response) 0 ;;
              metric_value <- repeated_index rt (metric_values row) 0 ;;
              lift (int (value metric_value))) ;;
         ret (mkResponse
                (json_dumps
                   (sessions_result property_id start_date end_date total_sessions))
                200 content_type_json)).

End WithRuntime.
End MainOauth.

(* ================================================================== *)
(** * main.py: bearer token, CORS headers, preflight *)
(* ================================================================== *)

Module Main.
Section WithRuntime.
Variable rt : Runtime.

Definition _cors_headers : list (string * string) :=
  [("Content-Type", "application/json");
   ("Access-Control-Allow-Origin", "*");
   ("Access-Control-Allow-Headers", "Authorization, Content-Type");
   ("Access-Control-Allow-Methods", "GET, POST, OPTIONS")].

Definition _handle_preflight (request : Request) : option Response :=
  if String.eqb (method request) "OPTIONS" then
    Some (mkResponse "" 204 _cors_headers)
  else None.

Definition _get_user_credentials_from_request (request : Request)
  : M (Credentials * string) :=
  auth_header <- headers_get request "Authorization" "" ;;
  if negb (startswith auth_header "Bearer ") then
    raise (ValueError "Missing/invalid Authorization header. Use: Bearer <ACCESS_TOKEN>")
  else
    rest <- list_index (split " " (Some 1) auth_header) 1 ;;
    let token := strip rest in
    if String.eqb token "" then
      raise (ValueError "Empty bearer token.")
    else
      ret (mkCredentials token ["https://www.googleapis.com/auth/analytics.readonly"],
           token).

(** The [try] block of [ga4_list_accounts_oauth]. *)
Definition list_accounts_try (request : Request) : M Response :=
  '(user_creds, _) <- _get_user_credentials_from_request request ;;
  summaries <- call_list_account_summaries rt (Some user_creds) ;;
  accounts_data <- accounts_loop summaries ;;
  ret (mkResponse (json_dumps (PDict [("accounts", PList accounts_data)]))
                  200 _cors_headers).

Definition ga4_list_accounts_oauth (request : Request) : M Response :=
  if String.eqb (method request) "OPTIONS" then
    ret (mkResponse "" 204 _cors_headers)
  else
    try_except_Exception (list_accounts_try request)
      (fun e =>
         let err := PDict [("error", PStr (str_of_exn e));
                           ("traceback", PStr (format_exc rt e))] in
         ret (mkResponse (json_dumps err) 500 _cors_headers)).

Definition ga4_property_sessions_oauth (request : Request) : M Response :=
  match _handle_preflight request with
  | Some pre => ret pre
  | None =>
    try_except (_get_user_credentials_from_request request) "ValueError"
      (fun e =>
         ret (mkResponse (json_dumps (PDict [("error", PStr (str_of_exn e))]))
                         401 _cors_headers))
      (fun '(user_creds, _) =>
         let property_id := args_get request "property_id" in
         let start_date := args_get request "start_date" in
         let end_date := args_get request "end_date" in
         '(property_id, start_date, end_date) <-
           (if negb (truthy property_id) then
              data <- (j <- get_json request ;; ret (or_ j (PDict []))) ;;
              property_id <- or_else property_id (lift (get data "property_id")) ;;
              start_date <- or_else start_date (lift (get data "start_date")) ;;
              end_date <- or_else end_date (lift (get data "end_date")) ;;
              ret (property_id, start_date, end_date)
            else ret (property_id, start_date, end_date)) ;;
         if negb (truthy property_id) then
           ret (mkResponse (json_dumps missing_property_id) 400 _cors_headers)
         else
           let start_date := or_ start_date (PStr "30daysAgo") in
           let end_date := or_ end_date (PStr "today") in
           let data_client := new_data_client (Some user_creds) in
           request_body <- lift (new_sessions_request property_id start_date end_date) ;;
           response <- call_run_report rt data_client request_body ;;
           total_sessions <-
             (if negb (is_empty (rows response)) then
                row <- repeated_index rt (rows response) 0 ;;
                metric_value <- repeated_index rt (metric_values row) 0 ;;
                lift (int (value metric_value))
              else ret 0%Z) ;;
           ret (mkResponse
                  (json_dumps
                     (sessions_result property_id start_date end_date total_sessions))
                  200 _cors_headers))
  end.

End WithRuntime.
End Main.

(* ================================================================== *)
(** * sessions.py and accounts.py: the command-line scripts *)
(* ================================================================== *)

Module Sessions.
Section WithRuntime.
Variable rt : Runtime.

(** The defaults of [start_date] and [end_date]. *)
Definition default_start_date : string := "2025-12-01".
Definition default_end_date : string := "today".

Definition get_sessions_for_property (property_id start_date end_date : string) : M Z :=
  let client := new_data_client None in
  request <- lift (new_sessions_request (PStr property_id) (PStr start_date)
                                        (PStr end_date)) ;;
  response <- call_run_report rt client request ;;
  if is_empty (rows response) then ret 0%Z
  else
    row <- repeated_index rt (rows response) 0 ;;
    metric_value <- repeated_index rt (metric_values row) 0 ;;
    lift (int (value metric_value)).

Definition main : M unit :=
  let property_id := "182279779" in
  let start_date := "30daysAgo" in
  let end_date := "today" in
  total_sessions <- get_sessions_for_property property_id start_date end_date ;;
  let result :=
    sessions_result (PStr property_id) (PStr start_date) (PStr end_date)
                    total_sessions in
  emit (EvPrint (json_dumps_indent 2 0 result)).

End WithRuntime.
End Sessions.

Module Accounts.
Section WithRuntime.
Variable rt : Runtime.

Definition main : M unit :=
  summaries <- call_list_account_summaries rt None ;;
  accounts_data <- accounts_loop summaries ;;
  emit (EvPrint (json_dumps_indent 2 0 (PDict [("accounts", PList accounts_data)]))).

End WithRuntime.
End Accounts.

(* ================================================================== *)
(** * Vocabulary of the properties *)
(* ================================================================== *)

(** The handlers that return a response: the three sessions handlers. *)
Inductive sessions_handler : Type := OldSessions | OauthSessions | CorsSessions.

Definition run_sessions (h : sessions_handler) (rt : Runtime) (request : Request)
  : M Response :=
  match h with
  | OldSessions => MainOld.ga4_property_sessions rt request
  | OauthSessions => MainOauth.ga4_property_sessions rt request
  | CorsSessions => Main.ga4_property_sessions_oauth rt request
  end.

(** The headers each of them attaches to what it returns. *)
Definition headers_of (h : sessions_handler) : list (string * string) :=
  match h with
  | CorsSessions => Main._cors_headers
  | _ => content_type_json
  end.

(** [s[n:]] *)
Fixpoint string_drop (n : nat) (s : string) : string :=
  match n, s with
  | O, _ => s
  | S n', String _ s' => string_drop n' s'
  | S _, EmptyString => EmptyString
  end.

(** The Authorization header of a request, empty when there is none. *)
Definition auth_header (request : Request) : string :=
  header_value request "Authorization" "".

(** The bearer token of a header: what follows ["Bearer "], stripped. *)
Definition bearer_token (h : string) : string := strip (string_drop 7 h).

(** The header starts with ["Bearer "] and its token is not empty. *)
Definition authorized (request : Request) : bool :=
  startswith (auth_header request) "Bearer "
  && negb (String.eqb (bearer_token (auth_header request)) "").

(** A request is a CORS preflight. *)
Definition is_preflight (request : Request) : bool :=
  String.eqb (method request) "OPTIONS".

(** The value of a parameter in the JSON body: [None] when the body is not
    a JSON object or cannot be read. *)
Definition body_param (request : Request) (k : string) : pyval :=
  match json request with
  | Ok (PDict d) => dict_get d k
  | _ => PNone
  end.

(** A parameter is supplied, in the query string or in the JSON body, when
    its value there is truthy. *)
Definition in_query (request : Request) (k : string) : bool :=
  truthy (args_get request k).
Definition in_body (request : Request) (k : string) : bool :=
  truthy (body_param request k).

(** The report requests sent to the vendor during a run, in order. *)
Fixpoint report_requests (t : list event) : list RunReportRequest :=
  match t with
  | [] => []
  | EvRunReport _ req :: t' => req :: report_requests t'
  | _ :: t' => report_requests t'
  end.

(** The session count a response reports: the integer its first row's
    first metric value denotes, 0 when it has no rows; [None] when the
    first row has no metric value or the value is no integer literal. *)
Definition reported_sessions (response : RunReportResponse) : option Z :=
  match rows response with
  | [] => Some 0%Z
  | row :: _ =>
      match metric_values row with
      | [] => None
      | metric_value :: _ =>
          match int (value metric_value) with
          | Ok n => Some n
          | Raise _ => None
          end
      end
  end.

(** The credentials each handler hands to the vendor for a request. *)
Definition creds_of (h : sessions_handler) (request : Request) : option Credentials :=
  match h with
  | OldSessions => None
  | OauthSessions => Some (mkCredentials (bearer_token (auth_header request)) [])
  | CorsSessions =>
      Some (mkCredentials (bearer_token (auth_header request))
                          ["https://www.googleapis.com/auth/analytics.readonly"])
  end.

(** A request gets past a handler's gates: the preflight short-cut of
    main.py and the bearer check of main.py and main_oauth.py. *)
Definition passes_gates (h : sessions_handler) (request : Request) : bool :=
  match h with
  | OldSessions => true
  | OauthSessions => authorized request
  | CorsSessions => negb (is_preflight request) && authorized request
  end.

(** ** The common shape of the three sessions handlers after their gates *)

Section SessionsCore.
Variable rt : Runtime.
Variable guarded : bool.   (* is [get_json] wrapped in [try/except Exception]? *)
Variable creds : option Credentials.
Variable hdrs : list (string * string).

Definition read_body (request : Request) : M pyval :=
  if guarded then
    try_except_Exception (j <- get_json request ;; ret (or_ j (PDict [])))
                         (fun _ => ret (PDict []))
  else
    j <- get_json request ;; ret (or_ j (PDict [])).

Definition read_params (request : Request) : M (pyval * pyval * pyval) :=
  let property_id := args_get request "property_id" in
  let start_date := args_get request "start_date" in
  let end_date := args_get request "end_date" in
  if negb (truthy property_id) then
    data <- read_body request ;;
    property_id <- or_else property_id (lift (get data "property_id")) ;;
    start_date <- or_else start_date (lift (get data "start_date")) ;;
    end_date <- or_else end_date (lift (get data "end_date")) ;;
    ret (property_id, start_date, end_date)
  else ret (property_id, start_date, end_date).

Definition count_sessions (response : RunReportResponse) : M Z :=
  if is_empty (rows response) then ret 0%Z
  else
    row <- repeated_index rt (rows response) 0 ;;
    metric_value <- repeated_index rt (metric_values row) 0 ;;
    lift (int (value metric_value)).

Definition sessions_core (request : Request) : M Response :=
  '(property_id, start_date, end_date) <- read_params request ;;
  if negb (truthy property_id) then
    ret (mkResponse (json_dumps missing_property_id) 400 hdrs)
  else
    let start_date := or_ start_date (PStr "30daysAgo") in
    let end_date := or_ end_date (PStr "today") in
    let data_client := new_data_client creds in
    request_body <- lift (new_sessions_request property_id start_date end_date) ;;
    response <- call_run_report rt data_client request_body ;;
    total_sessions <- count_sessions response ;;
    ret (mkResponse
           (json_dumps (sessions_result property_id start_date end_date total_sessions))
           200 hdrs).

End SessionsCore.

Definition guarded_of (h : sessions_handler) : bool :=
  match h with
  | CorsSessions => false
  | _ => true
  end.

(* ================================================================== *)
(** * Vocabulary of the runs and of the properties *)
(* ================================================================== *)

Definition oauth_missing_header : string :=
  "Missing or invalid Authorization header. "
  ++ "Expected: 'Authorization: Bearer <ACCESS_TOKEN>'".
Definition oauth_empty_token : string := "Empty bearer token in Authorization header.".
Definition cors_missing_header : string :=
  "Missing/invalid Authorization header. Use: Bearer <ACCESS_TOKEN>".
Definition cors_empty_token : string := "Empty bearer token.".

(** The message of the ValueError each helper raises for a header. *)
Definition auth_error (missing empty : string) (request : Request) : string :=
  if startswith (auth_header request) "Bearer " then empty else missing.

(** What the parameter block reads and yields: the query string alone when
    it holds a property id, otherwise one read of the JSON body, whose
    object supplies the property id and fills in the dates the query string
    lacks. *)
Definition params_outcome (guarded : bool) (request : Request)
  : result (pyval * pyval * pyval) :=
  let data :=
    match json request with
    | Ok j => Ok (or_ j (PDict []))
    | Raise e => if guarded then Ok (PDict []) else Raise e
    end in
  match data with
  | Raise e => Raise e
  | Ok (PDict d) =>
      Ok (dict_get d "property_id",
          or_ (args_get request "start_date") (dict_get d "start_date"),
          or_ (args_get request "end_date") (dict_get d "end_date"))
  | Ok v => Raise (AttributeError (String squote (type_name v)
                                   ++ "' object has no attribute 'get'"))
  end.

(** What reading the session count off a response yields. *)
Definition count_outcome (rt : Runtime) (response : RunReportResponse) : result Z :=
  match rows response with
  | [] => Ok 0%Z
  | row :: _ =>
      match metric_values row with
      | [] => Raise (IndexError (repeated_index_error rt))
      | metric_value :: _ => int (value metric_value)
      end
  end.

(** The response of the success path. *)
Definition sessions_ok (hdrs : list (string * string))
           (property_id start_date end_date : pyval) (n : Z) : Response :=
  mkResponse (json_dumps (sessions_result property_id start_date end_date n)) 200 hdrs.

Definition missing_param_response (hdrs : list (string * string)) : Response :=
  mkResponse (json_dumps missing_property_id) 400 hdrs.

(** What follows the parameter block, given the parameters. *)
Definition after_params (rt : Runtime) (creds : option Credentials)
           (hdrs : list (string * string)) (p : pyval * pyval * pyval) : M Response :=
  let '(property_id, start_date, end_date) := p in
  if truthy property_id then
    let sd := or_ start_date (PStr "30daysAgo") in
    let ed := or_ end_date (PStr "today") in
    match new_sessions_request property_id sd ed with
    | Raise e => ([], Raise e)
    | Ok rr =>
        ([EvRunReport creds rr],
         match run_report rt creds rr with
         | Raise e => Raise e
         | Ok response =>
             match count_outcome rt response with
             | Raise e => Raise e
             | Ok n => Ok (sessions_ok hdrs property_id sd ed n)
             end
         end)
    end
  else ([], Ok (missing_param_response hdrs)).

(** The 401 response of a bearer handler. *)
Definition unauthorized_response (hdrs : list (string * string)) (msg : string)
  : Response :=
  mkResponse (json_dumps (PDict [("error", PStr msg)])) 401 hdrs.

(** The parameters a run settles on, and the events of settling them. *)
Definition resolved_params (guarded : bool) (request : Request)
  : result (pyval * pyval * pyval) :=
  if in_query request "property_id" then
    Ok (args_get request "property_id", args_get request "start_date",
        args_get request "end_date")
  else params_outcome guarded request.

Definition body_events (request : Request) : list event :=
  if in_query request "property_id" then [] else [EvGetJson].

(** The events in front of the common shape: the header read of the bearer
    handlers. *)
Definition gate_events (h : sessions_handler) : list event :=
  match h with
  | OldSessions => []
  | _ => [EvHeaderGet "Authorization"]
  end.

(** The message of a handler's 401 response. *)
Definition auth_error_of (h : sessions_handler) (request : Request) : string :=
  match h with
  | CorsSessions => auth_error cors_missing_header cors_empty_token request
  | _ => auth_error oauth_missing_header oauth_empty_token request
  end.

(** A parameter read from the query string when it is there and from the
    JSON body otherwise. *)
Definition query_or_body (request : Request) (k : string) : pyval :=
  if in_query request k then args_get request k else body_param request k.

(** A date parameter, or its default when it is missing. *)
Definition date_or (v : pyval) (default : string) : pyval :=
  if truthy v then v else PStr default.

(** The JSON body can be looked into by a handler: an object, or absent or
    falsy (then it counts as the empty object), or unreadable where the
    read is guarded. *)
Definition body_usable (h : sessions_handler) (request : Request) : bool :=
  match json request with
  | Ok (PDict _) => true
  | Ok v => negb (truthy v)
  | Raise _ => guarded_of h
  end.

(** The text of the 400 body. *)
Definition missing_property_id_text : string :=
  "{" ++ quoted "error" ++ ": "
  ++ quoted "Missing required parameter: property_id" ++ "}".

(** What follows the last [sep] of a string; the whole string when it
    holds none. *)
Fixpoint after_last (sep : ascii) (s : string) : string :=
  match s with
  | EmptyString => EmptyString
  | String c s' =>
      if contains sep s' then after_last sep s'
      else if Ascii.eqb c sep then s' else s
  end.

(** The entries of the listing: every field copied, [propertyId] cut
    from the resource name. *)
Definition property_json (p : PropertySummary) : pyval :=
  PDict [("property", PStr (ps_property p));
         ("propertyId", PStr (after_last "/" (ps_property p)));
         ("displayName", PStr (ps_display_name p))].

Definition account_json (a : AccountSummary) : pyval :=
  PDict [("account", PStr (as_account a));
         ("displayName", PStr (as_display_name a));
         ("properties", PList (map property_json (as_property_summaries a)))].

Definition accounts_body (summaries : list AccountSummary) : string :=
  json_dumps (PDict [("accounts", PList (map account_json summaries))]).

(** The debug response of [ga4_list_accounts_oauth]. *)
Definition debug_response (rt : Runtime) (e : exn) : Response :=
  mkResponse (json_dumps (PDict [("error", PStr (str_of_exn e));
                                 ("traceback", PStr (format_exc rt e))]))
             500 Main._cors_headers.

(** The vendor answers alike whatever the scopes hint of the credentials. *)
Definition scopes_blind (rt : Runtime) : Prop :=
  forall (tok : string) (s1 s2 : list string) (rr : RunReportRequest),
    run_report rt (Some (mkCredentials tok s1)) rr
    = run_report rt (Some (mkCredentials tok s2)) rr.

(** Two responses agree but for their headers, and on a 401 but for their
    body too. *)
Definition same_answer (r_cors r_oauth : Response) : Prop :=
  status r_oauth = status r_cors
  /\ (status r_cors <> 401%Z -> body r_oauth = body r_cors)
  /\ resp_headers r_cors = Main._cors_headers
  /\ resp_headers r_oauth = content_type_json
  /\ (status r_cors = 401%Z \/ status r_cors = 400%Z \/ status r_cors = 200%Z).

(* ================================================================== *)
(** * Sample inputs (the figures of main_old.py's docstrings) *)
(* ================================================================== *)

Definition sample_summaries : list AccountSummary :=
  [mkAccountSummary "accounts/52835573" "App Regina Maria"
     [mkPropertySummary "properties/182279779" "GA4_web+contweb+shop+app"]].

Definition sample_response : RunReportResponse :=
  mkRunReportResponse [mkRow [mkMetricValue "5106379"]].

Definition sample_runtime : Runtime :=
  mkRuntime (fun _ => Ok sample_summaries)
            (fun _ _ => Ok sample_response)
            (fun e => "Traceback (most recent call last): " ++ exn_class e
                      ++ ": " ++ exn_msg e)
            "list index out of range".

Definition sample_report : RunReportRequest :=
  mkRunReportRequest "properties/182279779" [mkMetric "sessions"]
                     [mkDateRange (PStr "30daysAgo") (PStr "today")].

(** GET with a bearer token and the property id in the query string. *)
Definition sample_get : Request :=
  mkRequest "GET" [("Authorization", "Bearer ya29.token")]
            [("property_id", "182279779")] (Ok PNone).

(** POST with the parameters in a JSON object. *)
Definition sample_post : Request :=
  mkRequest "POST" [("Authorization", "Bearer ya29.token")] []
            (Ok (PDict [("property_id", PStr "182279779");
                        ("start_date", PStr "2025-12-01")])).

(** GET without Authorization header and without parameters. *)
Definition sample_anonymous : Request := mkRequest "GET" [] [] (Ok PNone).

(** GET with a bearer token and no parameters. *)
Definition sample_no_property : Request :=
  mkRequest "GET" [("Authorization", "Bearer ya29.token")] [] (Ok PNone).

(** The browser's preflight. *)
Definition sample_preflight : Request := mkRequest "OPTIONS" [] [] (Ok PNone).

(** POST whose JSON object gives the start date as a number. *)
Definition sample_numeric_date : Request :=
  mkRequest "POST" [("Authorization", "Bearer ya29.token")] []
            (Ok (PDict [("property_id", PStr "182279779");
                        ("start_date", PInt 5)])).

(** GET with the property id in the query string and no header at all. *)
Definition sample_bare : Request :=
  mkRequest "GET" [] [("property_id", "182279779")] (Ok PNone).

(** The text of the listing of [sample_summaries]. *)
Definition sample_listing_text : string :=
  "{" ++ quoted "accounts" ++ ": [{"
  ++ quoted "account" ++ ": " ++ quoted "accounts/52835573" ++ ", "
  ++ quoted "displayName" ++ ": " ++ quoted "App Regina Maria" ++ ", "
  ++ quoted "properties" ++ ": [{"
  ++ quoted "property" ++ ": " ++ quoted "properties/182279779" ++ ", "
  ++ quoted "propertyId" ++ ": " ++ quoted "182279779" ++ ", "
  ++ quoted "displayName" ++ ": " ++ quoted "GA4_web+contweb+shop+app"
  ++ "}]}]}".

(* ================================================================== *)
(** * Vocabulary of the further properties *)
(* ================================================================== *)

(** The three accounts listings served over HTTP. *)
Inductive accounts_handler : Type := OldAccounts | OauthAccounts | CorsAccounts.

Definition run_accounts (h : accounts_handler) (rt : Runtime) (request : Request)
  : M Response :=
  match h with
  | OldAccounts => MainOld.ga4_list_accounts rt request
  | OauthAccounts => MainOauth.ga4_list_accounts rt request
  | CorsAccounts => Main.ga4_list_accounts_oauth rt request
  end.

(** The vendor calls of a trace, in order. *)
Definition sdk_calls (t : list event) : list event := filter is_sdk_call t.

(** Every character of a string is whitespace to [str.strip]. *)
Fixpoint all_space (s : string) : bool :=
  match s with
  | EmptyString => true
  | String c s' => is_space c && all_space s'
  end.

Definition first_char (s : string) : option ascii :=
  match s with
  | EmptyString => None
  | String c _ => Some c
  end.

Fixpoint last_char (s : string) : option ascii :=
  match s with
  | EmptyString => None
  | String c EmptyString => Some c
  | String _ s' => last_char s'
  end.

(** A character is there and is no whitespace. *)
Definition solid (c : option ascii) : bool :=
  match c with
  | Some c => negb (is_space c)
  | None => false
  end.

(** The same request with another body. *)
Definition with_json (request : Request) (j : result pyval) : Request :=
  mkRequest (method request) (headers request) (args request) j.

(** A bearer header whose token is wrapped in blanks and holds one. *)
Definition sample_padded : Request :=
  mkRequest "GET" [("authorization", "Bearer   ya29 token ")]
            [("property_id", "182279779")] (Ok PNone).

(** POST whose JSON body is an array. *)
Definition sample_array_body : Request :=
  mkRequest "POST" [("Authorization", "Bearer ya29.token")] []
            (Ok (PList [PStr "182279779"])).

(** POST whose body cannot be read. *)
Definition sample_unreadable : Request :=
  mkRequest "POST" [("Authorization", "Bearer ya29.token")] []
            (Raise (Exn "RequestEntityTooLarge" "413 Request Entity Too Large")).

(** A vendor that fails every call. *)
Definition sample_failing_runtime : Runtime :=
  mkRuntime (fun _ => Raise (Exn "PermissionDenied" "403 caller lacks permission"))
            (fun _ _ => Raise (Exn "PermissionDenied" "403 caller lacks permission"))
            (fun e => "Traceback (most recent call last): " ++ exn_class e
                      ++ ": " ++ exn_msg e)
            "list index out of range".

(** The shape of a handler's trace: the Authorization header read at most
    once and first, the JSON body read at most once, then at most one
    vendor call, and nothing behind it. *)
Definition trace_shape (t : list event) : Prop :=
  exists (header_read body_read : bool) (calls : list event),
    t = ((if header_read then [EvHeaderGet "Authorization"] else [])
         ++ (if body_read then [EvGetJson] else []) ++ calls)%list
    /\ (length calls <= 1)%nat
    /\ forallb is_sdk_call calls = true.

(** The credentials an accounts listing hands to the vendor. *)
Definition accounts_creds (h : accounts_handler) (request : Request)
  : option Credentials :=
  match h with
  | OldAccounts => None
  | OauthAccounts => creds_of OauthSessions request
  | CorsAccounts => creds_of CorsSessions request
  end.

(** The text of a JSON body with one ["error"] field, for a message that
    needs no escaping. *)
Definition error_body (msg : string) : string :=
  "{" ++ quoted "error" ++ ": " ++ quoted msg ++ "}".

(** What a sessions handler does with a body it cannot look into, where
    the read is guarded and where it is not. *)
Definition unreadable_outcome (h : sessions_handler) (e : exn) : result Response :=
  match h with
  | CorsSessions => Raise e
  | _ => Ok (missing_param_response (headers_of h))
  end.



(** A request from the browser with the property id of a listing entry. *)
Definition sample_listed : PropertySummary :=
  mkPropertySummary "properties/182279779" "GA4_web+contweb+shop+app".

(** The parameter a run settles on: read from the query string alone when
    the property id is there, and otherwise from the query string or,
    failing that, from the JSON body. *)
Definition settled_param (request : Request) (k : string) : pyval :=
  if in_query request "property_id" then args_get request k
  else query_or_body request k.

(** The date a run settles on: the parameter, or its default. *)
Definition settled_date (request : Request) (k default : string) : pyval :=
  date_or (settled_param request k) default.

(** The text of a sessions answer whose strings need no escaping. *)
Definition sessions_body_text (property_id start_date end_date count : string)
  : string :=
  "{" ++ quoted "propertyId" ++ ": " ++ quoted property_id ++ ", "
  ++ quoted "dateRange" ++ ": {" ++ quoted "start_date" ++ ": " ++ quoted start_date
  ++ ", " ++ quoted "end_date" ++ ": " ++ quoted end_date ++ "}, "
  ++ quoted "metrics" ++ ": {" ++ quoted "sessions" ++ ": " ++ count ++ "}}".

(* ================================================================== *)
(** * Strings: splitting and the bearer header *)
(* ================================================================== *)

Lemma prefix_drop (p s : string) :
  String.prefix p s = true -> s = p ++ string_drop (String.length p) s.
Proof.
  revert s; induction p as [|a p IH]; intros s H.
  - reflexivity.
  - destruct s as [|b s]; simpl in H; [discriminate H|].
    destruct (ascii_dec a b) as [->|]; [|discriminate H].
    simpl. f_equal. now apply IH.
Qed.

Lemma split_exhausted (sep : ascii) (s : string) :
  split sep (Some 0) s = [s].
Proof.
  induction s as [|c s IH]; simpl; [reflexivity|].
  rewrite IH. now destruct (Ascii.eqb c sep).
Qed.

Lemma split_not_nil (sep : ascii) (m : option nat) (s : string) :
  split sep m s <> [].
Proof.
  revert m; induction s as [|c s IH]; intros m; simpl; [discriminate|].
  destruct (Ascii.eqb c sep).
  - destruct m as [[|k]|]; try discriminate.
    destruct (split sep (Some 0) s); discriminate.
  - destruct (split sep m s); discriminate.
Qed.

(** After [startswith("Bearer ")], [split(" ", 1)] has exactly two fields
    and the second is the header from its eighth character on. *)
Lemma split_bearer (h : string) :
  startswith h "Bearer " = true ->
  split " " (Some 1) h = ["Bearer"; string_drop 7 h].
Proof.
  intros H. unfold startswith in H. apply prefix_drop in H.
  simpl String.length in H. rewrite H at 1.
  simpl. now rewrite split_exhausted.
Qed.

(** ** The credentials helpers *)

Lemma oauth_credentials_spec (request : Request) :
  MainOauth._get_user_credentials_from_request request =
  ([EvHeaderGet "Authorization"],
   if authorized request then
     Ok (mkCredentials (bearer_token (auth_header request)) [],
         bearer_token (auth_header request))
   else Raise (ValueError (auth_error oauth_missing_header oauth_empty_token request))).
Proof.
  unfold MainOauth._get_user_credentials_from_request, authorized, auth_error,
    headers_get, auth_header, bearer_token.
  generalize (header_value request "Authorization" ""); intros h.
  cbv [bind emit ret].
  destruct (startswith h "Bearer ") eqn:Hs; [|reflexivity].
  rewrite (split_bearer h Hs).
  cbv [list_index index nth_error negb andb ret raise app].
  generalize (strip (string_drop 7 h)); intros tok.
  now destruct (String.eqb tok "").
Qed.

Lemma cors_credentials_spec (request : Request) :
  Main._get_user_credentials_from_request request =
  ([EvHeaderGet "Authorization"],
   if authorized request then
     Ok (mkCredentials (bearer_token (auth_header request))
                       ["https://www.googleapis.com/auth/analytics.readonly"],
         bearer_token (auth_header request))
   else Raise (ValueError (auth_error cors_missing_header cors_empty_token request))).
Proof.
  unfold Main._get_user_credentials_from_request, authorized, auth_error,
    headers_get, auth_header, bearer_token.
  generalize (header_value request "Authorization" ""); intros h.
  cbv [bind emit ret].
  destruct (startswith h "Bearer ") eqn:Hs; [|reflexivity].
  rewrite (split_bearer h Hs).
  cbv [list_index index nth_error negb andb ret raise app].
  generalize (strip (string_drop 7 h)); intros tok.
  now destruct (String.eqb tok "").
Qed.

(* ================================================================== *)
(** * The shape of a run *)
(* ================================================================== *)

Lemma bind_ext {A B} (m : M A) (f g : A -> M B) :
  (forall a, f a = g a) -> bind m f = bind m g.
Proof.
  intros H. destruct m as [t [a|e]]; simpl; [now rewrite H|reflexivity].
Qed.

Lemma bind_pair {A B} (t : list event) (a : A) (k : A -> M B) :
  bind (t, Ok a) k = ((t ++ trace (k a))%list, outcome (k a)).
Proof. unfold bind, trace, outcome. now destruct (k a). Qed.

Lemma read_params_shape (guarded : bool) (request : Request) :
  read_params guarded request =
  if in_query request "property_id" then
    ([], Ok (args_get request "property_id", args_get request "start_date",
             args_get request "end_date"))
  else ([EvGetJson], params_outcome guarded request).
Proof.
  unfold read_params, in_query, params_outcome, read_body, get_json.
  generalize (args_get request "property_id") as pid.
  generalize (args_get request "start_date") as sd.
  generalize (args_get request "end_date") as ed.
  intros ed sd pid.
  destruct (truthy pid) eqn:Hp; [reflexivity|].
  cbv [negb].
  assert (Hget : forall data : pyval,
             (property_id <- or_else pid (lift (get data "property_id")) ;;
              start_date <- or_else sd (lift (get data "start_date")) ;;
              end_date <- or_else ed (lift (get data "end_date")) ;;
              ret (property_id, start_date, end_date)) =
             ([], match data with
                  | PDict d => Ok (dict_get d "property_id",
                                   or_ sd (dict_get d "start_date"),
                                   or_ ed (dict_get d "end_date"))
                  | v => Raise (AttributeError (String squote (type_name v)
                                   ++ "' object has no attribute 'get'"))
                  end)).
  { intros data. unfold or_else, or_. rewrite Hp.
    destruct data; try reflexivity.
    cbv [get lift bind ret app].
    destruct (truthy sd), (truthy ed); reflexivity. }
  rewrite (bind_ext _ _ _ Hget).
  destruct guarded; destruct (json request) as [j|e]; reflexivity.
Qed.

Lemma count_sessions_shape (rt : Runtime) (response : RunReportResponse) :
  count_sessions rt response = ([], count_outcome rt response).
Proof.
  unfold count_sessions, count_outcome.
  destruct (rows response) as [|row rs]; [reflexivity|].
  cbv [is_empty repeated_index index nth_error ret bind app].
  destruct (metric_values row) as [|mv mvs]; [reflexivity|].
  cbv [lift]. now destruct (int (value mv)).
Qed.

Lemma sessions_core_shape (rt : Runtime) (guarded : bool)
      (creds : option Credentials) (hdrs : list (string * string))
      (request : Request) :
  sessions_core rt guarded creds hdrs request =
  bind (read_params guarded request) (after_params rt creds hdrs).
Proof.
  unfold sessions_core. apply bind_ext. intros [[pid sd] ed].
  unfold after_params. destruct (truthy pid); [|reflexivity].
  cbn [negb].
  destruct (new_sessions_request pid _ _) as [rr|e]; [|reflexivity].
  cbv [call_run_report new_data_client emit lift bind app].
  destruct (run_report rt creds rr) as [response|e]; [|reflexivity].
  rewrite count_sessions_shape.
  now destruct (count_outcome rt response).
Qed.

Lemma if_negb_or (x d : pyval) :
  (if negb (truthy x) then d else x) = or_ x d.
Proof. unfold or_. now destruct (truthy x). Qed.

(** main_old.py's handler is the common shape, ungated. *)
Lemma old_sessions_is_core (rt : Runtime) (request : Request) :
  MainOld.ga4_property_sessions rt request =
  sessions_core rt true None content_type_json request.
Proof.
  unfold MainOld.ga4_property_sessions, sessions_core.
  apply bind_ext. intros [[pid sd] ed].
  destruct (truthy pid); [|reflexivity].
  cbn [negb]. now rewrite !if_negb_or.
Qed.

(** main_oauth.py's handler: the bearer check, then the common shape. *)
Lemma oauth_sessions_is_core (rt : Runtime) (request : Request) :
  MainOauth.ga4_property_sessions rt request =
  bind (emit (EvHeaderGet "Authorization"))
       (fun _ =>
          if authorized request then
            sessions_core rt true (creds_of OauthSessions request)
                          content_type_json request
          else
            ret (unauthorized_response content_type_json
                   (auth_error oauth_missing_header oauth_empty_token request))).
Proof.
  unfold MainOauth.ga4_property_sessions.
  rewrite oauth_credentials_spec.
  destruct (authorized request); [|reflexivity].
  cbv [try_except emit].
  rewrite bind_pair. cbv [creds_of].
  match goal with
  | |- (let '(t', r) := ?m in _) = (_, outcome ?m') =>
      replace m with m'; [now destruct m'|]
  end.
  unfold sessions_core.
  apply bind_ext. intros [[pid sd] ed].
  destruct (truthy pid); [|reflexivity].
  cbn [negb]. now rewrite !if_negb_or.
Qed.

(** main.py's handler: the preflight short-cut, the bearer check, then the
    common shape with the body read unguarded. *)
Lemma cors_sessions_is_core (rt : Runtime) (request : Request) :
  Main.ga4_property_sessions_oauth rt request =
  if is_preflight request then ret (mkResponse "" 204 Main._cors_headers)
  else
    bind (emit (EvHeaderGet "Authorization"))
         (fun _ =>
            if authorized request then
              sessions_core rt false (creds_of CorsSessions request)
                            Main._cors_headers request
            else
              ret (unauthorized_response Main._cors_headers
                     (auth_error cors_missing_header cors_empty_token request))).
Proof.
  unfold Main.ga4_property_sessions_oauth, Main._handle_preflight, is_preflight.
  destruct (String.eqb (method request) "OPTIONS"); [reflexivity|].
  rewrite cors_credentials_spec.
  destruct (authorized request); [|reflexivity].
  cbv [try_except emit].
  rewrite bind_pair. cbv [creds_of].
  match goal with
  | |- (let '(t', r) := ?m in _) = (_, outcome ?m') =>
      replace m with m'; [now destruct m'|]
  end.
  unfold sessions_core, read_params, read_body.
  apply bind_ext. intros [[pid sd] ed].
  destruct (truthy pid); [|reflexivity].
  cbn [negb]. apply bind_ext. intros request_body.
  apply bind_ext. intros response.
  unfold count_sessions.
  now destruct (is_empty (rows response)).
Qed.

Lemma sessions_core_run (rt : Runtime) (guarded : bool)
      (creds : option Credentials) (hdrs : list (string * string))
      (request : Request) :
  sessions_core rt guarded creds hdrs request =
  match resolved_params guarded request with
  | Raise e => (body_events request, Raise e)
  | Ok p => ((body_events request ++ trace (after_params rt creds hdrs p))%list,
             outcome (after_params rt creds hdrs p))
  end.
Proof.
  rewrite sessions_core_shape, read_params_shape.
  unfold resolved_params, body_events.
  destruct (in_query request "property_id").
  - now rewrite bind_pair.
  - destruct (params_outcome guarded request) as [p|e];
      [now rewrite bind_pair|reflexivity].
Qed.

(** A request that passes the gates runs the common shape. *)
Lemma run_sessions_passed (h : sessions_handler) (rt : Runtime) (request : Request) :
  passes_gates h request = true ->
  run_sessions h rt request =
  bind (gate_events h, Ok tt)
       (fun _ => sessions_core rt (guarded_of h) (creds_of h request)
                               (headers_of h) request).
Proof.
  intros Hg. destruct h; simpl in Hg; cbn [run_sessions].
  - rewrite old_sessions_is_core.
    cbn [gate_events guarded_of creds_of headers_of]. rewrite bind_pair.
    now destruct (sessions_core rt true None content_type_json request).
  - rewrite oauth_sessions_is_core, Hg. reflexivity.
  - apply andb_true_iff in Hg as [Hp Ha].
    rewrite cors_sessions_is_core, Ha.
    apply negb_true_iff in Hp. rewrite Hp. reflexivity.
Qed.

(** A bearer handler turns a request that fails the bearer check away. *)
Lemma run_sessions_unauthorized (h : sessions_handler) (rt : Runtime)
      (request : Request) :
  h <> OldSessions ->
  (h = CorsSessions -> is_preflight request = false) ->
  authorized request = false ->
  run_sessions h rt request =
  ([EvHeaderGet "Authorization"],
   Ok (unauthorized_response (headers_of h) (auth_error_of h request))).
Proof.
  intros Hh Hp Ha. destruct h; [congruence| |]; cbn [run_sessions].
  - rewrite oauth_sessions_is_core, Ha. reflexivity.
  - rewrite cors_sessions_is_core, Ha, (Hp eq_refl). reflexivity.
Qed.

Lemma run_sessions_preflight (rt : Runtime) (request : Request) :
  is_preflight request = true ->
  Main.ga4_property_sessions_oauth rt request =
  ([], Ok (mkResponse "" 204 Main._cors_headers)).
Proof.
  intros Hp. now rewrite cors_sessions_is_core, Hp.
Qed.

(** Every run of a sessions handler is one of three: the preflight
    short-cut, the 401 of the bearer check, or the common shape. *)
Lemma run_sessions_cases (h : sessions_handler) (rt : Runtime) (request : Request) :
  (h = CorsSessions /\ is_preflight request = true /\
   run_sessions h rt request = ([], Ok (mkResponse "" 204 Main._cors_headers)))
  \/ (h <> OldSessions /\ authorized request = false /\
      run_sessions h rt request =
      ([EvHeaderGet "Authorization"],
       Ok (unauthorized_response (headers_of h) (auth_error_of h request))))
  \/ (passes_gates h request = true /\
      run_sessions h rt request =
      bind (gate_events h, Ok tt)
           (fun _ => sessions_core rt (guarded_of h) (creds_of h request)
                                   (headers_of h) request)).
Proof.
  destruct (passes_gates h request) eqn:Hg.
  - right; right. split; [reflexivity|]. now apply run_sessions_passed.
  - destruct h; simpl in Hg; [discriminate| |].
    + right; left. split; [discriminate|]. split; [assumption|].
      apply run_sessions_unauthorized; [discriminate|discriminate|assumption].
    + destruct (is_preflight request) eqn:Hp.
      * left. split; [reflexivity|]. split; [reflexivity|].
        now apply run_sessions_preflight.
      * right; left. simpl in Hg. split; [discriminate|]. split; [assumption|].
        apply run_sessions_unauthorized; [discriminate|now intros _|assumption].
Qed.

(** A run that passed the gates, spelled out. *)
Lemma run_sessions_passed_run (h : sessions_handler) (rt : Runtime)
      (request : Request) :
  passes_gates h request = true ->
  run_sessions h rt request =
  match resolved_params (guarded_of h) request with
  | Raise e => ((gate_events h ++ body_events request)%list, Raise e)
  | Ok p =>
      ((gate_events h ++ body_events request
        ++ trace (after_params rt (creds_of h request) (headers_of h) p))%list,
       outcome (after_params rt (creds_of h request) (headers_of h) p))
  end.
Proof.
  intros Hg. rewrite (run_sessions_passed h rt request Hg), sessions_core_run.
  now destruct (resolved_params (guarded_of h) request).
Qed.

Lemma no_report_before_params (h : sessions_handler) (request : Request)
      (creds : option Credentials) (rr : RunReportRequest) (t : list event) :
  In (EvRunReport creds rr) (gate_events h ++ body_events request ++ t) ->
  In (EvRunReport creds rr) t.
Proof.
  intros H. apply in_app_or in H as [H|H].
  - destruct h; simpl in H; intuition discriminate.
  - apply in_app_or in H as [H|H]; [|assumption].
    unfold body_events in H.
    destruct (in_query request "property_id"); simpl in H; intuition discriminate.
Qed.

Lemma count_outcome_reported (rt : Runtime) (response : RunReportResponse) (n : Z) :
  reported_sessions response = Some n -> count_outcome rt response = Ok n.
Proof.
  unfold reported_sessions, count_outcome.
  destruct (rows response) as [|row rs]; [congruence|].
  destruct (metric_values row) as [|mv mvs]; [discriminate|].
  destruct (int (value mv)); [congruence|discriminate].
Qed.

Lemma count_outcome_ok (rt : Runtime) (response : RunReportResponse) (n : Z) :
  count_outcome rt response = Ok n -> reported_sessions response = Some n.
Proof.
  unfold reported_sessions, count_outcome.
  destruct (rows response) as [|row rs]; [congruence|].
  destruct (metric_values row) as [|mv mvs]; [discriminate|].
  destruct (int (value mv)); [congruence|discriminate].
Qed.

Lemma int_raises_ValueError (s : string) (e : exn) :
  int s = Raise e -> exn_class e = "ValueError".
Proof.
  assert (Hf : forall neg scanned,
             int_finish s neg scanned = Raise e -> exn_class e = "ValueError").
  { intros neg [[[v digits] rest]|]; unfold int_finish.
    - destruct (_ && _ && _); [intros H; now injection H as <-|].
      destruct (Nat.eqb digits 0); [intros H; now injection H as <-|].
      destruct (lstrip_by is_int_space rest); [discriminate|].
      intros H; now injection H as <-.
    - intros H; now injection H as <-. }
  assert (Hu : forall neg s2,
             int_unsigned s neg s2 = Raise e -> exn_class e = "ValueError").
  { intros neg s2. unfold int_unsigned.
    destruct s2 as [|c s2]; [apply Hf|].
    destruct c as [[] [] [] [] [] [] [] []];
      first [apply Hf | intros H; now injection H as <-]. }
  unfold int. destruct (lstrip_by is_int_space s) as [|c s1]; [apply Hu|].
  destruct c as [[] [] [] [] [] [] [] []]; apply Hu.
Qed.

(** A response that reports no session count makes the read raise. *)
Lemma count_outcome_unreported (rt : Runtime) (response : RunReportResponse) :
  reported_sessions response = None ->
  exists e, count_outcome rt response = Raise e
            /\ (exn_class e = "IndexError" \/ exn_class e = "ValueError").
Proof.
  unfold reported_sessions, count_outcome.
  destruct (rows response) as [|row rs]; [discriminate|].
  destruct (metric_values row) as [|mv mvs].
  - intros _. eexists. split; [reflexivity|now left].
  - destruct (int (value mv)) as [n|e] eqn:E; [discriminate|].
    intros _. exists e. split; [reflexivity|right].
    now apply (int_raises_ValueError _ _ E).
Qed.

(** The constructor builds the message exactly when both dates are strings. *)
Lemma new_sessions_request_ok (pid sd ed : pyval) (rr : RunReportRequest) :
  new_sessions_request pid sd ed = Ok rr ->
  rr = sessions_request pid sd ed /\ is_str sd = true /\ is_str ed = true.
Proof.
  unfold new_sessions_request.
  destruct (is_str sd); [|discriminate].
  destruct (is_str ed); [|discriminate].
  intros H. injection H as <-. now repeat split.
Qed.

Lemma new_sessions_request_str (pid sd ed : pyval) :
  is_str sd = true -> is_str ed = true ->
  new_sessions_request pid sd ed = Ok (sessions_request pid sd ed).
Proof. unfold new_sessions_request. now intros -> ->. Qed.

Lemma new_sessions_request_refused (pid sd ed : pyval) :
  is_str sd && is_str ed = false ->
  new_sessions_request pid sd ed = Raise string_field_error.
Proof. unfold new_sessions_request. now intros ->. Qed.

(** A report request in the trace of a run comes from the success path:
    the run passed the gates, settled on parameters with a truthy property
    id, and sent exactly one request, built from them. *)
Lemma report_request_inv (h : sessions_handler) (rt : Runtime) (request : Request)
      (creds : option Credentials) (rr : RunReportRequest) :
  In (EvRunReport creds rr) (trace (run_sessions h rt request)) ->
  exists pid sd ed,
    passes_gates h request = true /\
    resolved_params (guarded_of h) request = Ok (pid, sd, ed) /\
    truthy pid = true /\
    creds = creds_of h request /\
    rr = sessions_request pid (or_ sd (PStr "30daysAgo")) (or_ ed (PStr "today")) /\
    is_str (or_ sd (PStr "30daysAgo")) = true /\
    is_str (or_ ed (PStr "today")) = true.
Proof.
  intros Hin.
  destruct (run_sessions_cases h rt request) as [(_ & _ & E)|[(_ & _ & E)|(Hg & _)]].
  - rewrite E in Hin. contradiction.
  - rewrite E in Hin. simpl in Hin. intuition discriminate.
  - rewrite (run_sessions_passed_run h rt request Hg) in Hin.
    destruct (resolved_params (guarded_of h) request) as [[[pid sd] ed]|e] eqn:Ep.
    + cbn [trace fst] in Hin. apply no_report_before_params in Hin.
      unfold after_params in Hin.
      destruct (truthy pid) eqn:Ht; [|contradiction].
      destruct (new_sessions_request pid _ _) as [rr'|e] eqn:En; [|contradiction].
      apply new_sessions_request_ok in En as (-> & Hs & He).
      cbn [trace fst] in Hin. destruct Hin as [Hin|[]].
      injection Hin as <- <-.
      exists pid, sd, ed. repeat split; assumption.
    + cbn [trace fst] in Hin.
      rewrite <- (app_nil_r (body_events request)) in Hin.
      apply no_report_before_params in Hin. contradiction.
Qed.

(* ================================================================== *)
(** * [int] reads back the decimal text of an integer *)
(* ================================================================== *)

Lemma is_digit_not_underscore (c : ascii) :
  is_digit c = true -> Ascii.eqb c "_" = false.
Proof.
  intros H. destruct (Ascii.eqb c "_") eqn:E; [|reflexivity].
  apply Ascii.eqb_eq in E. subst c. discriminate H.
Qed.

Lemma scan_digits_step (c : ascii) (acc : Z) (k : nat) (s : string) :
  is_digit c = true ->
  scan_digits false acc k (String c s)
  = scan_digits false (10 * acc + digit_value c)%Z (S k) s.
Proof.
  intros H. cbn [scan_digits]. now rewrite (is_digit_not_underscore c H), H.
Qed.

Ltac scan_one IH c n :=
  rewrite scan_digits_step by reflexivity;
  change (digit_value c) with n;
  match goal with
  | |- scan_digits false ?v _ _ = Some (Z.pos (Pos.of_uint_acc _ ?p), _, _) =>
      replace v with (Z.pos p) by lia
  end;
  rewrite IH; now rewrite Nat.add_succ_r.

(** Scanning the digits of [d] behind a positive accumulator. *)
Lemma scan_digits_acc (d : Decimal.uint) (acc : positive) (k : nat) :
  scan_digits false (Z.pos acc) k (NilEmpty.string_of_uint d)
  = Some (Z.pos (Pos.of_uint_acc d acc),
          (k + String.length (NilEmpty.string_of_uint d))%nat, EmptyString).
Proof.
  revert acc k.
  induction d as [|d IH|d IH|d IH|d IH|d IH|d IH|d IH|d IH|d IH|d IH];
    intros acc k; cbn [NilEmpty.string_of_uint Pos.of_uint_acc String.length].
  - cbn. now rewrite Nat.add_0_r.
  - scan_one IH "0"%char 0%Z.
  - scan_one IH "1"%char 1%Z.
  - scan_one IH "2"%char 2%Z.
  - scan_one IH "3"%char 3%Z.
  - scan_one IH "4"%char 4%Z.
  - scan_one IH "5"%char 5%Z.
  - scan_one IH "6"%char 6%Z.
  - scan_one IH "7"%char 7%Z.
  - scan_one IH "8"%char 8%Z.
  - scan_one IH "9"%char 9%Z.
Qed.

(** Scanning the digits of [d] from the start: leading zeros leave the
    accumulator at 0. *)
Lemma scan_digits_zero (d : Decimal.uint) (k : nat) :
  scan_digits false 0%Z k (NilEmpty.string_of_uint d)
  = Some (Z.of_N (Pos.of_uint d),
          (k + String.length (NilEmpty.string_of_uint d))%nat, EmptyString).
Proof.
  revert k.
  induction d as [|d IH|d IH|d IH|d IH|d IH|d IH|d IH|d IH|d IH|d IH];
    intros k; cbn [NilEmpty.string_of_uint Pos.of_uint String.length];
    [cbn; now rewrite Nat.add_0_r
    |rewrite scan_digits_step by reflexivity;
     change (10 * 0 + digit_value "0")%Z with 0%Z;
     rewrite IH; now rewrite Nat.add_succ_r
    |rewrite scan_digits_step by reflexivity;
     match goal with
     | |- scan_digits false ?v _ _
          = Some (Z.of_N (N.pos (Pos.of_uint_acc _ ?p)), _, _) =>
         change v with (Z.pos p)
     end;
     rewrite scan_digits_acc; now rewrite Nat.add_succ_r ..].
Qed.

Lemma string_of_uint_head (d : Decimal.uint) :
  d <> Decimal.Nil ->
  exists c s, NilEmpty.string_of_uint d = String c s /\ is_digit c = true.
Proof.
  destruct d; [congruence|..]; intros _; eexists _, _; split; reflexivity.
Qed.

Lemma int_digit_head (c : ascii) (s : string) :
  is_digit c = true ->
  int (String c s) = int_finish (String c s) false (scan_digits false 0%Z 0 (String c s)).
Proof.
  intros H. unfold int, int_unsigned. cbn [lstrip_by].
  assert (Hs : is_int_space c = false).
  { destruct c as [[] [] [] [] [] [] [] []]; try discriminate H; reflexivity. }
  rewrite Hs.
  destruct c as [[] [] [] [] [] [] [] []]; try discriminate H; reflexivity.
Qed.

Lemma int_minus_digit_head (c : ascii) (s : string) :
  is_digit c = true ->
  int (String "-" (String c s))
  = int_finish (String "-" (String c s)) true (scan_digits false 0%Z 0 (String c s)).
Proof.
  intros H. unfold int, int_unsigned. cbn [lstrip_by].
  change (is_int_space "-") with false. cbv iota.
  destruct c as [[] [] [] [] [] [] [] []]; try discriminate H; reflexivity.
Qed.

Lemma int_finish_digits (orig : string) (neg : bool) (d : Decimal.uint) :
  d <> Decimal.Nil ->
  (String.length (NilEmpty.string_of_uint d) <= int_max_str_digits)%nat ->
  int_finish orig neg (scan_digits false 0%Z 0 (NilEmpty.string_of_uint d))
  = Ok (if neg then (- Z.of_N (Pos.of_uint d))%Z else Z.of_N (Pos.of_uint d)).
Proof.
  intros Hd Hlen.
  destruct (string_of_uint_head d Hd) as (c & s & E & Hc).
  rewrite scan_digits_zero. unfold int_finish. rewrite E in Hlen |- *.
  cbn [String.length Nat.add Nat.eqb lstrip_by].
  apply Nat.ltb_ge in Hlen. cbn [String.length] in Hlen. rewrite Hlen.
  now rewrite andb_false_r.
Qed.

Lemma string_of_uint_nonnil (d : Decimal.uint) :
  d <> Decimal.Nil -> NilZero.string_of_uint d = NilEmpty.string_of_uint d.
Proof. destruct d; [congruence|reflexivity..]. Qed.

(** [int] reads the decimal text of an integer back, up to the digit limit
    of the interpreter. *)
Lemma int_str_of_Z (z : Z) :
  (String.length (str_of_Z z) <= int_max_str_digits)%nat ->
  int (str_of_Z z) = Ok z.
Proof.
  unfold str_of_Z. destruct z as [|p|p]; cbn [Z.to_int NilZero.string_of_int].
  - intros _. reflexivity.
  - pose proof (Unsigned.to_uint_nonnil p) as Hd.
    rewrite (string_of_uint_nonnil _ Hd). intros Hlen.
    destruct (string_of_uint_head _ Hd) as (c & s & E & Hc).
    rewrite E, (int_digit_head c s Hc), <- E.
    rewrite (int_finish_digits _ false _ Hd Hlen).
    now rewrite Unsigned.of_to.
  - pose proof (Unsigned.to_uint_nonnil p) as Hd.
    rewrite (string_of_uint_nonnil _ Hd). intros Hlen.
    destruct (string_of_uint_head _ Hd) as (c & s & E & Hc).
    rewrite E, (int_minus_digit_head c s Hc), <- E.
    rewrite (int_finish_digits _ true _ Hd).
    + now rewrite Unsigned.of_to.
    + cbn [String.length] in Hlen. lia.
Qed.

(* ================================================================== *)
(** * The parameters a run settles on *)
(* ================================================================== *)

Lemma or_truthy (x d : pyval) : truthy x = true -> or_ x d = x.
Proof. unfold or_. now intros ->. Qed.

Lemma report_requests_passed (h : sessions_handler) (request : Request)
      (creds : option Credentials) (rr : RunReportRequest) :
  report_requests (gate_events h ++ body_events request ++ [EvRunReport creds rr])
  = [rr].
Proof.
  unfold body_events.
  destruct h, (in_query request "property_id"); reflexivity.
Qed.

(** A value of the query string is a string or missing, so a date read
    from it, or defaulted, is a string. *)
Lemma query_date_is_str (request : Request) (k d : string) :
  is_str (date_or (args_get request k) d) = true.
Proof.
  unfold date_or, args_get.
  destruct (args request); [reflexivity|].
  destruct (assoc_by String.eqb _ k) as [v|]; [|reflexivity].
  now destruct (truthy (PStr v)).
Qed.

Lemma settled_date_query_is_str (request : Request) (k d : string) :
  in_query request "property_id" = true ->
  is_str (settled_date request k d) = true.
Proof.
  intros Hq. unfold settled_date, settled_param. rewrite Hq.
  apply query_date_is_str.
Qed.

(** A request that supplies a property id, in the query string or in a
    JSON object, has its parameters settled. *)
Lemma resolved_supplied (guarded : bool) (request : Request) :
  truthy (query_or_body request "property_id") = true ->
  resolved_params guarded request =
  Ok (query_or_body request "property_id",
      settled_param request "start_date", settled_param request "end_date").
Proof.
  unfold resolved_params, settled_param.
  unfold query_or_body at 1 2.
  destruct (in_query request "property_id") eqn:Hq; [reflexivity|].
  unfold query_or_body, params_outcome, body_param, in_query.
  destruct (json request) as [j|e]; [|discriminate].
  destruct j as [| | | | |d]; try discriminate.
  destruct d as [|kv d]; [discriminate|].
  intros _. reflexivity.
Qed.

(** And parameters settled with a truthy property id are those of a
    request that supplies one. *)
Lemma resolved_truthy_inv (guarded : bool) (request : Request) (pid sd ed : pyval) :
  resolved_params guarded request = Ok (pid, sd, ed) ->
  truthy pid = true ->
  truthy (query_or_body request "property_id") = true
  /\ pid = query_or_body request "property_id"
  /\ sd = settled_param request "start_date"
  /\ ed = settled_param request "end_date".
Proof.
  intros Ep Ht.
  assert (Hs : truthy (query_or_body request "property_id") = true).
  { revert Ep. unfold resolved_params, query_or_body.
    destruct (in_query request "property_id") eqn:Hq; [intros _; exact Hq|].
    unfold params_outcome, body_param.
    destruct (json request) as [j|e].
    - destruct j as [| |z|s|l|d].
      + intros E. injection E as <- _ _. discriminate Ht.
      + destruct b; [discriminate|]. intros E. injection E as <- _ _. discriminate Ht.
      + unfold or_. destruct (truthy (PInt z)); [discriminate|].
        intros E. injection E as <- _ _. discriminate Ht.
      + unfold or_. destruct (truthy (PStr s)); [discriminate|].
        intros E. injection E as <- _ _. discriminate Ht.
      + unfold or_. destruct (truthy (PList l)); [discriminate|].
        intros E. injection E as <- _ _. discriminate Ht.
      + destruct d as [|kv d].
        * intros E. injection E as <- _ _. discriminate Ht.
        * intros E. injection E as <- _ _. exact Ht.
    - destruct guarded; [|discriminate].
      intros E. injection E as <- _ _. discriminate Ht. }
  split; [exact Hs|].
  rewrite (resolved_supplied guarded request Hs) in Ep.
  injection Ep as <- <- <-. now repeat split.
Qed.

(** What follows the parameter block when the property id is there and
    both dates are strings: one report request, and the count answered. *)
Lemma after_params_sent (rt : Runtime) (creds : option Credentials)
      (hdrs : list (string * string)) (pid sd ed : pyval) :
  truthy pid = true ->
  is_str (date_or sd "30daysAgo") = true ->
  is_str (date_or ed "today") = true ->
  after_params rt creds hdrs (pid, sd, ed) =
  let rr := mkRunReportRequest ("properties/" ++ str pid) [mkMetric "sessions"]
              [mkDateRange (date_or sd "30daysAgo") (date_or ed "today")] in
  ([EvRunReport creds rr],
   match run_report rt creds rr with
   | Raise e => Raise e
   | Ok response =>
       match count_outcome rt response with
       | Raise e => Raise e
       | Ok n =>
           Ok (mkResponse
                 (json_dumps
                    (PDict [("propertyId", pid);
                            ("dateRange",
                             PDict [("start_date", date_or sd "30daysAgo");
                                    ("end_date", date_or ed "today")]);
                            ("metrics", PDict [("sessions", PInt n)])]))
                 200 hdrs)
       end
   end).
Proof.
  intros Ht Hs He. unfold after_params. rewrite Ht.
  change (or_ sd (PStr "30daysAgo")) with (date_or sd "30daysAgo").
  change (or_ ed (PStr "today")) with (date_or ed "today").
  cbv zeta. now rewrite (new_sessions_request_str pid _ _ Hs He).
Qed.

(** And when a date is no string: the constructor's TypeError, nothing
    sent. *)
Lemma after_params_refused (rt : Runtime) (creds : option Credentials)
      (hdrs : list (string * string)) (pid sd ed : pyval) :
  truthy pid = true ->
  is_str (date_or sd "30daysAgo") && is_str (date_or ed "today") = false ->
  after_params rt creds hdrs (pid, sd, ed) = ([], Raise string_field_error).
Proof.
  intros Ht Hs. unfold after_params. rewrite Ht.
  change (or_ sd (PStr "30daysAgo")) with (date_or sd "30daysAgo").
  change (or_ ed (PStr "today")) with (date_or ed "today").
  cbv zeta. now rewrite (new_sessions_request_refused pid _ _ Hs).
Qed.

(** The run of a request past the gates that supplies a property id and
    whose dates are strings. *)
Lemma run_sessions_sent (h : sessions_handler) (rt : Runtime) (request : Request) :
  passes_gates h request = true ->
  truthy (query_or_body request "property_id") = true ->
  is_str (settled_date request "start_date" "30daysAgo") = true ->
  is_str (settled_date request "end_date" "today") = true ->
  run_sessions h rt request =
  let pid := query_or_body request "property_id" in
  let sd := settled_date request "start_date" "30daysAgo" in
  let ed := settled_date request "end_date" "today" in
  let rr := mkRunReportRequest ("properties/" ++ str pid) [mkMetric "sessions"]
              [mkDateRange sd ed] in
  ((gate_events h ++ body_events request ++ [EvRunReport (creds_of h request) rr])%list,
   match run_report rt (creds_of h request) rr with
   | Raise e => Raise e
   | Ok response =>
       match count_outcome rt response with
       | Raise e => Raise e
       | Ok n =>
           Ok (mkResponse
                 (json_dumps
                    (PDict [("propertyId", pid);
                            ("dateRange", PDict [("start_date", sd); ("end_date", ed)]);
                            ("metrics", PDict [("sessions", PInt n)])]))
                 200 (headers_of h))
       end
   end).
Proof.
  intros Hg Ht Hs He.
  rewrite (run_sessions_passed_run h rt request Hg),
          (resolved_supplied (guarded_of h) request Ht).
  now rewrite (after_params_sent rt _ _ _ _ _ Ht Hs He).
Qed.

(** The same request with a date that is no string. *)
Lemma run_sessions_refused (h : sessions_handler) (rt : Runtime) (request : Request) :
  passes_gates h request = true ->
  truthy (query_or_body request "property_id") = true ->
  is_str (settled_date request "start_date" "30daysAgo")
  && is_str (settled_date request "end_date" "today") = false ->
  run_sessions h rt request =
  ((gate_events h ++ body_events request ++ [])%list, Raise string_field_error).
Proof.
  intros Hg Ht Hs.
  rewrite (run_sessions_passed_run h rt request Hg),
          (resolved_supplied (guarded_of h) request Ht).
  now rewrite (after_params_refused rt _ _ _ _ _ Ht Hs).
Qed.

(** A report request in the trace of a run, read off the request. *)
Lemma report_request_of_request (h : sessions_handler) (rt : Runtime)
      (request : Request) (creds : option Credentials) (rr : RunReportRequest) :
  In (EvRunReport creds rr) (trace (run_sessions h rt request)) ->
  passes_gates h request = true
  /\ truthy (query_or_body request "property_id") = true
  /\ is_str (settled_date request "start_date" "30daysAgo") = true
  /\ is_str (settled_date request "end_date" "today") = true
  /\ creds = creds_of h request
  /\ rr = mkRunReportRequest
            ("properties/" ++ str (query_or_body request "property_id"))
            [mkMetric "sessions"]
            [mkDateRange (settled_date request "start_date" "30daysAgo")
                         (settled_date request "end_date" "today")].
Proof.
  intros Hin.
  destruct (report_request_inv h rt request creds rr Hin)
    as (pid & sd & ed & Hg & Ep & Ht & Hc & Hr & Hs & He).
  destruct (resolved_truthy_inv _ _ _ _ _ Ep Ht) as (Hq & -> & -> & ->).
  now repeat split.
Qed.

(* ================================================================== *)
(** * C1: the session count passes through *)
(* ================================================================== *)

(** C1: whenever a sessions handler has asked the vendor and the vendor
    answers with a response that has no rows, or whose first row's first
    metric value denotes an integer, the handler returns status 200 with
    the JSON object whose metrics.sessions is that integer (0 for no rows),
    the other fields being the property id and the dates of the request.
    The vendor is asked by every request past the handler's gates that
    supplies a property id and whose dates are strings, with one report
    request for the metric sessions of that property over these dates.
    Whatever the vendor's response, a handler that returns after it
    returns this and nothing else.  [get_sessions_for_property] of
    sessions.py asks alike and returns the same integer.  A count the
    vendor reports as its decimal text (within the interpreter's digit
    limit) is that integer. *)
Theorem sessions_count_passthrough :
  let answer (pid sd ed : pyval) (n : Z) : string :=
    json_dumps (PDict [("propertyId", pid);
                       ("dateRange", PDict [("start_date", sd); ("end_date", ed)]);
                       ("metrics", PDict [("sessions", PInt n)])]) in
  let report (pid sd ed : pyval) : RunReportRequest :=
    mkRunReportRequest ("properties/" ++ str pid) [mkMetric "sessions"]
                       [mkDateRange sd ed] in
  (forall (h : sessions_handler) (rt : Runtime) (request : Request)
          (response : RunReportResponse) (n : Z),
      let pid := query_or_body request "property_id" in
      let sd := settled_date request "start_date" "30daysAgo" in
      let ed := settled_date request "end_date" "today" in
      passes_gates h request = true ->
      truthy pid = true -> is_str sd = true -> is_str ed = true ->
      run_report rt (creds_of h request) (report pid sd ed) = Ok response ->
      reported_sessions response = Some n ->
      sdk_calls (trace (run_sessions h rt request))
      = [EvRunReport (creds_of h request) (report pid sd ed)]
      /\ exists r : Response,
          outcome (run_sessions h rt request) = Ok r
          /\ status r = 200%Z
          /\ body r = answer pid sd ed n)
  /\ (forall (h : sessions_handler) (rt : Runtime) (request : Request)
             (creds : option Credentials) (rr : RunReportRequest)
             (response : RunReportResponse) (n : Z),
         let pid := query_or_body request "property_id" in
         let sd := settled_date request "start_date" "30daysAgo" in
         let ed := settled_date request "end_date" "today" in
         In (EvRunReport creds rr) (trace (run_sessions h rt request)) ->
         run_report rt creds rr = Ok response ->
         reported_sessions response = Some n ->
         creds = creds_of h request
         /\ rr = report pid sd ed
         /\ exists r : Response,
             outcome (run_sessions h rt request) = Ok r
             /\ status r = 200%Z
             /\ body r = answer pid sd ed n)
  /\ (forall (h : sessions_handler) (rt : Runtime) (request : Request)
             (creds : option Credentials) (rr : RunReportRequest)
             (response : RunReportResponse) (r : Response),
         let pid := query_or_body request "property_id" in
         let sd := settled_date request "start_date" "30daysAgo" in
         let ed := settled_date request "end_date" "today" in
         In (EvRunReport creds rr) (trace (run_sessions h rt request)) ->
         run_report rt creds rr = Ok response ->
         outcome (run_sessions h rt request) = Ok r ->
         status r = 200%Z
         /\ exists n : Z,
             reported_sessions response = Some n /\ body r = answer pid sd ed n)
  /\ (forall (rt : Runtime) (property_id start_date end_date : string)
             (response : RunReportResponse) (n : Z),
         let rr := mkRunReportRequest ("properties/" ++ property_id)
                     [mkMetric "sessions"]
                     [mkDateRange (PStr start_date) (PStr end_date)] in
         run_report rt None rr = Ok response ->
         reported_sessions response = Some n ->
         Sessions.get_sessions_for_property rt property_id start_date end_date
         = ([EvRunReport None rr], Ok n))
  /\ (forall response : RunReportResponse,
         rows response = [] -> reported_sessions response = Some 0%Z)
  /\ (forall (z : Z) (response : RunReportResponse)
             (metric_values' : list MetricValue) (rows' : list Row),
         (String.length (str_of_Z z) <= int_max_str_digits)%nat ->
         rows response = mkRow (mkMetricValue (str_of_Z z) :: metric_values') :: rows' ->
         reported_sessions response = Some z).
Proof.
  cbv zeta.
  assert (Hfwd : forall h rt request response n,
             passes_gates h request = true ->
             truthy (query_or_body request "property_id") = true ->
             is_str (settled_date request "start_date" "30daysAgo") = true ->
             is_str (settled_date request "end_date" "today") = true ->
             run_report rt (creds_of h request)
               (mkRunReportRequest
                  ("properties/" ++ str (query_or_body request "property_id"))
                  [mkMetric "sessions"]
                  [mkDateRange (settled_date request "start_date" "30daysAgo")
                               (settled_date request "end_date" "today")])
             = Ok response ->
             reported_sessions response = Some n ->
             sdk_calls (trace (run_sessions h rt request))
             = [EvRunReport (creds_of h request)
                  (mkRunReportRequest
                     ("properties/" ++ str (query_or_body request "property_id"))
                     [mkMetric "sessions"]
                     [mkDateRange (settled_date request "start_date" "30daysAgo")
                                  (settled_date request "end_date" "today")])]
             /\ exists r : Response,
                 outcome (run_sessions h rt request) = Ok r
                 /\ status r = 200%Z
                 /\ body r =
                    json_dumps
                      (PDict [("propertyId", query_or_body request "property_id");
                              ("dateRange",
                               PDict [("start_date",
                                       settled_date request "start_date" "30daysAgo");
                                      ("end_date",
                                       settled_date request "end_date" "today")]);
                              ("metrics", PDict [("sessions", PInt n)])])).
  { intros h rt request response n Hg Ht Hs He Hrun Hrep.
    rewrite (run_sessions_sent h rt request Hg Ht Hs He). cbv zeta.
    unfold trace, outcome; cbn [fst snd]. split.
    - unfold body_events. destruct h, (in_query request "property_id"); reflexivity.
    - rewrite Hrun, (count_outcome_reported rt response n Hrep).
      eexists. split; [reflexivity|]. now split. }
  split; [exact Hfwd|]. split; [|split; [|split; [|split]]].
  - intros h rt request creds rr response n Hin Hrun Hrep.
    destruct (report_request_of_request h rt request creds rr Hin)
      as (Hg & Ht & Hs & He & -> & ->).
    split; [reflexivity|]. split; [reflexivity|].
    exact (proj2 (Hfwd h rt request response n Hg Ht Hs He Hrun Hrep)).
  - intros h rt request creds rr response r Hin Hrun Hr.
    destruct (report_request_of_request h rt request creds rr Hin)
      as (Hg & Ht & Hs & He & -> & ->).
    rewrite (run_sessions_sent h rt request Hg Ht Hs He) in Hr.
    cbv zeta in Hr. unfold outcome in Hr; cbn [snd] in Hr.
    rewrite Hrun in Hr.
    destruct (count_outcome rt response) as [n|e] eqn:Hc; [|discriminate Hr].
    injection Hr as <-. split; [reflexivity|].
    exists n. split; [exact (count_outcome_ok rt response n Hc)|reflexivity].
  - intros rt property_id start_date end_date response n Hrun Hrep.
    unfold Sessions.get_sessions_for_property.
    cbv [new_sessions_request new_data_client is_str andb sessions_request str
         lift bind app].
    unfold call_run_report. cbv [emit lift bind]. rewrite Hrun.
    change (if is_empty (rows response) then ret 0%Z else _)
      with (count_sessions rt response).
    rewrite count_sessions_shape, (count_outcome_reported rt response n Hrep).
    reflexivity.
  - intros response Hrows. unfold reported_sessions. now rewrite Hrows.
  - intros z response mvs rs Hlen Hrows.
    unfold reported_sessions. rewrite Hrows. cbn [metric_values value].
    now rewrite (int_str_of_Z z Hlen).
Qed.

(* ================================================================== *)
(** * C2: the default date range *)
(* ================================================================== *)

(** C2, as stated, at a concrete input: a GET that supplies property_id
    and no dates, without Authorization header, to main_oauth.py's
    handler.  No RunReportRequest is built or sent, and the body of the
    response is the error text of the bearer check, without dateRange. *)
Lemma default_dates_unauthorized_sends_nothing :
  let rt := mkRuntime (fun _ => Ok [])
              (fun _ _ => Ok (mkRunReportResponse [mkRow [mkMetricValue "7"]]))
              (fun _ => "") "" in
  let request := mkRequest "GET" [] [("property_id", "182279779")] (Ok PNone) in
  in_query request "property_id" = true
  /\ in_query request "start_date" = false /\ in_body request "start_date" = false
  /\ in_query request "end_date" = false /\ in_body request "end_date" = false
  /\ sdk_calls (trace (MainOauth.ga4_property_sessions rt request)) = []
  /\ exists r : Response,
      outcome (MainOauth.ga4_property_sessions rt request) = Ok r
      /\ status r = 401%Z
      /\ body r = "{" ++ quoted "error" ++ ": "
                  ++ quoted ("Missing or invalid Authorization header. "
                             ++ "Expected: 'Authorization: Bearer <ACCESS_TOKEN>'")
                  ++ "}".
Proof.
  cbv zeta. repeat (split; [reflexivity|]).
  eexists. split; [reflexivity|]. split; reflexivity.
Qed.

(** With a property id supplied and no dates, the dates a run settles on
    are the defaults. *)
Lemma settled_without_dates (request : Request) :
  in_query request "property_id" || in_body request "property_id" = true ->
  in_query request "start_date" = false -> in_body request "start_date" = false ->
  in_query request "end_date" = false -> in_body request "end_date" = false ->
  truthy (query_or_body request "property_id") = true
  /\ settled_date request "start_date" "30daysAgo" = PStr "30daysAgo"
  /\ settled_date request "end_date" "today" = PStr "today".
Proof.
  unfold settled_date, settled_param, date_or, query_or_body, in_body, in_query.
  intros Hp Hqs Hbs Hqe Hbe.
  rewrite Hqs, Hqe.
  destruct (truthy (args_get request "property_id")) eqn:Hq.
  - rewrite Hqs, Hqe. now repeat split.
  - simpl in Hp. rewrite Hbs, Hbe. now repeat split.
Qed.

(** C2 (amended): for every request past the handler's gates that supplies
    property_id and neither date, in the query string or the JSON body,
    the handler builds and sends exactly one RunReportRequest, for the
    metric sessions of that property with the one date range
    30daysAgo..today; every response it returns has status 200 and the
    JSON object with these two strings as its dateRange; and it returns
    one whenever the vendor answers with a session count. *)
Theorem default_date_range
        (h : sessions_handler) (rt : Runtime) (request : Request) :
  passes_gates h request = true ->
  in_query request "property_id" || in_body request "property_id" = true ->
  in_query request "start_date" = false -> in_body request "start_date" = false ->
  in_query request "end_date" = false -> in_body request "end_date" = false ->
  let pid := query_or_body request "property_id" in
  let rr := mkRunReportRequest ("properties/" ++ str pid) [mkMetric "sessions"]
              [mkDateRange (PStr "30daysAgo") (PStr "today")] in
  let answer (n : Z) : string :=
    json_dumps
      (PDict [("propertyId", pid);
              ("dateRange", PDict [("start_date", PStr "30daysAgo");
                                   ("end_date", PStr "today")]);
              ("metrics", PDict [("sessions", PInt n)])]) in
  sdk_calls (trace (run_sessions h rt request)) = [EvRunReport (creds_of h request) rr]
  /\ (forall r : Response,
         outcome (run_sessions h rt request) = Ok r ->
         status r = 200%Z /\ exists n : Z, body r = answer n)
  /\ (forall (response : RunReportResponse) (n : Z),
         run_report rt (creds_of h request) rr = Ok response ->
         reported_sessions response = Some n ->
         exists r : Response,
           outcome (run_sessions h rt request) = Ok r
           /\ status r = 200%Z /\ body r = answer n).
Proof.
  intros Hg Hp Hqs Hbs Hqe Hbe. cbv zeta.
  destruct (settled_without_dates request Hp Hqs Hbs Hqe Hbe) as (Ht & Hsd & Hed).
  assert (Hs : is_str (settled_date request "start_date" "30daysAgo") = true)
    by now rewrite Hsd.
  assert (He : is_str (settled_date request "end_date" "today") = true)
    by now rewrite Hed.
  rewrite (run_sessions_sent h rt request Hg Ht Hs He). cbv zeta.
  rewrite Hsd, Hed. unfold trace, outcome; cbn [fst snd].
  split; [|split].
  - unfold body_events. destruct h, (in_query request "property_id"); reflexivity.
  - intros r Hr.
    destruct (run_report rt _ _) as [response|e]; [|discriminate].
    destruct (count_outcome rt response) as [n|e]; [|discriminate].
    injection Hr as <-. split; [reflexivity|]. now exists n.
  - intros response n Hrun Hrep.
    rewrite Hrun, (count_outcome_reported rt response n Hrep).
    eexists. split; [reflexivity|]. now split.
Qed.

(* ================================================================== *)
(** * C3: query string first, JSON body behind the property id *)
(* ================================================================== *)

(** C3, as stated, at a concrete input: property_id in the query string,
    both dates only in the JSON body.  The body is never read and the
    report request carries the default dates, not the body's. *)
Lemma body_dates_ignored_behind_query_property_id :
  let rt := mkRuntime (fun _ => Ok [])
              (fun _ _ => Ok (mkRunReportResponse [mkRow [mkMetricValue "7"]]))
              (fun _ => "") "" in
  let request :=
    mkRequest "POST" [] [("property_id", "182279779")]
              (Ok (PDict [("start_date", PStr "2025-12-01");
                          ("end_date", PStr "2025-12-15")])) in
  query_or_body request "start_date" = PStr "2025-12-01"
  /\ query_or_body request "end_date" = PStr "2025-12-15"
  /\ report_requests (trace (MainOld.ga4_property_sessions rt request))
     = [mkRunReportRequest "properties/182279779" [mkMetric "sessions"]
          [mkDateRange (PStr "30daysAgo") (PStr "today")]]
  /\ ~ In EvGetJson (trace (MainOld.ga4_property_sessions rt request))
  /\ report_requests (trace (MainOld.ga4_property_sessions rt request))
     <> [mkRunReportRequest "properties/182279779" [mkMetric "sessions"]
           [mkDateRange (query_or_body request "start_date")
                        (query_or_body request "end_date")]].
Proof.
  cbv zeta. repeat split; try reflexivity.
  - vm_compute. intuition discriminate.
  - vm_compute. discriminate.
Qed.

(** C3 (amended): for every request past a sessions handler's gates, the
    JSON body is consulted only when the query string holds no property_id.
    With property_id in the query string, all three parameters come from
    the query string alone (a missing date gets its default), the body is
    never read, and the one report request sent carries them.  With no
    property_id in the query string and a JSON object holding one in the
    body, each of the three parameters is the query-string value when
    present there and the body's value otherwise (a date missing from both
    gets its default): when both dates are strings the one report request
    sent carries them, and when one is not (a number, a list, an object
    or true in the body) the constructor of the report request raises
    TypeError, nothing is sent and no response is returned. *)
Theorem params_query_then_body
        (h : sessions_handler) (rt : Runtime) (request : Request) :
  passes_gates h request = true ->
  let report (pid sd ed : pyval) : RunReportRequest :=
    mkRunReportRequest ("properties/" ++ str pid) [mkMetric "sessions"]
                       [mkDateRange sd ed] in
  (in_query request "property_id" = true ->
   ~ In EvGetJson (trace (run_sessions h rt request))
   /\ sdk_calls (trace (run_sessions h rt request))
      = [EvRunReport (creds_of h request)
           (report (args_get request "property_id")
                   (date_or (args_get request "start_date") "30daysAgo")
                   (date_or (args_get request "end_date") "today"))])
  /\ (in_query request "property_id" = false ->
      in_body request "property_id" = true ->
      let pid := query_or_body request "property_id" in
      let sd := date_or (query_or_body request "start_date") "30daysAgo" in
      let ed := date_or (query_or_body request "end_date") "today" in
      In EvGetJson (trace (run_sessions h rt request))
      /\ (is_str sd && is_str ed = true ->
          sdk_calls (trace (run_sessions h rt request))
          = [EvRunReport (creds_of h request) (report pid sd ed)])
      /\ (is_str sd && is_str ed = false ->
          sdk_calls (trace (run_sessions h rt request)) = []
          /\ exists e : exn,
              outcome (run_sessions h rt request) = Raise e
              /\ exn_class e = "TypeError")).
Proof.
  intros Hg. cbv zeta. split.
  - intros Hq.
    assert (Ht : truthy (query_or_body request "property_id") = true).
    { unfold query_or_body. now rewrite Hq. }
    assert (Hsd : settled_date request "start_date" "30daysAgo"
                  = date_or (args_get request "start_date") "30daysAgo").
    { unfold settled_date, settled_param. now rewrite Hq. }
    assert (Hed : settled_date request "end_date" "today"
                  = date_or (args_get request "end_date") "today").
    { unfold settled_date, settled_param. now rewrite Hq. }
    assert (Hp : query_or_body request "property_id" = args_get request "property_id").
    { unfold query_or_body. now rewrite Hq. }
    rewrite (run_sessions_sent h rt request Hg Ht)
      by (rewrite ?Hsd, ?Hed; apply query_date_is_str).
    cbv zeta. rewrite Hsd, Hed, Hp. unfold trace; cbn [fst].
    unfold body_events. rewrite Hq. split.
    + intros Hin. apply in_app_or in Hin as [Hin|Hin].
      * destruct h; simpl in Hin; intuition discriminate.
      * simpl in Hin. intuition discriminate.
    + destruct h; reflexivity.
  - intros Hq Hb.
    assert (Ht : truthy (query_or_body request "property_id") = true).
    { unfold query_or_body. now rewrite Hq. }
    assert (Hsd : settled_date request "start_date" "30daysAgo"
                  = date_or (query_or_body request "start_date") "30daysAgo").
    { unfold settled_date, settled_param. now rewrite Hq. }
    assert (Hed : settled_date request "end_date" "today"
                  = date_or (query_or_body request "end_date") "today").
    { unfold settled_date, settled_param. now rewrite Hq. }
    split; [|split].
    + rewrite (run_sessions_passed_run h rt request Hg),
              (resolved_supplied (guarded_of h) request Ht).
      unfold trace; cbn [fst]. unfold body_events. rewrite Hq.
      apply in_or_app. right. now left.
    + intros Hs. apply andb_true_iff in Hs as [Hs He].
      rewrite <- Hsd in Hs. rewrite <- Hed in He.
      rewrite (run_sessions_sent h rt request Hg Ht Hs He).
      cbv zeta. rewrite Hsd, Hed. unfold trace; cbn [fst].
      unfold body_events. rewrite Hq. destruct h; reflexivity.
    + intros Hs. rewrite <- Hsd, <- Hed in Hs.
      rewrite (run_sessions_refused h rt request Hg Ht Hs).
      unfold trace, outcome; cbn [fst snd]. split.
      * unfold body_events. rewrite Hq. destruct h; reflexivity.
      * exists string_field_error. now split.
Qed.

(* ================================================================== *)
(** * C4, C5, C8: the error responses and their order *)
(* ================================================================== *)

Lemma oauth_list_accounts_unauthorized (rt : Runtime) (request : Request) :
  authorized request = false ->
  MainOauth.ga4_list_accounts rt request =
  ([EvHeaderGet "Authorization"],
   Ok (unauthorized_response content_type_json
         (auth_error oauth_missing_header oauth_empty_token request))).
Proof.
  intros Ha. unfold MainOauth.ga4_list_accounts.
  now rewrite oauth_credentials_spec, Ha.
Qed.

(** C4, as stated, at a concrete input: an OPTIONS request without an
    Authorization header.  main.py's sessions handler answers 204, not
    401. *)
Lemma preflight_without_bearer_is_204 :
  let rt := mkRuntime (fun _ => Ok []) (fun _ _ => Ok (mkRunReportResponse []))
                      (fun _ => "") "" in
  let request := mkRequest "OPTIONS" [] [] (Ok PNone) in
  startswith (auth_header request) "Bearer " = false
  /\ Main.ga4_property_sessions_oauth rt request
     = ([], Ok (mkResponse "" 204 Main._cors_headers))
  /\ ~ (exists r, outcome (Main.ga4_property_sessions_oauth rt request) = Ok r
                  /\ status r = 401%Z).
Proof.
  cbv zeta. split; [reflexivity|]. split; [reflexivity|].
  intros (r & Hr & Hs). vm_compute in Hr. injection Hr as <-. discriminate Hs.
Qed.

(** C4 (amended): for every request whose Authorization header does not
    start with ["Bearer "] or whose bearer token is empty after stripping,
    [ga4_list_accounts] and [ga4_property_sessions] of main_oauth.py, and
    [ga4_property_sessions_oauth] of main.py unless the request is an
    OPTIONS preflight, return status 401 with a JSON body made of one
    ["error"] field, having read the header and called no vendor SDK; the
    preflight is answered 204 whatever its header. *)
Theorem unauthorized_is_401 (rt : Runtime) (request : Request) :
  authorized request = false ->
  (exists msg,
      outcome (MainOauth.ga4_list_accounts rt request) =
      Ok (mkResponse (json_dumps (PDict [("error", PStr msg)])) 401 content_type_json)
      /\ existsb is_sdk_call (trace (MainOauth.ga4_list_accounts rt request)) = false)
  /\ (exists msg,
         outcome (MainOauth.ga4_property_sessions rt request) =
         Ok (mkResponse (json_dumps (PDict [("error", PStr msg)])) 401
                        content_type_json)
         /\ existsb is_sdk_call (trace (MainOauth.ga4_property_sessions rt request))
            = false)
  /\ (is_preflight request = false ->
      exists msg,
        outcome (Main.ga4_property_sessions_oauth rt request) =
        Ok (mkResponse (json_dumps (PDict [("error", PStr msg)])) 401
                       Main._cors_headers)
        /\ existsb is_sdk_call (trace (Main.ga4_property_sessions_oauth rt request))
           = false)
  /\ (is_preflight request = true ->
      Main.ga4_property_sessions_oauth rt request
      = ([], Ok (mkResponse "" 204 Main._cors_headers))).
Proof.
  intros Ha. split; [|split; [|split]].
  4:{ apply run_sessions_preflight. }
  - eexists. now rewrite (oauth_list_accounts_unauthorized rt request Ha).
  - eexists.
    change (MainOauth.ga4_property_sessions rt request)
      with (run_sessions OauthSessions rt request).
    rewrite (run_sessions_unauthorized OauthSessions rt request);
      [now split|discriminate|discriminate|assumption].
  - intros Hp. eexists.
    change (Main.ga4_property_sessions_oauth rt request)
      with (run_sessions CorsSessions rt request).
    rewrite (run_sessions_unauthorized CorsSessions rt request);
      [now split|discriminate|now intros _|assumption].
Qed.

(** C5, as stated, at a concrete input: no property_id anywhere and no
    Authorization header.  main_oauth.py's handler answers 401, not 400. *)
Lemma missing_property_id_unauthorized_is_401 :
  let rt := mkRuntime (fun _ => Ok []) (fun _ _ => Ok (mkRunReportResponse []))
                      (fun _ => "") "" in
  let request := mkRequest "GET" [] [] (Ok PNone) in
  in_query request "property_id" = false
  /\ in_body request "property_id" = false
  /\ (exists r, outcome (MainOauth.ga4_property_sessions rt request) = Ok r
                /\ status r = 401%Z)
  /\ ~ (exists r, outcome (MainOauth.ga4_property_sessions rt request) = Ok r
                  /\ status r = 400%Z).
Proof.
  cbv zeta. split; [reflexivity|]. split; [reflexivity|]. split.
  - eexists. split; reflexivity.
  - intros (r & Hr & Hs). vm_compute in Hr. injection Hr as <-. discriminate Hs.
Qed.

(** C5 (amended): for every request past a sessions handler's gates (the
    bearer check of main_oauth.py and main.py, the preflight short-cut of
    main.py) in which property_id is absent or falsy in the query string
    and in the JSON body, the body being a JSON object, absent or falsy (or
    unreadable, where the read is guarded), the handler returns status 400
    with the body [{"error": "Missing required parameter: property_id"}]
    and sends nothing to the vendor. *)
Theorem missing_property_id_is_400
        (h : sessions_handler) (rt : Runtime) (request : Request) :
  passes_gates h request = true ->
  in_query request "property_id" = false ->
  in_body request "property_id" = false ->
  body_usable h request = true ->
  run_sessions h rt request =
  ((gate_events h ++ [EvGetJson])%list,
   Ok (mkResponse missing_property_id_text 400 (headers_of h)))
  /\ existsb is_sdk_call (trace (run_sessions h rt request)) = false.
Proof.
  intros Hg Hq Hb Hu.
  assert (E : run_sessions h rt request =
              ((gate_events h ++ [EvGetJson])%list,
               Ok (mkResponse missing_property_id_text 400 (headers_of h)))).
  { rewrite (run_sessions_passed_run h rt request Hg).
    unfold resolved_params, body_events. rewrite Hq.
    unfold in_body, body_param in Hb. unfold body_usable in Hu.
    unfold params_outcome.
    assert (Hdata :
              match json request with
              | Ok j => Ok (or_ j (PDict []))
              | Raise e => if guarded_of h then Ok (PDict []) else Raise e
              end = Ok (PDict match json request with
                              | Ok (PDict d) => d
                              | _ => []
                              end)).
    { destruct (json request) as [j|e].
      - destruct j as [| |z|s|l|d]; try reflexivity; unfold or_.
        + now destruct b.
        + simpl in Hu |- *. now destruct (z =? 0)%Z.
        + simpl in Hu |- *. now destruct (String.eqb s "").
        + now destruct l.
        + now destruct d.
      - now rewrite Hu. }
    rewrite Hdata.
    assert (Hpid : truthy (dict_get match json request with
                                     | Ok (PDict d) => d
                                     | _ => []
                                     end "property_id") = false).
    { destruct (json request) as [j|e]; [|reflexivity].
      destruct j; try reflexivity. assumption. }
    cbn [trace outcome fst snd after_params]. rewrite Hpid.
    cbn [fst snd]. now rewrite app_nil_r. }
  split; [exact E|].
  rewrite E. cbn [trace fst]. rewrite existsb_app.
  destruct h; reflexivity.
Qed.

(** Outside C5 as amended: a truthy JSON body that is no object makes the
    lookup of property_id raise AttributeError in every variant. *)
Lemma non_object_body_raises
      (h : sessions_handler) (rt : Runtime) (request : Request) (v : pyval) :
  passes_gates h request = true ->
  in_query request "property_id" = false ->
  json request = Ok v -> truthy v = true ->
  (forall d, v <> PDict d) ->
  run_sessions h rt request =
  ((gate_events h ++ [EvGetJson])%list,
   Raise (AttributeError (String squote (type_name v)
                          ++ "' object has no attribute 'get'"))).
Proof.
  intros Hg Hq Hj Ht Hd.
  rewrite (run_sessions_passed_run h rt request Hg).
  unfold resolved_params, body_events, params_outcome.
  rewrite Hq, Hj, (or_truthy v _ Ht).
  destruct v; try reflexivity. now contradiction (Hd d).
Qed.

(** Outside C5 as amended: an unreadable body is an empty object to
    main_old.py and main_oauth.py, and an exception to main.py. *)
Lemma unreadable_body_unguarded (rt : Runtime) (request : Request) (e : exn) :
  passes_gates CorsSessions request = true ->
  in_query request "property_id" = false ->
  json request = Raise e ->
  Main.ga4_property_sessions_oauth rt request =
  ([EvHeaderGet "Authorization"; EvGetJson], Raise e).
Proof.
  intros Hg Hq Hj.
  change (Main.ga4_property_sessions_oauth rt request)
    with (run_sessions CorsSessions rt request).
  rewrite (run_sessions_passed_run CorsSessions rt request Hg).
  unfold resolved_params, body_events, params_outcome.
  now rewrite Hq, Hj.
Qed.

(** C8: for every non-OPTIONS request that lacks a valid bearer header and
    lacks property_id, the two bearer sessions handlers return 401; and
    whenever one of them returns 400 the request was authorised. *)
Theorem unauthorized_before_missing_parameter (rt : Runtime) (request : Request) :
  is_preflight request = false ->
  (authorized request = false ->
   in_query request "property_id" = false ->
   in_body request "property_id" = false ->
   (exists r, MainOauth.ga4_property_sessions rt request
              = ([EvHeaderGet "Authorization"], Ok r) /\ status r = 401%Z)
   /\ (exists r, Main.ga4_property_sessions_oauth rt request
                 = ([EvHeaderGet "Authorization"], Ok r) /\ status r = 401%Z))
  /\ (forall r, outcome (MainOauth.ga4_property_sessions rt request) = Ok r ->
                status r = 400%Z -> authorized request = true)
  /\ (forall r, outcome (Main.ga4_property_sessions_oauth rt request) = Ok r ->
                status r = 400%Z -> authorized request = true).
Proof.
  intros Hp. split; [|split].
  - intros Ha _ _. split; eexists; split.
    + apply (run_sessions_unauthorized OauthSessions rt request);
        [discriminate|discriminate|assumption].
    + reflexivity.
    + apply (run_sessions_unauthorized CorsSessions rt request);
        [discriminate|now intros _|assumption].
    + reflexivity.
  - intros r Hr Hs. destruct (authorized request) eqn:Ha; [reflexivity|].
    change (MainOauth.ga4_property_sessions rt request)
      with (run_sessions OauthSessions rt request) in Hr.
    rewrite (run_sessions_unauthorized OauthSessions rt request) in Hr;
      [|discriminate|discriminate|assumption].
    injection Hr as <-. discriminate Hs.
  - intros r Hr Hs. destruct (authorized request) eqn:Ha; [reflexivity|].
    change (Main.ga4_property_sessions_oauth rt request)
      with (run_sessions CorsSessions rt request) in Hr.
    rewrite (run_sessions_unauthorized CorsSessions rt request) in Hr;
      [|discriminate|now intros _|assumption].
    injection Hr as <-. discriminate Hs.
Qed.

(* ================================================================== *)
(** * C7: the accounts listing *)
(* ================================================================== *)

Lemma contains_eqb_sym (c c' : ascii) : Ascii.eqb c c' = Ascii.eqb c' c.
Proof. apply Ascii.eqb_sym. Qed.

Lemma after_last_none (sep : ascii) (s : string) :
  contains sep s = false -> after_last sep s = s.
Proof.
  destruct s as [|c s]; simpl; [reflexivity|].
  intros H. apply orb_false_iff in H as [Hc Hs].
  rewrite Hs, (contains_eqb_sym c sep), Hc. reflexivity.
Qed.

Lemma split_none (sep : ascii) (s : string) :
  contains sep s = false -> split sep None s = [s].
Proof.
  induction s as [|c s IH]; simpl; [reflexivity|].
  intros H. apply orb_false_iff in H as [Hc Hs].
  rewrite (contains_eqb_sym c sep), Hc, (IH Hs). reflexivity.
Qed.

Lemma split_some (sep : ascii) (s : string) :
  contains sep s = true -> exists f g fs, split sep None s = f :: g :: fs.
Proof.
  induction s as [|c s IH]; simpl; [discriminate|].
  rewrite (contains_eqb_sym sep c).
  destruct (Ascii.eqb c sep) eqn:Hc; simpl.
  - intros _. destruct (split sep None s) as [|g fs] eqn:E.
    + now apply split_not_nil in E.
    + now exists EmptyString, g, fs.
  - intros H. destruct (IH H) as (f & g & fs & ->). now exists (String c f), g, fs.
Qed.

(** The last field of [s.split(sep)] is what follows the last [sep]. *)
Lemma split_last (sep : ascii) (s : string) :
  index_last (split sep None s) = Some (after_last sep s).
Proof.
  induction s as [|c s IH]; [reflexivity|].
  cbn [after_last].
  destruct (contains sep s) eqn:Hs.
  - destruct (split_some sep s Hs) as (f & g & fs & E).
    rewrite <- IH. cbn [split]. rewrite E.
    now destruct (Ascii.eqb c sep).
  - cbn [split]. rewrite (split_none sep s Hs).
    now destruct (Ascii.eqb c sep).
Qed.

(** What [after_last] returns holds no [sep], and the string is it alone
    or ends with [sep] followed by it. *)
Lemma after_last_spec (sep : ascii) (s : string) :
  contains sep (after_last sep s) = false
  /\ (after_last sep s = s
      \/ exists pre, s = pre ++ String sep (after_last sep s)).
Proof.
  induction s as [|c s [IHc IHs]]; [now split; [|left]|].
  cbn [after_last].
  destruct (contains sep s) eqn:Hs.
  - split; [assumption|]. right.
    destruct IHs as [E|[pre E]].
    + rewrite E in IHc. congruence.
    + exists (String c pre). simpl. now rewrite <- E.
  - destruct (Ascii.eqb c sep) eqn:Hc.
    + split; [assumption|]. right. exists EmptyString.
      apply Ascii.eqb_eq in Hc. now subst.
    + split; [|now left]. simpl.
      now rewrite (contains_eqb_sym sep c), Hc, Hs.
Qed.

Lemma property_entry_ok (p : PropertySummary) :
  property_entry p = ret (property_json p).
Proof.
  unfold property_entry, list_index_last. now rewrite split_last.
Qed.

(** A loop that appends one computed entry per item builds the map. *)
Lemma for_append_map {A} (f : A -> M pyval) (g : A -> pyval)
      (l : list A) (acc : list pyval) :
  (forall a, f a = ret (g a)) ->
  for_ l acc (fun acc x => entry <- f x ;; ret (acc ++ [entry])%list)
  = ret (acc ++ map g l)%list.
Proof.
  intros Hf. revert acc. induction l as [|a l IH]; intros acc; simpl.
  - now rewrite app_nil_r.
  - rewrite Hf. simpl. rewrite IH. now rewrite <- app_assoc.
Qed.

Lemma account_entry_ok (a : AccountSummary) :
  account_entry a = ret (account_json a).
Proof.
  unfold account_entry.
  now rewrite (for_append_map property_entry property_json _ [] property_entry_ok).
Qed.

Lemma accounts_loop_ok (summaries : list AccountSummary) :
  accounts_loop summaries = ret (map account_json summaries).
Proof.
  unfold accounts_loop.
  now rewrite (for_append_map account_entry account_json _ [] account_entry_ok).
Qed.

(** The runs of the listings on which the vendor is called and answers:
    main_old.py and accounts.py always call, the bearer handlers once the
    request is authorised (and no preflight). *)
Lemma accounts_listing_runs
      (rt : Runtime) (request : Request) (summaries : list AccountSummary) :
  (list_account_summaries rt None = Ok summaries ->
   MainOld.ga4_list_accounts rt request =
   ([EvListAccountSummaries None],
    Ok (mkResponse (accounts_body summaries) 200 content_type_json))
   /\ Accounts.main rt =
      ([EvListAccountSummaries None;
        EvPrint (json_dumps_indent 2 0
                   (PDict [("accounts", PList (map account_json summaries))]))],
       Ok tt))
  /\ (authorized request = true ->
      list_account_summaries rt (creds_of OauthSessions request) = Ok summaries ->
      MainOauth.ga4_list_accounts rt request =
      ([EvHeaderGet "Authorization";
        EvListAccountSummaries (creds_of OauthSessions request)],
       Ok (mkResponse (accounts_body summaries) 200 content_type_json)))
  /\ (is_preflight request = false -> authorized request = true ->
      list_account_summaries rt (creds_of CorsSessions request) = Ok summaries ->
      Main.ga4_list_accounts_oauth rt request =
      ([EvHeaderGet "Authorization";
        EvListAccountSummaries (creds_of CorsSessions request)],
       Ok (mkResponse (accounts_body summaries) 200 Main._cors_headers)))
  /\ (forall p : PropertySummary,
         contains "/" (after_last "/" (ps_property p)) = false
         /\ (after_last "/" (ps_property p) = ps_property p
             \/ exists pre,
                 ps_property p = pre ++ "/" ++ after_last "/" (ps_property p))).
Proof.
  split; [|split; [|split]].
  - intros Hv. split.
    + unfold MainOld.ga4_list_accounts, call_list_account_summaries.
      cbv [emit lift bind]. rewrite Hv, accounts_loop_ok. reflexivity.
    + unfold Accounts.main, call_list_account_summaries.
      cbv [emit lift bind]. rewrite Hv, accounts_loop_ok. reflexivity.
  - intros Ha Hv. unfold MainOauth.ga4_list_accounts.
    rewrite oauth_credentials_spec, Ha.
    cbv [try_except call_list_account_summaries emit lift bind].
    cbv [creds_of] in Hv. rewrite Hv, accounts_loop_ok. reflexivity.
  - intros Hp Ha Hv. unfold Main.ga4_list_accounts_oauth, Main.list_accounts_try.
    unfold is_preflight in Hp. rewrite Hp, cors_credentials_spec, Ha.
    cbv [try_except_Exception call_list_account_summaries emit lift bind].
    cbv [creds_of] in Hv. rewrite Hv, accounts_loop_ok. reflexivity.
  - intros p. apply after_last_spec.
Qed.

(** A listing that called the vendor was past its gates, and called with
    the credentials of the request. *)
Lemma oauth_listing_call_inv (rt : Runtime) (request : Request)
      (creds : option Credentials) :
  In (EvListAccountSummaries creds) (trace (MainOauth.ga4_list_accounts rt request)) ->
  authorized request = true /\ creds = creds_of OauthSessions request.
Proof.
  intros Hin. destruct (authorized request) eqn:Ha.
  - split; [reflexivity|]. revert Hin.
    unfold MainOauth.ga4_list_accounts. rewrite oauth_credentials_spec, Ha.
    cbv [try_except call_list_account_summaries emit lift bind].
    destruct (list_account_summaries rt _) as [summaries|e].
    + rewrite accounts_loop_ok. simpl. intros [H|[H|[]]]; [discriminate H|].
      now injection H as <-.
    + simpl. intros [H|[H|[]]]; [discriminate H|]. now injection H as <-.
  - rewrite (oauth_list_accounts_unauthorized rt request Ha) in Hin.
    simpl in Hin. intuition discriminate.
Qed.

Lemma cors_listing_call_inv (rt : Runtime) (request : Request)
      (creds : option Credentials) :
  In (EvListAccountSummaries creds)
     (trace (Main.ga4_list_accounts_oauth rt request)) ->
  is_preflight request = false /\ authorized request = true
  /\ creds = creds_of CorsSessions request.
Proof.
  unfold Main.ga4_list_accounts_oauth, is_preflight.
  destruct (String.eqb (method request) "OPTIONS"); [intros []|].
  unfold Main.list_accounts_try. rewrite cors_credentials_spec.
  destruct (authorized request).
  - cbv [try_except_Exception call_list_account_summaries emit lift bind].
    destruct (list_account_summaries rt _) as [summaries|e].
    + rewrite accounts_loop_ok. simpl. intros [H|[H|[]]]; [discriminate H|].
      injection H as <-. now repeat split.
    + simpl. intros [H|[H|[]]]; [discriminate H|].
      injection H as <-. now repeat split.
  - simpl. intuition discriminate.
Qed.

(** C7: for every sequence of account summaries the vendor returns to an
    accounts listing, the listing returns status 200 with the body
    [{"accounts": [...]}] whose entries, in vendor order, carry account and
    display_name unchanged and whose property entries carry the resource
    name unchanged with propertyId the text after its last ["/"] (the whole
    name when it has none); the script of accounts.py prints the same
    object.  main_old.py and accounts.py call the vendor on every run,
    main_oauth.py and main.py on every request past their gates, and only
    then. *)
Theorem accounts_listing
        (rt : Runtime) (request : Request) (summaries : list AccountSummary) :
  let listed := PDict [("accounts", PList (map account_json summaries))] in
  (list_account_summaries rt None = Ok summaries ->
   MainOld.ga4_list_accounts rt request
   = ([EvListAccountSummaries None],
      Ok (mkResponse (json_dumps listed) 200 [("Content-Type", "application/json")]))
   /\ Accounts.main rt
      = ([EvListAccountSummaries None; EvPrint (json_dumps_indent 2 0 listed)],
         Ok tt))
  /\ (authorized request = true ->
      list_account_summaries rt (creds_of OauthSessions request) = Ok summaries ->
      MainOauth.ga4_list_accounts rt request
      = ([EvHeaderGet "Authorization";
          EvListAccountSummaries (creds_of OauthSessions request)],
         Ok (mkResponse (json_dumps listed) 200
                        [("Content-Type", "application/json")])))
  /\ (is_preflight request = false -> authorized request = true ->
      list_account_summaries rt (creds_of CorsSessions request) = Ok summaries ->
      Main.ga4_list_accounts_oauth rt request
      = ([EvHeaderGet "Authorization";
          EvListAccountSummaries (creds_of CorsSessions request)],
         Ok (mkResponse (json_dumps listed) 200 Main._cors_headers)))
  /\ (forall creds : option Credentials,
         In (EvListAccountSummaries creds)
            (trace (MainOauth.ga4_list_accounts rt request)) ->
         authorized request = true /\ creds = creds_of OauthSessions request)
  /\ (forall creds : option Credentials,
         In (EvListAccountSummaries creds)
            (trace (Main.ga4_list_accounts_oauth rt request)) ->
         is_preflight request = false /\ authorized request = true
         /\ creds = creds_of CorsSessions request)
  /\ (forall a : AccountSummary,
         account_json a
         = PDict [("account", PStr (as_account a));
                  ("displayName", PStr (as_display_name a));
                  ("properties", PList (map property_json (as_property_summaries a)))])
  /\ (forall p : PropertySummary,
         exists prop_id : string,
           property_json p
           = PDict [("property", PStr (ps_property p));
                    ("propertyId", PStr prop_id);
                    ("displayName", PStr (ps_display_name p))]
           /\ contains "/" prop_id = false
           /\ (prop_id = ps_property p
               \/ exists pre : string, ps_property p = pre ++ "/" ++ prop_id)).
Proof.
  cbv zeta.
  destruct (accounts_listing_runs rt request summaries) as (Hold & Hoauth & Hcors & _).
  split; [exact Hold|]. split; [exact Hoauth|]. split; [exact Hcors|].
  split; [intros creds; apply oauth_listing_call_inv|].
  split; [intros creds; apply cors_listing_call_inv|].
  split; [reflexivity|].
  intros p. exists (after_last "/" (ps_property p)).
  split; [reflexivity|]. apply after_last_spec.
Qed.

(* ================================================================== *)
(** * C6: main.py's accounts listing turns every exception into a 500 *)
(* ================================================================== *)

(** C6: in [ga4_list_accounts_oauth], every exception raised after the
    preflight check ends in a response with status 500, the CORS headers,
    and a JSON body with the exception's message under ["error"] and the
    formatted stack trace under ["traceback"]; this is what happens to the
    ValueError of a bad Authorization header and to an exception of the
    vendor call. *)
Theorem list_accounts_oauth_exception_is_500 (rt : Runtime) (request : Request) :
  is_preflight request = false ->
  (forall e, outcome (Main.list_accounts_try rt request) = Raise e ->
             Main.ga4_list_accounts_oauth rt request =
             (trace (Main.list_accounts_try rt request), Ok (debug_response rt e)))
  /\ (authorized request = false ->
      Main.ga4_list_accounts_oauth rt request =
      ([EvHeaderGet "Authorization"],
       Ok (debug_response rt
             (ValueError (auth_error cors_missing_header cors_empty_token request)))))
  /\ (forall e, authorized request = true ->
                list_account_summaries rt (creds_of CorsSessions request) = Raise e ->
                Main.ga4_list_accounts_oauth rt request =
                ([EvHeaderGet "Authorization";
                  EvListAccountSummaries (creds_of CorsSessions request)],
                 Ok (debug_response rt e))).
Proof.
  intros Hp. unfold is_preflight in Hp.
  unfold Main.ga4_list_accounts_oauth. rewrite Hp.
  split; [|split].
  - intros e He. destruct (Main.list_accounts_try rt request) as [t [r|e']].
    + discriminate He.
    + injection He as ->. cbv [try_except_Exception ret trace fst].
      now rewrite app_nil_r.
  - intros Ha. unfold Main.list_accounts_try.
    rewrite cors_credentials_spec, Ha. reflexivity.
  - intros e Ha Hv. unfold Main.list_accounts_try.
    rewrite cors_credentials_spec, Ha.
    cbv [try_except_Exception call_list_account_summaries emit lift bind].
    cbv [creds_of] in Hv. rewrite Hv. reflexivity.
Qed.

(* ================================================================== *)
(** * C9: main.py's and main_oauth.py's sessions handlers side by side *)
(* ================================================================== *)

(** C9, as stated, at a concrete input: a GET request without an
    Authorization header.  Both handlers answer 401, with different
    bodies. *)
Lemma unauthorized_bodies_differ :
  let rt := mkRuntime (fun _ => Ok []) (fun _ _ => Ok (mkRunReportResponse []))
                      (fun _ => "") "" in
  let request := mkRequest "GET" [] [("property_id", "182279779")] (Ok PNone) in
  exists r_cors r_oauth,
    outcome (Main.ga4_property_sessions_oauth rt request) = Ok r_cors
    /\ outcome (MainOauth.ga4_property_sessions rt request) = Ok r_oauth
    /\ status r_cors = 401%Z /\ status r_oauth = 401%Z
    /\ body r_cors <> body r_oauth.
Proof.
  cbv zeta. eexists _, _.
  split; [reflexivity|]. split; [reflexivity|].
  split; [reflexivity|]. split; [reflexivity|].
  vm_compute. discriminate.
Qed.

Lemma after_params_same (rt : Runtime) (request : Request)
      (p : pyval * pyval * pyval) :
  scopes_blind rt ->
  match outcome (after_params rt (creds_of CorsSessions request) Main._cors_headers p),
        outcome (after_params rt (creds_of OauthSessions request) content_type_json p)
  with
  | Ok r_cors, Ok r_oauth => same_answer r_cors r_oauth /\ status r_cors <> 401%Z
  | Raise e_cors, Raise e_oauth => e_cors = e_oauth
  | _, _ => False
  end.
Proof.
  intros Hv. destruct p as [[pid sd] ed]. unfold after_params.
  destruct (truthy pid).
  - cbv zeta. destruct (new_sessions_request pid _ _) as [rr|e]; [|reflexivity].
    cbn [outcome snd creds_of].
    rewrite (Hv _ ["https://www.googleapis.com/auth/analytics.readonly"] []).
    destruct (run_report rt _ _) as [response|e]; [|reflexivity].
    destruct (count_outcome rt response) as [n|e]; [|reflexivity].
    unfold same_answer. cbn. intuition (auto; discriminate).
  - unfold same_answer. cbn. intuition (auto; discriminate).
Qed.

(** C9 (amended): for every non-OPTIONS request and a vendor that answers
    alike to both, whenever main.py's handler returns a response,
    main_oauth.py's returns one with the same status (401, 400 or 200) and,
    unless the status is 401, the same body; and conversely whenever
    main_oauth.py's returns a 401 or a 200, or a 400 on a request whose body
    could be read.  The 401 bodies carry different messages; the headers
    are the CORS set on one side and Content-Type alone on the other. *)
Theorem cors_and_oauth_sessions_agree (rt : Runtime) (request : Request) :
  is_preflight request = false ->
  scopes_blind rt ->
  (forall r_cors,
      outcome (Main.ga4_property_sessions_oauth rt request) = Ok r_cors ->
      exists r_oauth,
        outcome (MainOauth.ga4_property_sessions rt request) = Ok r_oauth
        /\ same_answer r_cors r_oauth)
  /\ (forall r_oauth,
         outcome (MainOauth.ga4_property_sessions rt request) = Ok r_oauth ->
         status r_oauth <> 400%Z \/ (exists j, json request = Ok j) ->
         exists r_cors,
           outcome (Main.ga4_property_sessions_oauth rt request) = Ok r_cors
           /\ same_answer r_cors r_oauth)
  /\ (forall r_cors r_oauth,
         outcome (Main.ga4_property_sessions_oauth rt request) = Ok r_cors ->
         outcome (MainOauth.ga4_property_sessions rt request) = Ok r_oauth ->
         status r_cors = 401%Z -> body r_oauth <> body r_cors).
Proof.
  intros Hp Hv.
  assert (H401 : forall r_cors r_oauth,
             outcome (Main.ga4_property_sessions_oauth rt request) = Ok r_cors ->
             outcome (MainOauth.ga4_property_sessions rt request) = Ok r_oauth ->
             status r_cors = 401%Z -> body r_oauth <> body r_cors).
  { intros rc ro Hc Ho Hs.
    change (Main.ga4_property_sessions_oauth rt request)
      with (run_sessions CorsSessions rt request) in Hc.
    change (MainOauth.ga4_property_sessions rt request)
      with (run_sessions OauthSessions rt request) in Ho.
    destruct (authorized request) eqn:Ha.
    - rewrite (run_sessions_passed_run CorsSessions rt request) in Hc
        by (simpl; now rewrite Hp, Ha).
      destruct (resolved_params _ request) as [[[pid sd] ed]|e]; [|discriminate Hc].
      cbn [outcome snd headers_of] in Hc. unfold after_params in Hc.
      destruct (truthy pid).
      + cbv zeta in Hc.
        destruct (new_sessions_request pid _ _) as [rr|e]; [|discriminate Hc].
        cbn [snd] in Hc.
        destruct (run_report rt _ _) as [response|e]; [|discriminate Hc].
        destruct (count_outcome rt response); [|discriminate Hc].
        injection Hc as <-. discriminate Hs.
      + injection Hc as <-. discriminate Hs.
    - rewrite (run_sessions_unauthorized CorsSessions rt request) in Hc
        by (try discriminate; auto).
      rewrite (run_sessions_unauthorized OauthSessions rt request) in Ho
        by (try discriminate; auto).
      injection Hc as <-. injection Ho as <-.
      unfold auth_error_of, auth_error.
      destruct (startswith (auth_header request) "Bearer "); vm_compute; discriminate. }
  match goal with
  | |- ?A /\ ?B /\ _ =>
      cut (A /\ B); [intros [HA HB]; exact (conj HA (conj HB H401))|]
  end.
  clear H401.
  change (Main.ga4_property_sessions_oauth rt request)
    with (run_sessions CorsSessions rt request).
  change (MainOauth.ga4_property_sessions rt request)
    with (run_sessions OauthSessions rt request).
  destruct (authorized request) eqn:Ha.
  - rewrite (run_sessions_passed_run CorsSessions rt request)
      by (simpl; now rewrite Hp, Ha).
    rewrite (run_sessions_passed_run OauthSessions rt request) by exact Ha.
    cbn [guarded_of headers_of].
    unfold resolved_params.
    destruct (in_query request "property_id").
    + pose proof (after_params_same rt request
                    (args_get request "property_id", args_get request "start_date",
                     args_get request "end_date") Hv) as H.
      unfold outcome in H |- *; cbn [snd] in H |- *.
      destruct (snd (after_params rt (creds_of CorsSessions request) _ _)) as [rc|ec],
               (snd (after_params rt (creds_of OauthSessions request) _ _)) as [ro|eo];
        try contradiction.
      * destruct H as [H _]. split.
        -- intros r Hr. injection Hr as <-. now exists ro.
        -- intros r Hr _. injection Hr as <-. now exists rc.
      * split; [intros r Hr; discriminate Hr|intros r Hr; discriminate Hr].
    + unfold params_outcome.
      destruct (json request) as [j|e].
      * destruct (or_ j (PDict [])) as [| | | | |d];
          try (split; [intros r Hr; discriminate Hr|intros r Hr; discriminate Hr]).
        pose proof (after_params_same rt request
                      (dict_get d "property_id",
                       or_ (args_get request "start_date") (dict_get d "start_date"),
                       or_ (args_get request "end_date") (dict_get d "end_date")) Hv)
          as H.
        unfold outcome in H |- *; cbn [snd] in H |- *.
        destruct (snd (after_params rt (creds_of CorsSessions request) _ _)) as [rc|ec],
                 (snd (after_params rt (creds_of OauthSessions request) _ _)) as [ro|eo];
          try contradiction.
        -- destruct H as [H _]. split.
           ++ intros r Hr. injection Hr as <-. now exists ro.
           ++ intros r Hr _. injection Hr as <-. now exists rc.
        -- split; [intros r Hr; discriminate Hr|intros r Hr; discriminate Hr].
      * cbn [outcome snd after_params truthy dict_get]. split.
        -- intros r Hr. discriminate Hr.
        -- intros r Hr [Hs|[j Hj]]; [|discriminate Hj].
           injection Hr as <-. now contradiction Hs.
  - rewrite (run_sessions_unauthorized CorsSessions rt request)
      by (try discriminate; auto).
    rewrite (run_sessions_unauthorized OauthSessions rt request)
      by (try discriminate; auto).
    cbn [outcome snd]. split.
    + intros r Hr. injection Hr as <-. eexists. split; [reflexivity|].
      unfold same_answer. cbn. intuition (auto; discriminate).
    + intros r Hr _. injection Hr as <-. eexists. split; [reflexivity|].
      unfold same_answer. cbn. intuition (auto; discriminate).
Qed.

(* ================================================================== *)
(** * C10: the CORS headers of main.py *)
(* ================================================================== *)

(** C10: every response of the two handlers of main.py carries the full
    CORS header set, and every OPTIONS request is answered with
    [("", 204, headers)] before the Authorization header is read or the
    vendor called. *)
Theorem cors_headers_on_every_response (rt : Runtime) (request : Request) :
  (forall r, outcome (Main.ga4_list_accounts_oauth rt request) = Ok r ->
             resp_headers r = Main._cors_headers)
  /\ (forall r, outcome (Main.ga4_property_sessions_oauth rt request) = Ok r ->
                resp_headers r = Main._cors_headers)
  /\ (method request = "OPTIONS" ->
      Main.ga4_list_accounts_oauth rt request
      = ([], Ok (mkResponse "" 204 Main._cors_headers))
      /\ Main.ga4_property_sessions_oauth rt request
         = ([], Ok (mkResponse "" 204 Main._cors_headers)))
  /\ Main._cors_headers =
     [("Content-Type", "application/json");
      ("Access-Control-Allow-Origin", "*");
      ("Access-Control-Allow-Headers", "Authorization, Content-Type");
      ("Access-Control-Allow-Methods", "GET, POST, OPTIONS")].
Proof.
  split; [|split; [|split]].
  - intros r. unfold Main.ga4_list_accounts_oauth.
    destruct (String.eqb (method request) "OPTIONS").
    + intros Hr. injection Hr as <-. reflexivity.
    + destruct (Main.list_accounts_try rt request) as [t [r'|e]] eqn:E.
      * cbv [try_except_Exception outcome snd]. intros Hr. injection Hr as <-.
        revert E. unfold Main.list_accounts_try.
        rewrite cors_credentials_spec.
        destruct (authorized request); [|discriminate].
        cbv [call_list_account_summaries emit lift bind].
        destruct (list_account_summaries rt _) as [summaries|e]; [|discriminate].
        rewrite accounts_loop_ok. cbv [ret].
        intros E. injection E as _ <-. reflexivity.
      * cbv [try_except_Exception outcome snd ret]. intros Hr.
        injection Hr as <-. reflexivity.
  - intros r Hr.
    change (Main.ga4_property_sessions_oauth rt request)
      with (run_sessions CorsSessions rt request) in Hr.
    destruct (run_sessions_cases CorsSessions rt request)
      as [(_ & _ & E)|[(_ & _ & E)|(Hg & _)]].
    + rewrite E in Hr. injection Hr as <-. reflexivity.
    + rewrite E in Hr. injection Hr as <-. reflexivity.
    + rewrite (run_sessions_passed_run CorsSessions rt request Hg) in Hr.
      destruct (resolved_params _ request) as [[[pid sd] ed]|e]; [|discriminate Hr].
      cbn [outcome snd headers_of] in Hr. unfold after_params in Hr.
      destruct (truthy pid).
      * cbv zeta in Hr.
        destruct (new_sessions_request pid _ _) as [rr|e]; [|discriminate Hr].
        cbn [snd] in Hr.
        destruct (run_report rt _ _) as [response|e]; [|discriminate Hr].
        destruct (count_outcome rt response); [|discriminate Hr].
        injection Hr as <-. reflexivity.
      * injection Hr as <-. reflexivity.
  - intros Hm. split.
    + unfold Main.ga4_list_accounts_oauth. now rewrite Hm.
    + apply run_sessions_preflight. unfold is_preflight. now rewrite Hm.
  - reflexivity.
Qed.

(* ================================================================== *)
(** * The properties at sample inputs *)
(* ================================================================== *)

Lemma sessions_count_passthrough_witness :
  (sdk_calls (trace (run_sessions OauthSessions sample_runtime sample_get))
   = [EvRunReport (Some (mkCredentials "ya29.token" []))
        (mkRunReportRequest "properties/182279779" [mkMetric "sessions"]
           [mkDateRange (PStr "30daysAgo") (PStr "today")])]
   /\ exists r : Response,
       outcome (run_sessions OauthSessions sample_runtime sample_get) = Ok r
       /\ status r = 200%Z
       /\ body r = sessions_body_text "182279779" "30daysAgo" "today" "5106379")
  /\ (sdk_calls (trace (run_sessions OldSessions sample_runtime sample_post))
      = [EvRunReport None
           (mkRunReportRequest "properties/182279779" [mkMetric "sessions"]
              [mkDateRange (PStr "2025-12-01") (PStr "today")])]
      /\ exists r : Response,
          outcome (run_sessions OldSessions sample_runtime sample_post) = Ok r
          /\ status r = 200%Z
          /\ body r = sessions_body_text "182279779" "2025-12-01" "today" "5106379")
  /\ Sessions.get_sessions_for_property sample_runtime "182279779" "30daysAgo" "today"
     = ([EvRunReport None
           (mkRunReportRequest "properties/182279779" [mkMetric "sessions"]
              [mkDateRange (PStr "30daysAgo") (PStr "today")])],
        Ok 5106379%Z)
  /\ reported_sessions (mkRunReportResponse []) = Some 0%Z
  /\ reported_sessions sample_response = Some 5106379%Z.
Proof.
  pose proof sessions_count_passthrough as H. cbv zeta in H.
  destruct H as (Hsent & _ & _ & Hscript & Hnone & Hint).
  split; [|split; [|split; [|split]]].
  - exact (Hsent OauthSessions sample_runtime sample_get sample_response 5106379%Z
                 eq_refl eq_refl eq_refl eq_refl eq_refl eq_refl).
  - exact (Hsent OldSessions sample_runtime sample_post sample_response 5106379%Z
                 eq_refl eq_refl eq_refl eq_refl eq_refl eq_refl).
  - exact (Hscript sample_runtime "182279779" "30daysAgo" "today" sample_response
                   5106379%Z eq_refl eq_refl).
  - exact (Hnone (mkRunReportResponse []) eq_refl).
  - apply (Hint 5106379%Z sample_response [] []); [vm_compute; lia|reflexivity].
Defined.

Lemma default_date_range_witness :
  sdk_calls (trace (run_sessions CorsSessions sample_runtime sample_get))
  = [EvRunReport
       (Some (mkCredentials "ya29.token"
                ["https://www.googleapis.com/auth/analytics.readonly"]))
       (mkRunReportRequest "properties/182279779" [mkMetric "sessions"]
          [mkDateRange (PStr "30daysAgo") (PStr "today")])]
  /\ exists r : Response,
      outcome (run_sessions CorsSessions sample_runtime sample_get) = Ok r
      /\ status r = 200%Z
      /\ body r = sessions_body_text "182279779" "30daysAgo" "today" "5106379".
Proof.
  destruct (default_date_range CorsSessions sample_runtime sample_get
              eq_refl eq_refl eq_refl eq_refl eq_refl eq_refl) as (Hsent & _ & Hanswer).
  split; [exact Hsent|].
  exact (Hanswer sample_response 5106379%Z eq_refl eq_refl).
Defined.

Lemma params_query_then_body_witness :
  (~ In EvGetJson (trace (run_sessions CorsSessions sample_runtime sample_get))
   /\ sdk_calls (trace (run_sessions CorsSessions sample_runtime sample_get))
      = [EvRunReport
           (Some (mkCredentials "ya29.token"
                    ["https://www.googleapis.com/auth/analytics.readonly"]))
           (mkRunReportRequest "properties/182279779" [mkMetric "sessions"]
              [mkDateRange (PStr "30daysAgo") (PStr "today")])])
  /\ (In EvGetJson (trace (run_sessions OldSessions sample_runtime sample_post))
      /\ sdk_calls (trace (run_sessions OldSessions sample_runtime sample_post))
         = [EvRunReport None
              (mkRunReportRequest "properties/182279779" [mkMetric "sessions"]
                 [mkDateRange (PStr "2025-12-01") (PStr "today")])])
  /\ (In EvGetJson (trace (run_sessions OauthSessions sample_runtime sample_numeric_date))
      /\ sdk_calls (trace (run_sessions OauthSessions sample_runtime sample_numeric_date))
         = []
      /\ exists e : exn,
          outcome (run_sessions OauthSessions sample_runtime sample_numeric_date)
          = Raise e
          /\ exn_class e = "TypeError").
Proof.
  split; [|split].
  - exact (proj1 (params_query_then_body CorsSessions sample_runtime sample_get eq_refl)
                 eq_refl).
  - destruct (proj2 (params_query_then_body OldSessions sample_runtime sample_post
                       eq_refl) eq_refl eq_refl) as (Hread & Hsent & _).
    split; [exact Hread|]. exact (Hsent eq_refl).
  - destruct (proj2 (params_query_then_body OauthSessions sample_runtime
                       sample_numeric_date eq_refl) eq_refl eq_refl)
      as (Hread & _ & Hrefused).
    split; [exact Hread|]. exact (Hrefused eq_refl).
Defined.

Lemma unauthorized_is_401_witness :
  authorized sample_anonymous = false
  /\ exists msg,
      outcome (MainOauth.ga4_property_sessions sample_runtime sample_anonymous) =
      Ok (mkResponse (json_dumps (PDict [("error", PStr msg)])) 401 content_type_json)
      /\ existsb is_sdk_call
           (trace (MainOauth.ga4_property_sessions sample_runtime sample_anonymous))
         = false.
Proof.
  split; [reflexivity|].
  exact (proj1 (proj2 (unauthorized_is_401 sample_runtime sample_anonymous eq_refl))).
Defined.

Lemma missing_property_id_is_400_witness :
  passes_gates OauthSessions sample_no_property = true
  /\ in_query sample_no_property "property_id" = false
  /\ in_body sample_no_property "property_id" = false
  /\ body_usable OauthSessions sample_no_property = true
  /\ run_sessions OauthSessions sample_runtime sample_no_property =
     ((gate_events OauthSessions ++ [EvGetJson])%list,
      Ok (mkResponse missing_property_id_text 400 (headers_of OauthSessions)))
  /\ existsb is_sdk_call
       (trace (run_sessions OauthSessions sample_runtime sample_no_property)) = false.
Proof.
  split; [reflexivity|]. split; [reflexivity|]. split; [reflexivity|].
  split; [reflexivity|].
  apply (missing_property_id_is_400 OauthSessions sample_runtime sample_no_property);
    reflexivity.
Defined.

Lemma list_accounts_oauth_exception_is_500_witness :
  is_preflight sample_anonymous = false
  /\ authorized sample_anonymous = false
  /\ Main.ga4_list_accounts_oauth sample_runtime sample_anonymous =
     ([EvHeaderGet "Authorization"],
      Ok (debug_response sample_runtime
            (ValueError (auth_error cors_missing_header cors_empty_token
                                    sample_anonymous)))).
Proof.
  split; [reflexivity|]. split; [reflexivity|].
  exact (proj1 (proj2 (list_accounts_oauth_exception_is_500
                         sample_runtime sample_anonymous eq_refl)) eq_refl).
Defined.

Lemma accounts_listing_witness :
  MainOld.ga4_list_accounts sample_runtime sample_get
  = ([EvListAccountSummaries None],
     Ok (mkResponse sample_listing_text 200 [("Content-Type", "application/json")]))
  /\ MainOauth.ga4_list_accounts sample_runtime sample_get
     = ([EvHeaderGet "Authorization";
         EvListAccountSummaries (Some (mkCredentials "ya29.token" []))],
        Ok (mkResponse sample_listing_text 200 [("Content-Type", "application/json")]))
  /\ Main.ga4_list_accounts_oauth sample_runtime sample_get
     = ([EvHeaderGet "Authorization";
         EvListAccountSummaries
           (Some (mkCredentials "ya29.token"
                    ["https://www.googleapis.com/auth/analytics.readonly"]))],
        Ok (mkResponse sample_listing_text 200 Main._cors_headers))
  /\ exists printed : string,
      Accounts.main sample_runtime
      = ([EvListAccountSummaries None; EvPrint printed], Ok tt).
Proof.
  destruct (accounts_listing sample_runtime sample_get sample_summaries)
    as (Hold & Hoauth & Hcors & _).
  split; [exact (proj1 (Hold eq_refl))|].
  split; [exact (Hoauth eq_refl eq_refl)|].
  split; [exact (Hcors eq_refl eq_refl eq_refl)|].
  eexists. exact (proj2 (Hold eq_refl)).
Defined.

Lemma unauthorized_before_missing_parameter_witness :
  is_preflight sample_anonymous = false
  /\ authorized sample_anonymous = false
  /\ in_query sample_anonymous "property_id" = false
  /\ in_body sample_anonymous "property_id" = false
  /\ (exists r, MainOauth.ga4_property_sessions sample_runtime sample_anonymous
                = ([EvHeaderGet "Authorization"], Ok r) /\ status r = 401%Z)
  /\ (exists r, Main.ga4_property_sessions_oauth sample_runtime sample_anonymous
                = ([EvHeaderGet "Authorization"], Ok r) /\ status r = 401%Z).
Proof.
  split; [reflexivity|]. split; [reflexivity|]. split; [reflexivity|].
  split; [reflexivity|].
  exact (proj1 (unauthorized_before_missing_parameter
                  sample_runtime sample_anonymous eq_refl)
               eq_refl eq_refl eq_refl).
Defined.

Lemma sample_runtime_scopes_blind : scopes_blind sample_runtime.
Proof. intros tok s1 s2 rr. reflexivity. Qed.

Lemma cors_and_oauth_sessions_agree_witness :
  is_preflight sample_get = false
  /\ scopes_blind sample_runtime
  /\ (forall r_cors,
         outcome (Main.ga4_property_sessions_oauth sample_runtime sample_get)
         = Ok r_cors ->
         exists r_oauth,
           outcome (MainOauth.ga4_property_sessions sample_runtime sample_get)
           = Ok r_oauth
           /\ same_answer r_cors r_oauth).
Proof.
  split; [reflexivity|]. split; [exact sample_runtime_scopes_blind|].
  exact (proj1 (cors_and_oauth_sessions_agree sample_runtime sample_get eq_refl
                  sample_runtime_scopes_blind)).
Defined.

Lemma cors_headers_on_every_response_witness :
  method sample_preflight = "OPTIONS"
  /\ Main.ga4_list_accounts_oauth sample_runtime sample_preflight
     = ([], Ok (mkResponse "" 204 Main._cors_headers))
  /\ Main.ga4_property_sessions_oauth sample_runtime sample_preflight
     = ([], Ok (mkResponse "" 204 Main._cors_headers)).
Proof.
  split; [reflexivity|].
  exact (proj1 (proj2 (proj2 (cors_headers_on_every_response
                                sample_runtime sample_preflight))) eq_refl).
Defined.

(* ================================================================== *)
(** * Further properties: the bearer token *)
(* ================================================================== *)

Lemma lstrip_split (sp : ascii -> bool) (s : string) :
  exists pre, s = pre ++ lstrip_by sp s.
Proof.
  induction s as [|c s [pre IH]]; simpl.
  - now exists EmptyString.
  - destruct (sp c).
    + exists (String c pre). simpl. now rewrite <- IH.
    + now exists EmptyString.
Qed.

Lemma lstrip_spec (s : string) :
  exists pre,
    s = pre ++ lstrip_by is_space s /\ all_space pre = true
    /\ (lstrip_by is_space s = EmptyString
        \/ solid (first_char (lstrip_by is_space s)) = true).
Proof.
  induction s as [|c s (pre & E & Hpre & Hhd)]; simpl.
  - exists EmptyString. repeat split. now left.
  - destruct (is_space c) eqn:Hc.
    + exists (String c pre). simpl. rewrite <- E, Hc, Hpre. now repeat split.
    + exists EmptyString. repeat split. right. simpl. now rewrite Hc.
Qed.

Lemma rstrip_spec (s : string) :
  exists post,
    s = rstrip_by is_space s ++ post /\ all_space post = true
    /\ (rstrip_by is_space s = EmptyString
        \/ solid (last_char (rstrip_by is_space s)) = true).
Proof.
  induction s as [|c s (post & E & Hpost & Hlast)]; simpl.
  - exists EmptyString. repeat split. now left.
  - destruct (rstrip_by is_space s) as [|d r] eqn:Er.
    + simpl in E. subst s. destruct (is_space c) eqn:Hc.
      * exists (String c post). simpl. rewrite Hc, Hpost. now repeat split.
      * exists post. repeat split; [assumption|]. right. simpl. now rewrite Hc.
    + exists post. simpl. rewrite E at 1. repeat split; [assumption|].
      right. destruct Hlast as [Hlast|Hlast]; [discriminate|exact Hlast].
Qed.

Lemma rstrip_first (c : ascii) (s : string) :
  is_space c = false ->
  first_char (rstrip_by is_space (String c s)) = Some c.
Proof.
  intros Hc. simpl. destruct (rstrip_by is_space s); [now rewrite Hc|reflexivity].
Qed.

(** What [strip] keeps: the string is blanks, the result, blanks, and a
    result that is not empty begins and ends with a character that is no
    blank. *)
Lemma strip_spec (s : string) :
  exists pre post,
    s = pre ++ strip s ++ post
    /\ all_space pre = true /\ all_space post = true
    /\ (strip s = EmptyString
        \/ (solid (first_char (strip s)) = true
            /\ solid (last_char (strip s)) = true)).
Proof.
  unfold strip.
  destruct (lstrip_spec s) as (pre & E & Hpre & Hhd).
  destruct (rstrip_spec (lstrip_by is_space s)) as (post & E' & Hpost & Hlast).
  exists pre, post. split; [now rewrite <- E'|].
  split; [assumption|]. split; [assumption|].
  destruct Hlast as [Hlast|Hlast]; [now left|right].
  split; [|assumption].
  destruct Hhd as [Hhd|Hhd].
  - rewrite Hhd in *. simpl in Hlast. discriminate.
  - destruct (lstrip_by is_space s) as [|c l]; [discriminate|].
    simpl in Hhd. apply negb_true_iff in Hhd.
    rewrite (rstrip_first c l Hhd). simpl. now rewrite Hhd.
Qed.

(** X1: for every request that passes the bearer check, the credentials
    helpers of main_oauth.py and main.py return the same token: the text
    of the Authorization header behind ["Bearer "] without the blanks
    around it (blanks inside it are kept), beginning and ending with a
    character that is no blank; main_oauth.py attaches no scopes, main.py
    the analytics.readonly scope. *)
Theorem bearer_token_is_stripped_payload (request : Request) :
  authorized request = true ->
  let tok := bearer_token (auth_header request) in
  outcome (MainOauth._get_user_credentials_from_request request)
  = Ok (mkCredentials tok [], tok)
  /\ outcome (Main._get_user_credentials_from_request request)
     = Ok (mkCredentials tok ["https://www.googleapis.com/auth/analytics.readonly"],
           tok)
  /\ (exists pre post,
         auth_header request = "Bearer " ++ pre ++ tok ++ post
         /\ all_space pre = true /\ all_space post = true)
  /\ solid (first_char tok) = true
  /\ solid (last_char tok) = true.
Proof.
  intros Ha tok.
  rewrite oauth_credentials_spec, cors_credentials_spec, Ha.
  split; [reflexivity|]. split; [reflexivity|].
  unfold authorized in Ha. apply andb_true_iff in Ha as [Hs Ht].
  apply negb_true_iff in Ht.
  unfold startswith in Hs. apply prefix_drop in Hs. simpl String.length in Hs.
  destruct (strip_spec (string_drop 7 (auth_header request)))
    as (pre & post & E & Hpre & Hpost & Hends).
  fold (bearer_token (auth_header request)) in E, Hends. fold tok in E, Hends.
  split.
  - exists pre, post. split; [|now split].
    rewrite Hs at 1. now rewrite <- E.
  - destruct Hends as [Hempty|Hends]; [|exact Hends].
    fold tok in Ht. rewrite Hempty in Ht. discriminate.
Qed.

Lemma bearer_token_is_stripped_payload_witness :
  authorized sample_padded = true
  /\ bearer_token (auth_header sample_padded) = "ya29 token"
  /\ outcome (MainOauth._get_user_credentials_from_request sample_padded)
     = Ok (mkCredentials "ya29 token" [], "ya29 token").
Proof.
  split; [reflexivity|]. split; [reflexivity|].
  exact (proj1 (bearer_token_is_stripped_payload sample_padded eq_refl)).
Defined.

(* ================================================================== *)
(** * Further properties: what a run calls and what it answers *)
(* ================================================================== *)

(** The runs of the three accounts listings, spelled out. *)
Lemma run_accounts_shape (h : accounts_handler) (rt : Runtime) (request : Request) :
  run_accounts h rt request =
  match h with
  | OldAccounts =>
      ([EvListAccountSummaries None],
       match list_account_summaries rt None with
       | Ok l => Ok (mkResponse (accounts_body l) 200 content_type_json)
       | Raise e => Raise e
       end)
  | OauthAccounts =>
      if authorized request then
        ([EvHeaderGet "Authorization";
          EvListAccountSummaries (creds_of OauthSessions request)],
         match list_account_summaries rt (creds_of OauthSessions request) with
         | Ok l => Ok (mkResponse (accounts_body l) 200 content_type_json)
         | Raise e => Raise e
         end)
      else
        ([EvHeaderGet "Authorization"],
         Ok (unauthorized_response content_type_json
               (auth_error oauth_missing_header oauth_empty_token request)))
  | CorsAccounts =>
      if is_preflight request then ([], Ok (mkResponse "" 204 Main._cors_headers))
      else if authorized request then
        ([EvHeaderGet "Authorization";
          EvListAccountSummaries (creds_of CorsSessions request)],
         match list_account_summaries rt (creds_of CorsSessions request) with
         | Ok l => Ok (mkResponse (accounts_body l) 200 Main._cors_headers)
         | Raise e => Ok (debug_response rt e)
         end)
      else
        ([EvHeaderGet "Authorization"],
         Ok (debug_response rt
               (ValueError (auth_error cors_missing_header cors_empty_token request))))
  end.
Proof.
  destruct h; cbn [run_accounts].
  - unfold MainOld.ga4_list_accounts, call_list_account_summaries.
    cbv [emit lift bind].
    destruct (list_account_summaries rt None) as [l|e]; [|reflexivity].
    now rewrite accounts_loop_ok.
  - unfold MainOauth.ga4_list_accounts.
    rewrite oauth_credentials_spec.
    destruct (authorized request); [|reflexivity].
    cbv [try_except call_list_account_summaries emit lift bind creds_of].
    destruct (list_account_summaries rt _) as [l|e]; [|reflexivity].
    now rewrite accounts_loop_ok.
  - unfold Main.ga4_list_accounts_oauth, Main.list_accounts_try, is_preflight.
    destruct (String.eqb (method request) "OPTIONS"); [reflexivity|].
    rewrite cors_credentials_spec.
    destruct (authorized request); [|reflexivity].
    cbv [try_except_Exception call_list_account_summaries emit lift bind creds_of].
    destruct (list_account_summaries rt _) as [l|e]; [|reflexivity].
    now rewrite accounts_loop_ok.
Qed.

(** The run of a sessions handler past its gates, spelled out to the end. *)
Lemma run_sessions_passed_full (h : sessions_handler) (rt : Runtime)
      (request : Request) :
  passes_gates h request = true ->
  run_sessions h rt request =
  match resolved_params (guarded_of h) request with
  | Raise e => ((gate_events h ++ body_events request)%list, Raise e)
  | Ok (pid, sd, ed) =>
      if truthy pid then
        match new_sessions_request pid (or_ sd (PStr "30daysAgo"))
                                   (or_ ed (PStr "today")) with
        | Raise e => ((gate_events h ++ body_events request)%list, Raise e)
        | Ok rr =>
            ((gate_events h ++ body_events request
              ++ [EvRunReport (creds_of h request) rr])%list,
             match run_report rt (creds_of h request) rr with
             | Raise e => Raise e
             | Ok response =>
                 match count_outcome rt response with
                 | Raise e => Raise e
                 | Ok n => Ok (sessions_ok (headers_of h) pid
                                           (or_ sd (PStr "30daysAgo"))
                                           (or_ ed (PStr "today")) n)
                 end
             end)
        end
      else
        ((gate_events h ++ body_events request)%list,
         Ok (missing_param_response (headers_of h)))
  end.
Proof.
  intros Hg. rewrite (run_sessions_passed_run h rt request Hg).
  destruct (resolved_params (guarded_of h) request) as [[[pid sd] ed]|e];
    [|reflexivity].
  unfold after_params. destruct (truthy pid).
  - cbv zeta. destruct (new_sessions_request pid _ _) as [rr|e]; [reflexivity|].
    cbn [trace outcome fst snd]. now rewrite app_nil_r.
  - cbn [trace outcome fst snd]. now rewrite app_nil_r.
Qed.

(** X2: a sessions handler that has sent its report request catches
    nothing the vendor raises: the exception ends the run, right behind the
    call, and no response is returned, in main.py too.  So does
    [get_sessions_for_property] of sessions.py. *)
Theorem vendor_exception_ends_sessions_run :
  (forall (h : sessions_handler) (rt : Runtime) (request : Request)
          (creds : option Credentials) (rr : RunReportRequest) (e : exn),
      In (EvRunReport creds rr) (trace (run_sessions h rt request)) ->
      run_report rt creds rr = Raise e ->
      run_sessions h rt request =
      ((gate_events h ++ body_events request ++ [EvRunReport creds rr])%list,
       Raise e))
  /\ (forall (rt : Runtime) (property_id start_date end_date : string) (e : exn),
         run_report rt None
           (sessions_request (PStr property_id) (PStr start_date) (PStr end_date))
         = Raise e ->
         Sessions.get_sessions_for_property rt property_id start_date end_date =
         ([EvRunReport None
             (sessions_request (PStr property_id) (PStr start_date) (PStr end_date))],
          Raise e)).
Proof.
  split.
  - intros h rt request creds rr e Hin Hrun.
    destruct (report_request_inv h rt request creds rr Hin)
      as (pid & sd & ed & Hg & Ep & Ht & -> & -> & Hs & He).
    rewrite (run_sessions_passed_full h rt request Hg), Ep, Ht.
    rewrite (new_sessions_request_str pid _ _ Hs He).
    now rewrite Hrun.
  - intros rt property_id start_date end_date e Hrun.
    unfold Sessions.get_sessions_for_property, call_run_report, new_data_client.
    rewrite new_sessions_request_str by reflexivity.
    cbv [emit lift bind]. now rewrite Hrun.
Qed.

Lemma vendor_exception_ends_sessions_run_witness :
  In (EvRunReport (creds_of CorsSessions sample_get) sample_report)
     (trace (run_sessions CorsSessions sample_failing_runtime sample_get))
  /\ run_sessions CorsSessions sample_failing_runtime sample_get =
     ([EvHeaderGet "Authorization";
       EvRunReport (creds_of CorsSessions sample_get) sample_report],
      Raise (Exn "PermissionDenied" "403 caller lacks permission")).
Proof.
  assert (Hin : In (EvRunReport (creds_of CorsSessions sample_get) sample_report)
                   (trace (run_sessions CorsSessions sample_failing_runtime
                                        sample_get)))
    by (vm_compute; auto).
  split; [exact Hin|].
  exact (proj1 vendor_exception_ends_sessions_run CorsSessions
               sample_failing_runtime sample_get _ _ _ Hin eq_refl).
Defined.

(** X3: the accounts listings of main_old.py and main_oauth.py and the
    script of accounts.py catch nothing the vendor raises either: the
    exception of [list_account_summaries] ends the run, no response is
    returned and nothing is printed. *)
Theorem vendor_exception_ends_listing
        (rt : Runtime) (request : Request) (creds : option Credentials) (e : exn) :
  list_account_summaries rt creds = Raise e ->
  (In (EvListAccountSummaries creds) (trace (MainOld.ga4_list_accounts rt request)) ->
   MainOld.ga4_list_accounts rt request = ([EvListAccountSummaries None], Raise e))
  /\ (In (EvListAccountSummaries creds)
         (trace (MainOauth.ga4_list_accounts rt request)) ->
      MainOauth.ga4_list_accounts rt request =
      ([EvHeaderGet "Authorization"; EvListAccountSummaries creds], Raise e))
  /\ (In (EvListAccountSummaries creds) (trace (Accounts.main rt)) ->
      Accounts.main rt = ([EvListAccountSummaries None], Raise e)).
Proof.
  intros Hv. split; [|split].
  - intros Hin.
    pose proof (run_accounts_shape OldAccounts rt request) as E.
    cbn [run_accounts] in E. rewrite E in Hin |- *.
    simpl in Hin. destruct Hin as [Hin|[]]. injection Hin as <-.
    now rewrite Hv.
  - intros Hin. apply oauth_listing_call_inv in Hin as [Ha ->].
    pose proof (run_accounts_shape OauthAccounts rt request) as E.
    cbn [run_accounts] in E. rewrite E, Ha. now rewrite Hv.
  - unfold Accounts.main, call_list_account_summaries. cbv [emit lift bind].
    destruct (list_account_summaries rt None) as [l|e'] eqn:E.
    + rewrite accounts_loop_ok. simpl. intros [Hin|[Hin|[]]]; [|discriminate Hin].
      injection Hin as <-. rewrite E in Hv. discriminate Hv.
    + simpl. intros [Hin|[]]. injection Hin as <-. rewrite E in Hv.
      now injection Hv as ->.
Qed.

Lemma vendor_exception_ends_listing_witness :
  list_account_summaries sample_failing_runtime (creds_of OauthSessions sample_get)
  = Raise (Exn "PermissionDenied" "403 caller lacks permission")
  /\ MainOauth.ga4_list_accounts sample_failing_runtime sample_get =
     ([EvHeaderGet "Authorization";
       EvListAccountSummaries (creds_of OauthSessions sample_get)],
      Raise (Exn "PermissionDenied" "403 caller lacks permission")).
Proof.
  split; [reflexivity|].
  apply (proj1 (proj2 (vendor_exception_ends_listing sample_failing_runtime
                         sample_get (creds_of OauthSessions sample_get) _ eq_refl))).
  vm_compute; auto.
Defined.

Lemma trace_shape_intro (header_read body_read : bool) (calls : list event) :
  (length calls <= 1)%nat -> forallb is_sdk_call calls = true ->
  trace_shape ((if header_read then [EvHeaderGet "Authorization"] else [])
               ++ (if body_read then [EvGetJson] else []) ++ calls).
Proof. intros Hl Hc. now exists header_read, body_read, calls. Qed.

Lemma sdk_calls_of_shape (t : list event) :
  trace_shape t -> (length (sdk_calls t) <= 1)%nat.
Proof.
  intros (hd & bd & calls & -> & Hl & Hc).
  assert (E : sdk_calls calls = calls).
  { unfold sdk_calls. clear Hl. induction calls as [|ev calls IH]; [reflexivity|].
    simpl in Hc |- *. apply andb_true_iff in Hc as [Hev Hc].
    rewrite Hev. now rewrite (IH Hc). }
  unfold sdk_calls in *. rewrite !filter_app, E.
  destruct hd, bd; simpl; assumption.
Qed.

(** X4: every run of a sessions handler or of an accounts listing reads the
    Authorization header at most once and before anything else, reads the
    JSON body at most once, and calls the vendor at most once, as the last
    thing it does; the accounts listings never read the body. *)
Theorem handler_traces_have_one_shape (rt : Runtime) (request : Request) :
  (forall h : sessions_handler,
      trace_shape (trace (run_sessions h rt request))
      /\ (length (sdk_calls (trace (run_sessions h rt request))) <= 1)%nat)
  /\ (forall h : accounts_handler,
         trace_shape (trace (run_accounts h rt request))
         /\ (length (sdk_calls (trace (run_accounts h rt request))) <= 1)%nat
         /\ ~ In EvGetJson (trace (run_accounts h rt request))).
Proof.
  split.
  - intros h.
    assert (Hs : trace_shape (trace (run_sessions h rt request))).
    { destruct (run_sessions_cases h rt request)
        as [(_ & _ & E)|[(_ & _ & E)|(Hg & _)]].
      - rewrite E. apply (trace_shape_intro false false []); [simpl; lia|reflexivity].
      - rewrite E. apply (trace_shape_intro true false []); [simpl; lia|reflexivity].
      - rewrite (run_sessions_passed_full h rt request Hg).
        assert (Eg : forall calls,
                   (gate_events h ++ body_events request ++ calls)%list
                   = ((if match h with OldSessions => false | _ => true end
                       then [EvHeaderGet "Authorization"] else [])
                      ++ (if negb (in_query request "property_id")
                          then [EvGetJson] else []) ++ calls)%list).
        { intros calls. unfold body_events.
          destruct h, (in_query request "property_id"); reflexivity. }
        destruct (resolved_params (guarded_of h) request) as [[[pid sd] ed]|e].
        + destruct (truthy pid);
            [destruct (new_sessions_request pid _ _) as [rr|e]|]; cbn [trace fst].
          * rewrite Eg. apply trace_shape_intro; [simpl; lia|reflexivity].
          * rewrite <- (app_nil_r (body_events request)), Eg.
            apply trace_shape_intro; [simpl; lia|reflexivity].
          * rewrite <- (app_nil_r (body_events request)), Eg.
            apply trace_shape_intro; [simpl; lia|reflexivity].
        + cbn [trace fst].
          rewrite <- (app_nil_r (body_events request)), Eg.
          apply trace_shape_intro; [simpl; lia|reflexivity]. }
    split; [exact Hs|now apply sdk_calls_of_shape].
  - intros h.
    assert (Hs : trace_shape (trace (run_accounts h rt request))
                 /\ ~ In EvGetJson (trace (run_accounts h rt request))).
    { rewrite run_accounts_shape. destruct h.
      - split; [apply (trace_shape_intro false false [_]); [simpl; lia|reflexivity]|].
        simpl. intuition discriminate.
      - destruct (authorized request).
        + split; [apply (trace_shape_intro true false [_]); [simpl; lia|reflexivity]|].
          simpl. intuition discriminate.
        + split; [apply (trace_shape_intro true false []); [simpl; lia|reflexivity]|].
          simpl. intuition discriminate.
      - destruct (is_preflight request); [|destruct (authorized request)].
        + split; [apply (trace_shape_intro false false []); [simpl; lia|reflexivity]|]. simpl. tauto.
        + split; [apply (trace_shape_intro true false [_]); [simpl; lia|reflexivity]|].
          simpl. intuition discriminate.
        + split; [apply (trace_shape_intro true false []); [simpl; lia|reflexivity]|].
          simpl. intuition discriminate. }
    destruct Hs as [Hs Hb].
    split; [exact Hs|]. split; [now apply sdk_calls_of_shape|exact Hb].
Qed.

Lemma sdk_calls_behind_reads (h : sessions_handler) (request : Request)
      (calls : list event) :
  sdk_calls (gate_events h ++ body_events request ++ calls) = sdk_calls calls.
Proof.
  unfold sdk_calls, body_events.
  destruct h, (in_query request "property_id"); reflexivity.
Qed.

(** X5: the status of a sessions handler's response tells which way the
    run went.  200: the request was past the gates and the one vendor call
    succeeded.  400: past the gates, no vendor call.  401: only from a
    bearer handler, for a request that fails the bearer check, with nothing
    done but the header read.  204: only from main.py, for a preflight,
    with nothing done at all.  There is no other status. *)
Theorem sessions_status_tells_the_path
        (h : sessions_handler) (rt : Runtime) (request : Request) (r : Response) :
  outcome (run_sessions h rt request) = Ok r ->
  (status r = 200%Z /\ passes_gates h request = true
   /\ exists rr response,
       sdk_calls (trace (run_sessions h rt request))
       = [EvRunReport (creds_of h request) rr]
       /\ run_report rt (creds_of h request) rr = Ok response)
  \/ (status r = 400%Z /\ passes_gates h request = true
      /\ sdk_calls (trace (run_sessions h rt request)) = []
      /\ r = missing_param_response (headers_of h))
  \/ (status r = 401%Z /\ h <> OldSessions /\ authorized request = false
      /\ trace (run_sessions h rt request) = [EvHeaderGet "Authorization"])
  \/ (status r = 204%Z /\ h = CorsSessions /\ is_preflight request = true
      /\ trace (run_sessions h rt request) = []).
Proof.
  intros Hr.
  destruct (run_sessions_cases h rt request)
    as [(Hh & Hp & E)|[(Hh & Ha & E)|(Hg & _)]].
  - right; right; right. rewrite E in Hr |- *. injection Hr as <-. now repeat split.
  - right; right; left. rewrite E in Hr |- *. injection Hr as <-. now repeat split.
  - rewrite (run_sessions_passed_full h rt request Hg) in Hr |- *.
    destruct (resolved_params (guarded_of h) request) as [[[pid sd] ed]|e];
      [|discriminate Hr].
    destruct (truthy pid);
      [destruct (new_sessions_request pid _ _) as [rr|e]; [|discriminate Hr]|];
      cbn [outcome trace fst snd] in Hr |- *.
    + left.
      destruct (run_report rt _ _) as [response|e] eqn:Erun; [|discriminate Hr].
      destruct (count_outcome rt response) as [n|e]; [|discriminate Hr].
      injection Hr as <-. split; [reflexivity|]. split; [assumption|].
      eexists _, response. rewrite sdk_calls_behind_reads. split; [reflexivity|].
      exact Erun.
    + right; left. injection Hr as <-. split; [reflexivity|]. split; [assumption|].
      rewrite <- (app_nil_r (body_events request)), sdk_calls_behind_reads.
      now split.
Qed.

Lemma sessions_status_tells_the_path_witness :
  outcome (run_sessions OauthSessions sample_runtime sample_no_property)
  = Ok (missing_param_response content_type_json)
  /\ status (missing_param_response content_type_json) = 400%Z
  /\ passes_gates OauthSessions sample_no_property = true
  /\ sdk_calls (trace (run_sessions OauthSessions sample_runtime sample_no_property))
     = [].
Proof.
  split; [reflexivity|].
  destruct (sessions_status_tells_the_path OauthSessions sample_runtime
              sample_no_property _ eq_refl)
    as [(H & _)|[(H1 & H2 & H3 & _)|[(H & _)|(H & _)]]];
    [discriminate H|now repeat split|discriminate H|discriminate H].
Defined.

(** X6: the status of an accounts listing's response tells which way the
    run went.  200: the vendor call succeeded and the body lists what it
    returned.  401: only from main_oauth.py, for a request that fails the
    bearer check.  500: only from main.py, which answers a failed bearer
    check with 500 as well and so never answers 401.  204: only from
    main.py, for a preflight.  main_old.py answers 200 or not at all. *)
Theorem listing_status_tells_the_path
        (h : accounts_handler) (rt : Runtime) (request : Request) (r : Response) :
  outcome (run_accounts h rt request) = Ok r ->
  (status r = 200%Z
   /\ exists l, list_account_summaries rt (accounts_creds h request) = Ok l
                /\ body r = accounts_body l)
  \/ (status r = 401%Z /\ h = OauthAccounts /\ authorized request = false)
  \/ (status r = 500%Z /\ h = CorsAccounts /\ is_preflight request = false
      /\ exists e, r = debug_response rt e
                   /\ (authorized request = true ->
                       list_account_summaries rt (accounts_creds h request) = Raise e))
  \/ (status r = 204%Z /\ h = CorsAccounts /\ is_preflight request = true).
Proof.
  rewrite run_accounts_shape. destruct h; cbn [accounts_creds].
  - destruct (list_account_summaries rt None) as [l|e]; [|discriminate].
    intros Hr. injection Hr as <-. left. split; [reflexivity|]. now exists l.
  - destruct (authorized request).
    + destruct (list_account_summaries rt _) as [l|e]; [|discriminate].
      intros Hr. injection Hr as <-. left. split; [reflexivity|]. now exists l.
    + intros Hr. injection Hr as <-. right; left. now repeat split.
  - destruct (is_preflight request).
    + intros Hr. injection Hr as <-. right; right; right. now repeat split.
    + destruct (authorized request).
      * destruct (list_account_summaries rt _) as [l|e].
        -- intros Hr. injection Hr as <-. left. split; [reflexivity|]. now exists l.
        -- intros Hr. injection Hr as <-. right; right; left.
           split; [reflexivity|]. split; [reflexivity|]. split; [reflexivity|].
           now exists e.
      * intros Hr. injection Hr as <-. right; right; left.
        split; [reflexivity|]. split; [reflexivity|]. split; [reflexivity|].
        eexists. split; [reflexivity|]. discriminate.
Qed.

Lemma listing_status_tells_the_path_witness :
  outcome (run_accounts CorsAccounts sample_runtime sample_anonymous)
  = Ok (debug_response sample_runtime
          (ValueError (auth_error cors_missing_header cors_empty_token
                                  sample_anonymous)))
  /\ status (debug_response sample_runtime
               (ValueError (auth_error cors_missing_header cors_empty_token
                                       sample_anonymous))) = 500%Z.
Proof.
  split; [reflexivity|].
  destruct (listing_status_tells_the_path CorsAccounts sample_runtime
              sample_anonymous _ eq_refl) as [(H & _)|[(H & _)|[(H & _)|(H & _)]]];
    first [exact H | discriminate H].
Defined.

(* ================================================================== *)
(** * Further properties: the JSON body of a request *)
(* ================================================================== *)

(** X7: when the query string holds no property_id and the JSON body is a
    truthy value that is no object (a non-empty array or string, a number
    other than 0, [true]), every sessions handler past its gates ends in
    the AttributeError of [data.get], naming the value's type, without a
    response and without a vendor call. *)
Theorem non_object_body_is_attribute_error
        (h : sessions_handler) (rt : Runtime) (request : Request) (v : pyval) :
  passes_gates h request = true ->
  in_query request "property_id" = false ->
  json request = Ok v -> truthy v = true ->
  (forall d, v <> PDict d) ->
  outcome (run_sessions h rt request)
  = Raise (Exn "AttributeError"
               (String squote (type_name v) ++ "' object has no attribute 'get'"))
  /\ trace (run_sessions h rt request) = (gate_events h ++ [EvGetJson])%list
  /\ sdk_calls (trace (run_sessions h rt request)) = [].
Proof.
  intros Hg Hq Hj Ht Hd.
  rewrite (non_object_body_raises h rt request v Hg Hq Hj Ht Hd).
  split; [reflexivity|]. split; [reflexivity|]. now destruct h.
Qed.

Lemma non_object_body_is_attribute_error_witness :
  passes_gates OauthSessions sample_array_body = true
  /\ in_query sample_array_body "property_id" = false
  /\ outcome (run_sessions OauthSessions sample_runtime sample_array_body)
     = Raise (Exn "AttributeError" "'list' object has no attribute 'get'").
Proof.
  split; [reflexivity|]. split; [reflexivity|].
  apply (non_object_body_is_attribute_error OauthSessions sample_runtime
           sample_array_body (PList [PStr "182279779"]));
    try reflexivity.
  intros d H. discriminate H.
Defined.

(** X8: when the query string holds no property_id and the JSON body
    cannot be read, main_old.py and main_oauth.py take the body for empty
    and answer 400, while main.py, which reads it unguarded, ends in the
    exception of the read; none calls the vendor. *)
Theorem unreadable_body_is_empty_where_guarded
        (h : sessions_handler) (rt : Runtime) (request : Request) (e : exn) :
  passes_gates h request = true ->
  in_query request "property_id" = false ->
  json request = Raise e ->
  run_sessions h rt request
  = ((gate_events h ++ [EvGetJson])%list, unreadable_outcome h e).
Proof.
  intros Hg Hq Hj.
  rewrite (run_sessions_passed_full h rt request Hg).
  unfold resolved_params, body_events, params_outcome.
  rewrite Hq, Hj. destruct h; reflexivity.
Qed.

Lemma unreadable_body_is_empty_where_guarded_witness :
  passes_gates OauthSessions sample_unreadable = true
  /\ passes_gates CorsSessions sample_unreadable = true
  /\ run_sessions OauthSessions sample_runtime sample_unreadable
     = ([EvHeaderGet "Authorization"; EvGetJson],
        Ok (missing_param_response content_type_json))
  /\ run_sessions CorsSessions sample_runtime sample_unreadable
     = ([EvHeaderGet "Authorization"; EvGetJson],
        Raise (Exn "RequestEntityTooLarge" "413 Request Entity Too Large")).
Proof.
  split; [reflexivity|]. split; [reflexivity|]. split.
  - exact (unreadable_body_is_empty_where_guarded OauthSessions sample_runtime
             sample_unreadable _ eq_refl eq_refl eq_refl).
  - exact (unreadable_body_is_empty_where_guarded CorsSessions sample_runtime
             sample_unreadable _ eq_refl eq_refl eq_refl).
Defined.

Lemma sessions_core_body_blind (rt : Runtime) (guarded : bool)
      (creds : option Credentials) (hdrs : list (string * string))
      (request : Request) (j : result pyval) :
  in_query request "property_id" = true ->
  sessions_core rt guarded creds hdrs (with_json request j)
  = sessions_core rt guarded creds hdrs request.
Proof.
  intros Hq. rewrite !sessions_core_run.
  unfold resolved_params, body_events.
  change (in_query (with_json request j) "property_id")
    with (in_query request "property_id").
  now rewrite Hq.
Qed.

(** X9: with property_id in the query string the JSON body plays no part:
    whatever the body is, readable or not, an object or not, every sessions
    handler runs the same, to the same trace and the same outcome. *)
Theorem query_property_id_shuts_the_body_out
        (h : sessions_handler) (rt : Runtime) (request : Request)
        (j : result pyval) :
  in_query request "property_id" = true ->
  run_sessions h rt (with_json request j) = run_sessions h rt request.
Proof.
  intros Hq. destruct h; cbn [run_sessions].
  - rewrite !old_sessions_is_core. now apply sessions_core_body_blind.
  - rewrite !oauth_sessions_is_core.
    change (authorized (with_json request j)) with (authorized request).
    destruct (authorized request); [|reflexivity].
    change (creds_of OauthSessions (with_json request j))
      with (creds_of OauthSessions request).
    now rewrite (sessions_core_body_blind rt true _ _ request j Hq).
  - rewrite !cors_sessions_is_core.
    change (is_preflight (with_json request j)) with (is_preflight request).
    destruct (is_preflight request); [reflexivity|].
    change (authorized (with_json request j)) with (authorized request).
    destruct (authorized request); [|reflexivity].
    change (creds_of CorsSessions (with_json request j))
      with (creds_of CorsSessions request).
    now rewrite (sessions_core_body_blind rt false _ _ request j Hq).
Qed.

Lemma query_property_id_shuts_the_body_out_witness :
  in_query sample_get "property_id" = true
  /\ run_sessions CorsSessions sample_runtime
       (with_json sample_get (Ok (PList [PInt 1])))
     = run_sessions CorsSessions sample_runtime sample_get.
Proof.
  split; [reflexivity|].
  exact (query_property_id_shuts_the_body_out CorsSessions sample_runtime
           sample_get _ eq_refl).
Defined.

(* ================================================================== *)
(** * Further properties: from the listing to the sessions *)
(* ================================================================== *)

Lemma contains_app_sep (sep : ascii) (pre s : string) :
  contains sep (pre ++ String sep s) = true.
Proof.
  induction pre as [|c pre IH]; simpl.
  - now rewrite Ascii.eqb_refl.
  - rewrite IH. apply orb_true_r.
Qed.

Lemma after_last_app (sep : ascii) (pre s : string) :
  contains sep s = false -> after_last sep (pre ++ String sep s) = s.
Proof.
  intros Hs. induction pre as [|c pre IH]; simpl.
  - now rewrite Hs, Ascii.eqb_refl.
  - now rewrite contains_app_sep.
Qed.

(** X10: the listing and the sessions handlers fit together.  For a
    property whose resource name is ["properties/"] followed by an id
    without ["/"], the listing's entry carries that id as propertyId, and a
    request past the gates with this id as property_id in its query string
    has exactly one report sent, for the resource name the listing
    showed. *)
Theorem listed_property_id_addresses_its_property
        (h : sessions_handler) (rt : Runtime) (request : Request)
        (p : PropertySummary) (id : string) :
  ps_property p = "properties/" ++ id ->
  contains "/" id = false ->
  id <> "" ->
  passes_gates h request = true ->
  args_get request "property_id" = PStr id ->
  property_entry p
  = ret (PDict [("property", PStr (ps_property p));
                ("propertyId", PStr id);
                ("displayName", PStr (ps_display_name p))])
  /\ exists rr,
      report_requests (trace (run_sessions h rt request)) = [rr]
      /\ property rr = ps_property p.
Proof.
  intros Hname Hid Hne Hg Hq. split.
  - rewrite property_entry_ok. unfold property_json. rewrite Hname.
    change ("properties/" ++ id) with ("properties" ++ String "/" id).
    now rewrite (after_last_app "/" "properties" id Hid).
  - assert (Ht : truthy (PStr id) = true).
    { simpl. destruct id; [congruence|reflexivity]. }
    assert (Hq' : in_query request "property_id" = true).
    { unfold in_query. now rewrite Hq. }
    assert (Hp : query_or_body request "property_id" = PStr id).
    { unfold query_or_body. now rewrite Hq'. }
    rewrite (run_sessions_sent h rt request Hg);
      [|now rewrite Hp|now apply settled_date_query_is_str..].
    cbv zeta. cbn [trace fst].
    eexists. rewrite report_requests_passed. split; [reflexivity|].
    cbn [property]. now rewrite Hp, Hname.
Qed.

Lemma listed_property_id_addresses_its_property_witness :
  ps_property sample_listed = "properties/" ++ "182279779"
  /\ args_get sample_get "property_id" = PStr "182279779"
  /\ exists rr,
      report_requests (trace (run_sessions OauthSessions sample_runtime sample_get))
      = [rr]
      /\ property rr = ps_property sample_listed.
Proof.
  split; [reflexivity|]. split; [reflexivity|].
  apply (listed_property_id_addresses_its_property OauthSessions sample_runtime
           sample_get sample_listed "182279779");
    try reflexivity.
  intros H. discriminate H.
Defined.

(* ================================================================== *)
(** * Further properties: who is served, and with what words *)
(* ================================================================== *)

(** X11: main_old.py authenticates no caller.  Its two handlers never
    call [request.headers.get], so the Authorization header is never
    read, and they hand the ambient credentials to every vendor call they
    make.  The listing makes its one call for every request, the sessions
    handler makes its one call for every request that supplies a property
    id and string dates, bearer header or not.  Neither ever answers 401:
    the sessions handler answers 200 or 400, the listing 200. *)
Theorem main_old_serves_any_caller (rt : Runtime) (request : Request) :
  let pid := query_or_body request "property_id" in
  let sd := settled_date request "start_date" "30daysAgo" in
  let ed := settled_date request "end_date" "today" in
  (forall ev : event,
      In ev (trace (MainOld.ga4_property_sessions rt request))
      \/ In ev (trace (MainOld.ga4_list_accounts rt request)) ->
      match ev with
      | EvHeaderGet _ | EvPrint _ => False
      | EvListAccountSummaries creds | EvRunReport creds _ => creds = None
      | EvGetJson => True
      end)
  /\ trace (MainOld.ga4_list_accounts rt request) = [EvListAccountSummaries None]
  /\ (truthy pid = true -> is_str sd = true -> is_str ed = true ->
      sdk_calls (trace (MainOld.ga4_property_sessions rt request))
      = [EvRunReport None
           (mkRunReportRequest ("properties/" ++ str pid) [mkMetric "sessions"]
                               [mkDateRange sd ed])])
  /\ (forall r : Response,
         outcome (MainOld.ga4_property_sessions rt request) = Ok r ->
         status r = 200%Z \/ status r = 400%Z)
  /\ (forall r : Response,
         outcome (MainOld.ga4_list_accounts rt request) = Ok r -> status r = 200%Z).
Proof.
  cbv zeta.
  pose proof (run_accounts_shape OldAccounts rt request) as El.
  cbn [run_accounts] in El.
  change (MainOld.ga4_property_sessions rt request)
    with (run_sessions OldSessions rt request).
  split; [|split; [|split; [|split]]].
  - intros ev [Hin|Hin].
    + rewrite (run_sessions_passed_full OldSessions rt request eq_refl) in Hin.
      unfold body_events in Hin.
      destruct (resolved_params _ request) as [[[pid sd] ed]|e];
        [destruct (truthy pid);
         [destruct (new_sessions_request pid _ _) as [rr|e]|]|];
        destruct (in_query request "property_id");
        simpl in Hin; intuition (subst; auto).
    + rewrite El in Hin. simpl in Hin. destruct Hin as [<-|[]]. reflexivity.
  - now rewrite El.
  - intros Ht Hs He.
    rewrite (run_sessions_sent OldSessions rt request eq_refl Ht Hs He).
    cbv zeta. cbn [trace fst]. apply sdk_calls_behind_reads.
  - intros r Hr.
    rewrite (run_sessions_passed_full OldSessions rt request eq_refl) in Hr.
    destruct (resolved_params _ request) as [[[pid sd] ed]|e]; [|discriminate Hr].
    destruct (truthy pid);
      [destruct (new_sessions_request pid _ _) as [rr|e]; [|discriminate Hr]|];
      cbn [outcome snd] in Hr.
    + destruct (run_report rt _ _) as [response|e]; [|discriminate Hr].
      destruct (count_outcome rt response) as [n|e]; [|discriminate Hr].
      injection Hr as <-. now left.
    + injection Hr as <-. now right.
  - intros r. rewrite El. cbn [outcome snd].
    destruct (list_account_summaries rt None) as [l|e]; [|discriminate].
    intros Hr. injection Hr as <-. reflexivity.
Qed.

(** X12: the body of a 401.  A header that does not start with
    ["Bearer "] (none at all, ["Bearer"] alone, another scheme, another
    case) gets the "missing or invalid" message of the file, a header that
    does but holds only blanks behind it gets the "empty token" message;
    the body is the one-field JSON object with that message, letter for
    letter. *)
Theorem unauthorized_body_is_the_files_message (rt : Runtime) (request : Request) :
  authorized request = false ->
  outcome (MainOauth.ga4_list_accounts rt request)
  = Ok (mkResponse
          (error_body (if startswith (auth_header request) "Bearer "
                       then "Empty bearer token in Authorization header."
                       else "Missing or invalid Authorization header. Expected: 'Authorization: Bearer <ACCESS_TOKEN>'"))
          401 content_type_json)
  /\ outcome (MainOauth.ga4_property_sessions rt request)
     = outcome (MainOauth.ga4_list_accounts rt request)
  /\ (is_preflight request = false ->
      outcome (Main.ga4_property_sessions_oauth rt request)
      = Ok (mkResponse
              (error_body (if startswith (auth_header request) "Bearer "
                           then "Empty bearer token."
                           else "Missing/invalid Authorization header. Use: Bearer <ACCESS_TOKEN>"))
              401 Main._cors_headers)).
Proof.
  intros Ha.
  change (MainOauth.ga4_property_sessions rt request)
    with (run_sessions OauthSessions rt request).
  change (Main.ga4_property_sessions_oauth rt request)
    with (run_sessions CorsSessions rt request).
  rewrite (oauth_list_accounts_unauthorized rt request Ha).
  rewrite (run_sessions_unauthorized OauthSessions rt request)
    by (try discriminate; assumption).
  split; [|split; [reflexivity|]].
  - cbn [outcome snd]. unfold auth_error.
    now destruct (startswith (auth_header request) "Bearer ").
  - intros Hp.
    rewrite (run_sessions_unauthorized CorsSessions rt request)
      by (try discriminate; auto).
    cbn [outcome snd auth_error_of]. unfold auth_error.
    now destruct (startswith (auth_header request) "Bearer ").
Qed.

Lemma unauthorized_body_is_the_files_message_witness :
  authorized sample_anonymous = false
  /\ outcome (MainOauth.ga4_list_accounts sample_runtime sample_anonymous)
     = Ok (mkResponse
             (error_body "Missing or invalid Authorization header. Expected: 'Authorization: Bearer <ACCESS_TOKEN>'")
             401 content_type_json).
Proof.
  split; [reflexivity|].
  exact (proj1 (unauthorized_body_is_the_files_message sample_runtime
                  sample_anonymous eq_refl)).
Defined.

Lemma main_old_serves_any_caller_witness :
  headers sample_bare = []
  /\ trace (MainOld.ga4_list_accounts sample_runtime sample_bare)
     = [EvListAccountSummaries None]
  /\ sdk_calls (trace (MainOld.ga4_property_sessions sample_runtime sample_bare))
     = [EvRunReport None
          (mkRunReportRequest "properties/182279779" [mkMetric "sessions"]
             [mkDateRange (PStr "30daysAgo") (PStr "today")])].
Proof.
  split; [reflexivity|].
  destruct (main_old_serves_any_caller sample_runtime sample_bare)
    as (_ & Hlist & Hsent & _).
  split; [exact Hlist|]. exact (Hsent eq_refl eq_refl eq_refl).
Defined.

(* ================================================================== *)
(** * Further properties: the script of sessions.py *)
(* ================================================================== *)


